(** * Cross-border semantic negotiation: the alignment and transformation engine

    A shallow embedding of the negotiation code of
    [src/cross_border_implementation.py], [src/server.py],
    [src/enhanced_server.py] and [src/enhanced_demo.py], and the properties
    of its confidence aggregation, decision policy, candidate selection and
    value conversions.

    Conventions of the embedding:
    - a Python [float] is an exact rational ([Q]); comparisons are the
      exact ones, arithmetic is the exact one (no binary rounding);
    - a Python [str] is a [string] of bytes; [lower] folds the ASCII
      letters only;
    - a [dict] whose iteration order the code relies on is an association
      list, any other [dict] is a [gmap];
    - [random.uniform] reads its draws from an explicit oracle;
    - [print] appends to an explicit list of lines where a property talks
      about the printed warning;
    - an exception is a value of [exn] in the left summand of [result]. *)

From Stdlib Require Import QArith Qround ZArith String Ascii List Bool Lia Lqa.
From stdpp Require Import gmap strings list pretty sorting.

Open Scope Q_scope.

(** ** Python floats and strings *)

Module Py.

(** [a < b] on floats. *)
Definition Qlt_bool (a b : Q) : bool := negb (Qle_bool b a).

(** The builtin [min(a, b)]: the first argument unless the second is
    strictly smaller. *)
Definition min (a b : Q) : Q := if Qlt_bool b a then b else a.

(** [q] to the nearest integer, ties to even, which is what
    [round(x, k)] and the [.kf] format do on the exact value of
    [x * 10^k]. *)
Definition round_half_even (q : Q) : Z :=
  let fl := Qfloor q in
  match Qcompare (q - inject_Z fl) (1 # 2) with
  | Lt => fl
  | Gt => (fl + 1)%Z
  | Eq => if Z.even fl then fl else (fl + 1)%Z
  end.

(** [round(q, 3)]. *)
Definition round3 (q : Q) : Q := Qmake (round_half_even (q * 1000)) 1000.

(** The decimal digits of a natural number, at least [w] of them. *)
Fixpoint zero_pad (w : nat) (s : string) : string :=
  match w with
  | O => s
  | S w' => if (String.length s <? S w')%nat then "0" ++ zero_pad w' s else s
  end.

(** [f"{q:.2f}"]. *)
Definition format_2f (q : Q) : string :=
  let h := round_half_even (q * 100) in
  let a := Z.abs h in
  ((if (h <? 0)%Z then "-" else "") ++
   pretty (a / 100)%Z ++ "." ++ zero_pad 2 (pretty (a mod 100)%Z))%string.

(** [str.lower()] on ASCII. *)
Definition lower_ascii (c : ascii) : ascii :=
  let n := nat_of_ascii c in
  if ((65 <=? n) && (n <=? 90))%nat then ascii_of_nat (n + 32) else c.

Fixpoint lower (s : string) : string :=
  match s with
  | EmptyString => EmptyString
  | String c r => String (lower_ascii c) (lower r)
  end.

(** [part in s] on strings: [part] occurs as a substring of [s]. *)
Fixpoint contains (part s : string) : bool :=
  String.prefix part s ||
  match s with
  | EmptyString => false
  | String _ r => contains part r
  end.

(** [s.split(sep)] for a one-character separator: the pieces between
    the separators, empty pieces included. *)
Fixpoint split_aux (sep : ascii) (cur : string) (s : string) : list string :=
  match s with
  | EmptyString => [String.rev cur]
  | String c r =>
      if Ascii.eqb c sep then String.rev cur :: split_aux sep EmptyString r
      else split_aux sep (String c cur) r
  end.

Definition split (sep : ascii) (s : string) : list string :=
  split_aux sep EmptyString s.

(** Truth value of a string: non-empty. *)
Definition truthy_str (s : string) : bool :=
  match s with EmptyString => false | _ => true end.

(** The exceptions the modelled code can meet. *)
Inductive exn : Type :=
| TypeError (msg : string)
| KeyError (key : string)
| UnboundLocalError (name : string).

Inductive result (A : Type) : Type :=
| Ok (a : A)
| Raise (e : exn).
Arguments Ok {A} a.
Arguments Raise {A} e.

Definition bind {A B} (r : result A) (k : A -> result B) : result B :=
  match r with
  | Ok a => k a
  | Raise e => Raise e
  end.

(** The arithmetic mean the specification speaks of: the sum of the
    values over their number, and [0] for no value. *)
Definition Qsum (l : list Q) : Q := fold_right Qplus 0 l.

Definition mean (l : list Q) : Q :=
  match l with
  | [] => 0
  | _ => Qsum l / inject_Z (Z.of_nat (length l))
  end.

(** The builtin [sum]: starts from [0] and adds from the left. *)
Definition sum (l : list Q) : Q := fold_left Qplus l 0.

End Py.

(** ** cross_border_implementation.py *)

Module CrossBorder.

(** [CountryCode] and its [.value]. *)
Inductive CountryCode : Type := ITALY | GERMANY | FRANCE | SPAIN.

Definition CountryCode_value (c : CountryCode) : string :=
  match c with
  | ITALY => "IT"
  | GERMANY => "DE"
  | FRANCE => "FR"
  | SPAIN => "ES"
  end.

Definition CountryCode_eqb (a b : CountryCode) : bool :=
  match a, b with
  | ITALY, ITALY | GERMANY, GERMANY | FRANCE, FRANCE | SPAIN, SPAIN => true
  | _, _ => false
  end.

Inductive DocumentType : Type :=
| BIRTH_CERTIFICATE | MARRIAGE_CERTIFICATE | DEATH_CERTIFICATE
| ACADEMIC_DIPLOMA | CRIMINAL_RECORD.

(** The values a source record holds ([Dict[str, Any]], restricted to
    the JSON-like ones). *)
#[warnings="-register-all"]
Inductive pyvalue : Type :=
| VNone
| VBool (b : bool)
| VInt (z : Z)
| VStr (s : string)
| VDict (d : list (string * pyvalue))
| VList (l : list pyvalue).

(** Truth value, as [if v] tests it. *)
Definition truthy (v : pyvalue) : bool :=
  match v with
  | VNone => false
  | VBool b => b
  | VInt z => negb (z =? 0)%Z
  | VStr s => Py.truthy_str s
  | VDict d => match d with [] => false | _ => true end
  | VList l => match l with [] => false | _ => true end
  end.

(** The name of the type, as the [TypeError] messages print it. *)
Definition type_name (v : pyvalue) : string :=
  match v with
  | VNone => "NoneType"
  | VBool _ => "bool"
  | VInt _ => "int"
  | VStr _ => "str"
  | VDict _ => "dict"
  | VList _ => "list"
  end.

(** The type of an argument as the message of a builtin that refuses it
    prints it: [None] is printed as itself. *)
Definition argument_name (v : pyvalue) : string :=
  match v with
  | VNone => "None"
  | _ => type_name v
  end.

Module SemanticAlignment.
Record t : Type := mk {
  source_field : string;
  target_field : string;
  confidence_score : Q;
  alignment_type : string;
  transformation_rule : string;
  data_type_mapping : option string;
  validation_rule : option string
}.
End SemanticAlignment.

(** The positional constructor with the two defaulted fields. *)
Definition mkSemanticAlignment (s t : string) (c : Q) (ty rule : string)
  : SemanticAlignment.t :=
  SemanticAlignment.mk s t c ty rule None None.

Module CrossBorderRequest.
Record t : Type := mk {
  request_id : string;
  source_country : CountryCode;
  target_country : CountryCode;
  document_type : DocumentType;
  purpose : string;
  status : string;
  alignments : list SemanticAlignment.t;
  transformation_map : gmap string string;
  confidence_score : Q
}.
End CrossBorderRequest.

Record EuropeanDigitalServiceAgent : Type := mkAgent {
  llm_model : string;
  retriever_model : string;
  confidence_threshold : Q
}.

(** The agent of the default constructor arguments. *)
Definition default_agent : EuropeanDigitalServiceAgent :=
  mkAgent "mistralai/Mistral-7B-v0.3" "all-MiniLM-L6-v2" 0.8.

(** [self.country_schemas] has an entry for Italy and for Germany only. *)
Definition has_country_schema (c : CountryCode) : bool :=
  match c with
  | ITALY | GERMANY => true
  | _ => false
  end.

(** *** [datetime.strptime(s, "%d/%m/%Y")] and [strftime] *)

Definition in_range (c lo hi : ascii) : bool :=
  ((nat_of_ascii lo <=? nat_of_ascii c) && (nat_of_ascii c <=? nat_of_ascii hi))%nat.

Definition is_digit (c : ascii) : bool := in_range c "0" "9".

Definition digit (c : ascii) : Z := Z.of_nat (nat_of_ascii c - 48).

(** The directive [%d]: [3[0-1]|[1-2]\d|0[1-9]|[1-9]| [1-9]]. *)
Definition directive_d (s : string) : option Z :=
  match s with
  | String c EmptyString =>
      if in_range c "1" "9" then Some (digit c) else None
  | String c1 (String c2 EmptyString) =>
      if Ascii.eqb c1 "3" && in_range c2 "0" "1" then Some (30 + digit c2)%Z
      else if in_range c1 "1" "2" && is_digit c2 then Some (10 * digit c1 + digit c2)%Z
      else if Ascii.eqb c1 "0" && in_range c2 "1" "9" then Some (digit c2)
      else if Ascii.eqb c1 " " && in_range c2 "1" "9" then Some (digit c2)
      else None
  | _ => None
  end.

(** The directive [%m]: [1[0-2]|0[1-9]|[1-9]]. *)
Definition directive_m (s : string) : option Z :=
  match s with
  | String c EmptyString =>
      if in_range c "1" "9" then Some (digit c) else None
  | String c1 (String c2 EmptyString) =>
      if Ascii.eqb c1 "1" && in_range c2 "0" "2" then Some (10 + digit c2)%Z
      else if Ascii.eqb c1 "0" && in_range c2 "1" "9" then Some (digit c2)
      else None
  | _ => None
  end.

(** The directive [%Y]: four digits. *)
Definition directive_Y (s : string) : option Z :=
  match s with
  | String a (String b (String c (String d EmptyString))) =>
      if is_digit a && is_digit b && is_digit c && is_digit d
      then Some (1000 * digit a + 100 * digit b + 10 * digit c + digit d)%Z
      else None
  | _ => None
  end.

Definition is_leap (y : Z) : bool :=
  ((y mod 4 =? 0) && (negb (y mod 100 =? 0) || (y mod 400 =? 0)))%Z.

Definition days_in_month (y m : Z) : Z :=
  if (m =? 2)%Z then (if is_leap y then 29 else 28)%Z
  else if ((m =? 4) || (m =? 6) || (m =? 9) || (m =? 11))%Z then 30%Z
  else 31%Z.

(** A [datetime] at midnight. *)
Record datetime : Type := mkDatetime { year : Z; month : Z; day : Z }.

(** [datetime.strptime(s, "%d/%m/%Y")]: the three directives separated by
    slashes must cover the whole string and name a date of the calendar
    (years 1 to 9999); [None] stands for the [ValueError]. No directive
    matches a slash, so the pieces are the ones [split] gives. *)
Definition strptime (s : string) : option datetime :=
  match Py.split "/" s with
  | [ds; ms; ys] =>
      match directive_d ds, directive_m ms, directive_Y ys with
      | Some d, Some m, Some y =>
          if ((1 <=? y) && (d <=? days_in_month y m))%Z
          then Some (mkDatetime y m d)
          else None
      | _, _, _ => None
      end
  | _ => None
  end.

Section Strftime.

(** Whether [strftime] pads [%Y] to four digits: that depends on the
    platform's C library and matters for the years below 1000 only. *)
Variable pad_year : bool.

Definition strftime_Y (y : Z) : string :=
  if pad_year then Py.zero_pad 4 (pretty y) else pretty y.

(** [date_obj.strftime("%Y-%m-%dT00:00:00Z")]. *)
Definition strftime (dt : datetime) : string :=
  (strftime_Y (year dt) ++ "-" ++ Py.zero_pad 2 (pretty (month dt)) ++ "-" ++
   Py.zero_pad 2 (pretty (day dt)) ++ "T00:00:00Z")%string.

(** *** The value conversions *)

(** [_transform_date_format]: the converted value and the lines printed. *)
Definition _transform_date_format (date_value : pyvalue)
    (source_country target_country : CountryCode)
  : Py.result pyvalue * list string :=
  if CountryCode_eqb source_country ITALY && CountryCode_eqb target_country GERMANY
  then
    match date_value with
    | VStr s =>
        match strptime s with
        | Some date_obj => (Py.Ok (VStr (strftime date_obj)), [])
        | None =>
            (Py.Ok date_value,
             [("⚠️ Date format transformation failed for: " ++ s)%string])
        end
    | _ =>
        (Py.Raise (Py.TypeError
           ("strptime() argument 1 must be str, not " ++ argument_name date_value)%string),
         [])
    end
  else (Py.Ok date_value, []).

(** [_transform_data_structure]. *)
Definition _transform_data_structure (value : pyvalue) (alignment : SemanticAlignment.t)
  : pyvalue :=
  if String.eqb (SemanticAlignment.source_field alignment) "genitori"
     && String.eqb (SemanticAlignment.target_field alignment) "eltern"
  then
    match value with
    | VDict d => VList (filter (fun v => truthy v = true) (map snd d))
    | _ => value
    end
  else value.

(** The table of [_transform_enum_value]. *)
Definition gender_map : gmap string string :=
  <["F" := "FEMALE"%string]> (<["M" := "MALE"%string]> ∅).

(** [d.get(value, value)] on a table keyed by strings: a value that is
    not hashable raises, any other value that is no key is returned. *)
Definition dict_get_or_self (d : gmap string string) (value : pyvalue)
  : Py.result pyvalue :=
  match value with
  | VStr s =>
      match d !! s with
      | Some m => Py.Ok (VStr m)
      | None => Py.Ok value
      end
  | VDict _ | VList _ =>
      Py.Raise (Py.TypeError ("unhashable type: '" ++ type_name value ++ "'")%string)
  | _ => Py.Ok value
  end.

(** [_transform_enum_value]. *)
Definition _transform_enum_value (value : pyvalue) (source_field target_field : string)
  : Py.result pyvalue :=
  if String.eqb source_field "sesso" && String.eqb target_field "geschlecht"
  then dict_get_or_self gender_map value
  else Py.Ok value.

(** [_derive_nationality_from_tax_code]. *)
Definition _derive_nationality_from_tax_code (tax_code : pyvalue)
    (source_country : CountryCode) : string :=
  match source_country with
  | ITALY => "Italian"
  | GERMANY => "German"
  | _ => CountryCode_value source_country
  end.

(** [_apply_field_transformation]. *)
Definition _apply_field_transformation (value : pyvalue)
    (alignment : SemanticAlignment.t) (source_country target_country : CountryCode)
  : Py.result pyvalue * list string :=
  let rule := SemanticAlignment.transformation_rule alignment in
  if String.prefix "DIRECT_MAP" rule then (Py.Ok value, [])
  else if String.prefix "DATE_FORMAT_TRANSFORM" rule then
    _transform_date_format value source_country target_country
  else if String.prefix "STRUCTURE_TRANSFORM" rule then
    (Py.Ok (_transform_data_structure value alignment), [])
  else if String.prefix "ENUM_TRANSFORM" rule then
    (_transform_enum_value value (SemanticAlignment.source_field alignment)
       (SemanticAlignment.target_field alignment), [])
  else if String.prefix "DERIVE_NATIONALITY" rule then
    (Py.Ok (VStr (_derive_nationality_from_tax_code value source_country)), [])
  else (Py.Ok value, []).

(** One turn of the loop of [transform_citizen_data] over
    [request.alignments]; the state is the output record built so far and
    the warnings printed so far. *)
Definition transform_step (source_dict : gmap string pyvalue)
    (source_country target_country : CountryCode)
    (st : Py.result (gmap string pyvalue) * list string)
    (alignment : SemanticAlignment.t)
  : Py.result (gmap string pyvalue) * list string :=
  match st with
  | (Py.Ok transformed_data, out) =>
      match source_dict !! SemanticAlignment.source_field alignment with
      | Some source_value =>
          match _apply_field_transformation source_value alignment
                  source_country target_country with
          | (Py.Ok transformed_value, w) =>
              (Py.Ok (<[SemanticAlignment.target_field alignment := transformed_value]>
                        transformed_data), out ++ w)
          | (Py.Raise e, w) => (Py.Raise e, out ++ w)
          end
      | None => st
      end
  | (Py.Raise _, _) => st
  end.

(** [transform_citizen_data], on the record as a dictionary. Of the
    printed lines the date warnings are kept. *)
Definition transform_citizen_data (request : CrossBorderRequest.t)
    (source_dict : gmap string pyvalue)
  : Py.result (gmap string pyvalue) * list string :=
  let sc := CrossBorderRequest.source_country request in
  let tc := CrossBorderRequest.target_country request in
  match fold_left (transform_step source_dict sc tc)
          (CrossBorderRequest.alignments request) (Py.Ok ∅, []) with
  | (Py.Ok transformed_data, out) =>
      match source_dict !! "codice_fiscale"%string with
      | Some tax_code =>
          if CountryCode_eqb tc GERMANY
          then (Py.Ok (<["staatsangehoerigkeit"%string :=
                           VStr (_derive_nationality_from_tax_code tax_code sc)]>
                         transformed_data), out)
          else (Py.Ok transformed_data, out)
      | None => (Py.Ok transformed_data, out)
      end
  | st => st
  end.

End Strftime.

(** *** The negotiation *)

(** [_build_transformation_map]. *)
Definition _build_transformation_map (self : EuropeanDigitalServiceAgent)
    (alignments : list SemanticAlignment.t) : gmap string string :=
  fold_left
    (fun transformation_map alignment =>
       if Qle_bool (confidence_threshold self)
            (SemanticAlignment.confidence_score alignment)
       then <[SemanticAlignment.source_field alignment :=
                SemanticAlignment.target_field alignment]> transformation_map
       else transformation_map)
    alignments ∅.

(** The table of [_fallback_rule_based_alignment]. *)
Definition demo_alignments : list (string * string * Q * string * string) :=
  [ ("cognome", "familienname", 0.95, "exact", "DIRECT_MAP");
    ("nome", "vorname", 0.93, "exact", "DIRECT_MAP");
    ("data_nascita", "geburtsdatum", 0.87, "exact", "DATE_FORMAT_TRANSFORM");
    ("luogo_nascita", "geburtsort", 0.91, "exact", "DIRECT_MAP");
    ("genitori", "eltern", 0.78, "related", "STRUCTURE_TRANSFORM");
    ("sesso", "geschlecht", 0.89, "exact", "ENUM_TRANSFORM");
    ("codice_fiscale", "staatsangehoerigkeit", 0.65, "related", "DERIVE_NATIONALITY")
  ]%string.

(** [_fallback_rule_based_alignment]; the schemas are not read. *)
Definition _fallback_rule_based_alignment : list SemanticAlignment.t :=
  map (fun '(source, target, confidence, relation, transform_type) =>
         mkSemanticAlignment source target confidence relation
           (transform_type ++ "(" ++ source ++ " → " ++ target ++ ")")%string)
      demo_alignments.

(** One matching of the aligner's output: a dictionary read with [get]
    and a default, so every key may be missing. *)
Record matching : Type := mkMatching {
  source_concept : option string;
  target_concept : option string;
  confidence : option Q;
  relation : option string
}.

(** [_generate_transformation_rule]. *)
Definition _generate_transformation_rule (m : matching) : string :=
  let source := default ""%string (source_concept m) in
  let target := default ""%string (target_concept m) in
  let confidence := default 0 (confidence m) in
  if Qle_bool 0.9 confidence then
    ("DIRECT_MAP(" ++ source ++ " → " ++ target ++ ")")%string
  else if Qle_bool 0.7 confidence then
    ("TRANSFORM(" ++ source ++ " → " ++ target ++ ", confidence=" ++
     Py.format_2f confidence ++ ")")%string
  else
    ("MANUAL_REVIEW(" ++ source ++ " → " ++ target ++ ", confidence=" ++
     Py.format_2f confidence ++ ")")%string.

(** [_process_alignments]. *)
Definition _process_alignments (matchings : list matching) : list SemanticAlignment.t :=
  map (fun m =>
         mkSemanticAlignment
           (default ""%string (source_concept m))
           (default ""%string (target_concept m))
           (default 0 (confidence m))
           (default "related"%string (relation m))
           (_generate_transformation_rule m))
      matchings.

(** What the call of the external aligner pipeline does inside the [try]:
    it returns the matchings and the evaluation (of which the ['f-score']
    entry is read), or the block raises. *)
Inductive pipeline_outcome : Type :=
| PipelineReturned (matchings : list matching) (f_score : option Q)
| PipelineRaised.

Definition set_negotiation (request : CrossBorderRequest.t)
    (al : list SemanticAlignment.t) (tm : gmap string string) (c : Q)
  : CrossBorderRequest.t :=
  CrossBorderRequest.mk
    (CrossBorderRequest.request_id request)
    (CrossBorderRequest.source_country request)
    (CrossBorderRequest.target_country request)
    (CrossBorderRequest.document_type request)
    (CrossBorderRequest.purpose request)
    (CrossBorderRequest.status request)
    al tm c.

Definition set_status (request : CrossBorderRequest.t) (st : string)
  : CrossBorderRequest.t :=
  CrossBorderRequest.mk
    (CrossBorderRequest.request_id request)
    (CrossBorderRequest.source_country request)
    (CrossBorderRequest.target_country request)
    (CrossBorderRequest.document_type request)
    (CrossBorderRequest.purpose request)
    st
    (CrossBorderRequest.alignments request)
    (CrossBorderRequest.transformation_map request)
    (CrossBorderRequest.confidence_score request).

(** [_perform_semantic_negotiation]: the two schema lookups come before
    the [try] and raise [KeyError] for a country without a schema. *)
Definition _perform_semantic_negotiation (self : EuropeanDigitalServiceAgent)
    (request : CrossBorderRequest.t) (outcome : pipeline_outcome)
  : Py.result CrossBorderRequest.t :=
  if negb (has_country_schema (CrossBorderRequest.source_country request)) then
    Py.Raise (Py.KeyError (CountryCode_value (CrossBorderRequest.source_country request)))
  else if negb (has_country_schema (CrossBorderRequest.target_country request)) then
    Py.Raise (Py.KeyError (CountryCode_value (CrossBorderRequest.target_country request)))
  else
    match outcome with
    | PipelineReturned matchings f_score =>
        let al := _process_alignments matchings in
        Py.Ok (set_negotiation request al (_build_transformation_map self al)
                 (default 0 f_score / 100))
    | PipelineRaised =>
        let al := _fallback_rule_based_alignment in
        Py.Ok (set_negotiation request al (_build_transformation_map self al) 0.85)
    end.

(** [process_cross_border_request] from the negotiation on; the request
    identifier (clock and uuid) is an argument, and of the citizen the
    country of origin is read. The lines printed before the negotiation
    read [citizen.given_names[0]] as well: the [IndexError] of a citizen
    without a given name is in [RequestFacts.process_request_of_citizen]. *)
Definition process_cross_border_request (self : EuropeanDigitalServiceAgent)
    (request_id : string) (country_of_origin target_country : CountryCode)
    (document_type : DocumentType) (purpose : string) (outcome : pipeline_outcome)
  : Py.result CrossBorderRequest.t :=
  let request :=
    CrossBorderRequest.mk request_id country_of_origin target_country
      document_type purpose "pending" [] ∅ 0 in
  Py.bind (_perform_semantic_negotiation self request outcome) (fun request =>
    if Qle_bool (confidence_threshold self) (CrossBorderRequest.confidence_score request)
    then Py.Ok (set_status request "approved")
    else Py.Ok (set_status request "requires_manual_review")).

End CrossBorder.

(** ** server.py *)

Module Server.

(** One entry of [schema['properties']]; both keys may be missing. *)
Record field_info : Type := mkFieldInfo {
  fi_type : option string;
  fi_description : option string
}.

(** A JSON schema, of which ['properties'] (in order) and ['required']
    are read. *)
Record schema : Type := mkSchema {
  properties : list (string * field_info);
  required_fields : list string
}.

(** The concept dictionaries of [_extract_concepts]. *)
Record concept : Type := mkConcept {
  name : string;
  type : string;
  description : string;
  required : bool;
  source : string;
  text : string
}.

(** [_extract_concepts]. *)
Definition _extract_concepts (s : schema) (source : string) : list concept :=
  map (fun '(field_name, field_info) =>
         mkConcept field_name
           (default "string"%string (fi_type field_info))
           (default ""%string (fi_description field_info))
           (bool_decide (field_name ∈ required_fields s))
           source
           (field_name ++ ": " ++ default ""%string (fi_type field_info) ++ " - " ++
            default ""%string (fi_description field_info))%string)
      (properties s).

(** The similarity [find_similar_concepts] gives one target. *)
Definition similarity_of (source_concept target : string) : Q :=
  let s := Py.lower source_concept in
  let t := Py.lower target in
  if Py.contains "name" s && Py.contains "name" t then 0.9
  else if Py.contains "date" s && Py.contains "date" t then 0.85
  else if Py.contains "place" s && Py.contains "place" t then 0.8
  else if Py.contains "tax" s || Py.contains "fiscal" s then 0.6
  else 0.4.

(** [list.sort(key=lambda x: x[1], reverse=True)]: descending and stable. *)
Fixpoint insert_desc (x : string * Q) (l : list (string * Q)) : list (string * Q) :=
  match l with
  | [] => [x]
  | y :: r => if Qle_bool (snd y) (snd x) then x :: l else y :: insert_desc x r
  end.

Definition sort_desc (l : list (string * Q)) : list (string * Q) :=
  fold_right insert_desc [] l.

(** [MockClaudeService.find_similar_concepts], without the notifications. *)
Definition find_similar_concepts (source_concept : string) (target_concepts : list string)
  : list (string * Q) :=
  sort_desc (map (fun target => (target, similarity_of source_concept target))
               target_concepts).

(** The [type] of the transformation rule a decision carries. *)
Definition rule_type_for (source_name : string) : option string :=
  let n := Py.lower source_name in
  if Py.contains "date" n then Some "data_conversion"%string
  else if Py.contains "name" n then Some "field_mapping"%string
  else if Py.contains "fiscal" n || Py.contains "tax" n then Some "identity_derivation"%string
  else None.

(** The decision dictionary, of which the keys read later are kept. *)
Record decision : Type := mkDecision {
  best_match : string;
  confidence : Q;
  transformation_rule : option string
}.

(** [MockMistralService.generate_alignment_decision]. *)
Definition generate_alignment_decision (source_concept : concept)
    (candidate_targets : list (string * Q)) : decision :=
  match candidate_targets with
  | [] => mkDecision "unknown" 0.5 None
  | (best_target, similarity) :: _ =>
      let best_target_name := hd ""%string (Py.split ":" best_target) in
      let transformation_rule := rule_type_for (name source_concept) in
      let base_confidence := Py.min (similarity + 0.1) 1.0 in
      let base_confidence :=
        match transformation_rule with
        | Some _ => base_confidence + 0.05
        | None => base_confidence
        end in
      let base_confidence :=
        if required source_concept && Py.contains "required" (Py.lower best_target)
        then base_confidence + 0.03 else base_confidence in
      mkDecision best_target_name (Py.min base_confidence 1.0) transformation_rule
  end.

(** One element of the [alignments] list of [negotiate_schemas]. *)
Record alignment_entry : Type := mkEntry {
  entry_source : concept;
  alignment : decision
}.

(** [_calculate_overall_confidence]. *)
Definition _calculate_overall_confidence (alignments : list alignment_entry) : Q :=
  match alignments with
  | [] => 0.0
  | _ =>
      let total_confidence := Py.sum (map (fun a => confidence (alignment a)) alignments) in
      total_confidence / inject_Z (Z.of_nat (length alignments))
  end.

(** The result dictionary of a session, of which the alignments and the
    overall confidence are kept. *)
Record negotiation_result : Type := mkResult {
  alignments : list alignment_entry;
  overall_confidence : Q
}.

(** [SemanticNegotiator.negotiate_schemas], without sessions, progress
    and notifications. *)
Definition negotiate_schemas (italian_schema german_schema : schema) : negotiation_result :=
  let italian_concepts := _extract_concepts italian_schema "italian" in
  let german_concepts := _extract_concepts german_schema "german" in
  let alignments :=
    map (fun italian_concept =>
           let similar_concepts :=
             find_similar_concepts (text italian_concept) (map text german_concepts) in
           mkEntry italian_concept
             (generate_alignment_decision italian_concept (take 5 similar_concepts)))
        italian_concepts in
  mkResult alignments (_calculate_overall_confidence alignments).

End Server.

(** ** enhanced_server.py *)

Module EnhancedServer.

(** A schema ([Dict[str, Any]]): field name to type descriptor, in
    insertion order. *)
Definition schema : Type := list (string * string).

Definition keys (s : schema) : list string := map fst s.

(** [s.get(k)]. *)
Fixpoint get (s : schema) (k : string) : option string :=
  match s with
  | [] => None
  | (k', v) :: r => if String.eqb k' k then Some v else get r k
  end.

(** The table [semantic_mappings]. *)
Definition semantic_mappings : list (string * list string) :=
  [ ("nome", ["firstName"; "first_name"; "givenName"]);
    ("cognome", ["lastName"; "last_name"; "surname"; "familyName"]);
    ("codice_fiscale", ["taxId"; "tax_id"; "fiscalCode"]);
    ("data_nascita", ["birthDate"; "birth_date"; "dateOfBirth"]);
    ("luogo_nascita", ["birthPlace"; "birth_place"; "placeOfBirth"]);
    ("user_id", ["personalId"; "personal_id"; "userId"; "id"]);
    ("firstName", ["nome"; "first_name"; "givenName"]);
    ("lastName", ["cognome"; "last_name"; "surname"]);
    ("personalId", ["user_id"; "userId"; "id"]);
    ("taxId", ["codice_fiscale"; "fiscal_code"; "tax_id"]);
    ("birthDate", ["data_nascita"; "birth_date"; "dateOfBirth"]);
    ("birthPlace", ["luogo_nascita"; "birth_place"; "placeOfBirth"])
  ]%string.

Fixpoint mapping_of (tbl : list (string * list string)) (k : string)
  : option (list string) :=
  match tbl with
  | [] => None
  | (k', v) :: r => if String.eqb k' k then Some v else mapping_of r k
  end.

(** The random source: draw number [n] of [random.random()], in [[0,1)]. *)
Definition rng : Type := nat -> Q.

Definition valid_rng (rnd : rng) : Prop := forall n, 0 <= rnd n /\ rnd n < 1.

(** [random.uniform(a, b)] at draw [n]: [a + (b - a) * random()]. *)
Definition uniform (rnd : rng) (n : nat) (a b : Q) : Q := a + (b - a) * rnd n.

(** The body of the loop over the target fields up to the comparison
    with the best: the confidence of the pair, the variable
    [explanation] afterwards and the number of draws afterwards. *)
Definition score_pair (rnd : rng) (source_schema target_schema : schema)
    (source_field target_field : string) (explanation : string) (n : nat)
  : Q * string * nat :=
  if String.eqb (Py.lower source_field) (Py.lower target_field) then
    (0.95,
     ("Exact field name match between '" ++ source_field ++ "' and '" ++
      target_field ++ "'")%string, n)
  else
    match mapping_of semantic_mappings source_field with
    | Some targets =>
        if bool_decide (target_field ∈ targets) then
          (0.85 + uniform rnd n 0.05 0.1,
           ("Semantic match: '" ++ source_field ++ "' commonly maps to '" ++
            target_field ++ "' in cross-border contexts")%string, S n)
        else (0.0, explanation, n)
    | None =>
        if existsb (fun part => Py.contains part (Py.lower target_field))
             (Py.split "_" (Py.lower source_field)) then
          (0.6 + uniform rnd n 0.1 0.2,
           ("Partial string similarity detected between '" ++ source_field ++
            "' and '" ++ target_field ++ "'")%string, S n)
        else
          match get source_schema source_field with
          | Some ty =>
              if bool_decide (get target_schema target_field = Some ty) then
                (0.3 + uniform rnd n 0.1 0.2,
                 ("Same data type (" ++ ty ++
                  ") suggests potential compatibility")%string, S n)
              else (0.0, explanation, n)
          | None => (0.0, explanation, n)
          end
    end.

(** The best candidate so far. [best_explanation] is a local that is
    bound by its first assignment only. *)
Record best : Type := mkBest {
  best_match : option string;
  best_confidence : Q;
  best_explanation : option string
}.

(** [if confidence > best_confidence: ...]. *)
Definition update_best (b : best) (target_field : string) (confidence : Q)
    (explanation : string) : best :=
  if Py.Qlt_bool (best_confidence b) confidence
  then mkBest (Some target_field) confidence (Some explanation)
  else b.

(** [best_match and best_confidence > 0.3]. *)
Definition accept (b : best) : bool :=
  match best_match b with
  | Some t => Py.truthy_str t && Py.Qlt_bool 0.3 (best_confidence b)
  | None => false
  end.

(** The state of the loop over the target fields. *)
Record scan : Type := mkScan {
  scan_best : best;
  scan_explanation : string;
  scan_draws : nat
}.

Definition scan_step (rnd : rng) (source_schema target_schema : schema)
    (source_field : string) (st : scan) (target_field : string) : scan :=
  let '(confidence, explanation, n) :=
    score_pair rnd source_schema target_schema source_field target_field
      (scan_explanation st) (scan_draws st) in
  mkScan (update_best (scan_best st) target_field confidence explanation) explanation n.

(** The loop over the target fields for one source field;
    [bound_explanation] is what [best_explanation] holds from the source
    fields before. *)
Definition scan_targets (rnd : rng) (source_schema target_schema : schema)
    (source_field : string) (bound_explanation : option string) (n : nat) : scan :=
  fold_left (scan_step rnd source_schema target_schema source_field)
    (keys target_schema)
    (mkScan (mkBest None 0.0 bound_explanation) "" n).

(** One entry of [similarities]. *)
Record similarity : Type := mkSimilarity {
  source_field : string;
  target_field : string;
  confidence : Q;
  explanation : string
}.

(** The state of the loop over the source fields. *)
Record analysis : Type := mkAnalysis {
  similarities : list similarity;
  bound_explanation : option string;
  draws : nat
}.

(** One turn of the loop over the source fields. *)
Definition analyze_step (rnd : rng) (source_schema target_schema : schema)
    (st : Py.result analysis) (source_field : string) : Py.result analysis :=
  Py.bind st (fun a =>
    let sc :=
      scan_targets rnd source_schema target_schema source_field
        (bound_explanation a) (draws a) in
    let b := scan_best sc in
    if accept b then
      match best_match b, best_explanation b with
      | Some t, Some e =>
          Py.Ok (mkAnalysis
                   (similarities a ++
                    [mkSimilarity source_field t (Py.round3 (best_confidence b)) e])
                   (best_explanation b) (scan_draws sc))
      | _, _ => Py.Raise (Py.UnboundLocalError "best_explanation")
      end
    else Py.Ok (mkAnalysis (similarities a) (best_explanation b) (scan_draws sc))).

(** The dictionary [analyze_semantic_similarity] returns. *)
Record claude_results : Type := mkClaudeResults {
  cr_similarities : list similarity;
  analysis_method : string;
  processing_time : Q
}.

(** [MockClaudeService.analyze_semantic_similarity], from draw [n] on:
    the result and the number of draws afterwards. *)
Definition analyze_semantic_similarity (rnd : rng) (n : nat)
    (source_schema target_schema : schema) : Py.result (claude_results * nat) :=
  Py.bind
    (fold_left (analyze_step rnd source_schema target_schema) (keys source_schema)
       (Py.Ok (mkAnalysis [] None n)))
    (fun a =>
       Py.Ok (mkClaudeResults (similarities a) "Claude Semantic Analysis" 2.1, draws a)).

(** *** The selection taken alone *)

(** A scored candidate: target field, confidence, explanation. *)
Definition candidate : Type := string * Q * string.

(** The candidates of one source field, in the order of the target
    fields, and the number of draws afterwards. *)
Fixpoint score_targets (rnd : rng) (source_schema target_schema : schema)
    (source_field : string) (targets : list string) (explanation : string) (n : nat)
  : list candidate * nat :=
  match targets with
  | [] => ([], n)
  | t :: r =>
      let '(c, e, n') :=
        score_pair rnd source_schema target_schema source_field t explanation n in
      let '(cs, n'') :=
        score_targets rnd source_schema target_schema source_field r e n' in
      ((t, c, e) :: cs, n'')
  end.

(** The best of a list of candidates, as the loop keeps it. *)
Definition choose_best (b0 : best) (cands : list candidate) : best :=
  fold_left (fun b '(t, c, e) => update_best b t c e) cands b0.

(** The selection: the best candidate if it passes the test after the
    loop, nothing otherwise. *)
Definition select (cands : list candidate) : option (string * Q) :=
  let b := choose_best (mkBest None 0.0 None) cands in
  if accept b then
    match best_match b with
    | Some t => Some (t, best_confidence b)
    | None => None
    end
  else None.

(** The largest confidence of a list of candidates, [0] at least. *)
Definition max_confidence (cands : list candidate) : Q :=
  fold_right (fun '(_, c, _) m => if Py.Qlt_bool m c then c else m) 0 cands.

(** *** The alignment decisions *)

(** One entry of [alignments]. *)
Record alignment : Type := mkAlignment {
  al_source_field : string;
  al_target_field : string;
  al_confidence : Q;
  method : string;
  al_explanation : string
}.

(** The confidence before rounding and the method of one similarity, at
    draw [n]. *)
Definition refine (rnd : rng) (n : nat) (c : Q) : Q * string :=
  let '(refined_confidence, method) :=
    if Py.Qlt_bool 0.8 c then
      (c + uniform rnd n 0.02 0.08, "High-confidence semantic match"%string)
    else if Py.Qlt_bool 0.6 c then
      (c + uniform rnd n (-0.05) 0.05, "Medium-confidence contextual match"%string)
    else
      (c + uniform rnd n (-0.1) 0.02, "Low-confidence structural match"%string) in
  (Py.min refined_confidence 0.99, method).

(** The state of the loop of [make_alignment_decisions]. *)
Record decisions : Type := mkDecisions {
  d_alignments : list alignment;
  total_confidence : Q;
  d_draws : nat
}.

Definition decide_step (rnd : rng) (st : decisions) (s : similarity) : decisions :=
  let '(refined_confidence, method) := refine rnd (d_draws st) (confidence s) in
  mkDecisions
    (d_alignments st ++
     [mkAlignment (source_field s) (target_field s) (Py.round3 refined_confidence)
        method (explanation s)])
    (total_confidence st + refined_confidence)
    (S (d_draws st)).

(** The dictionary [make_alignment_decisions] returns. *)
Record mistral_results : Type := mkMistralResults {
  mr_alignments : list alignment;
  mr_overall_confidence : Q;
  decision_method : string;
  mr_processing_time : Q
}.

(** [MockMistralService.make_alignment_decisions], from draw [n] on. *)
Definition make_alignment_decisions (rnd : rng) (n : nat) (claude : claude_results)
  : mistral_results :=
  let st := fold_left (decide_step rnd) (cr_similarities claude) (mkDecisions [] 0.0 n) in
  let overall_confidence :=
    match d_alignments st with
    | [] => 0.0
    | _ => total_confidence st / inject_Z (Z.of_nat (length (d_alignments st)))
    end in
  mkMistralResults (d_alignments st) (Py.round3 overall_confidence)
    "Mistral Alignment Engine" 1.6.

(** The confidences before rounding, in the order of the similarities. *)
Fixpoint refined_confidences (rnd : rng) (n : nat) (sims : list similarity) : list Q :=
  match sims with
  | [] => []
  | s :: r => fst (refine rnd n (confidence s)) :: refined_confidences rnd (S n) r
  end.

End EnhancedServer.

(** ** enhanced_demo.py *)

Module EnhancedDemo.

(** The table [mappings] of [_mock_semantic_analysis]. *)
Definition mappings : list (string * string) :=
  [ ("nome", "firstName"); ("cognome", "lastName"); ("codice_fiscale", "taxId");
    ("data_nascita", "birthDate"); ("luogo_nascita", "birthPlace");
    ("user_id", "personalId") ]%string.

Record alignment : Type := mkAlignment {
  source_field : string;
  target_field : string;
  confidence : Q;
  method : string;
  explanation : string
}.

(** One turn of the loop of [_mock_semantic_analysis]: the alignments and
    the number of draws so far. *)
Definition mock_step (rnd : EnhancedServer.rng) (target_schema : EnhancedServer.schema)
    (st : list alignment * nat) (source_field : string) : list alignment * nat :=
  let '(alignments, n) := st in
  match EnhancedServer.get mappings source_field with
  | Some target_field =>
      if bool_decide (target_field ∈ EnhancedServer.keys target_schema) then
        (alignments ++
         [mkAlignment source_field target_field
            (0.85 + EnhancedServer.uniform rnd n 0 0.1)
            "Semantic mapping"
            ("'" ++ source_field ++ "' semantically maps to '" ++ target_field ++ "'")%string],
         S n)
      else st
  | None => st
  end.

(** [EnhancedNegotiator._mock_semantic_analysis]. *)
Definition _mock_semantic_analysis (rnd : EnhancedServer.rng) (n : nat)
    (source_schema target_schema : EnhancedServer.schema) : list alignment * nat :=
  fold_left (mock_step rnd target_schema) (EnhancedServer.keys source_schema) ([], n).

End EnhancedDemo.

(** * Properties *)

(** ** Floats *)

Module PyFacts.

Lemma Qlt_bool_iff (a b : Q) : Py.Qlt_bool a b = true <-> a < b.
Proof.
  unfold Py.Qlt_bool. rewrite negb_true_iff.
  split.
  - intros H. apply Qnot_le_lt. intros Hle.
    apply Qle_bool_iff in Hle. congruence.
  - intros H. destruct (Qle_bool b a) eqn:E; [|reflexivity].
    apply Qle_bool_iff in E. exfalso. exact (Qlt_not_le _ _ H E).
Qed.

Lemma Qlt_bool_false_iff (a b : Q) : Py.Qlt_bool a b = false <-> b <= a.
Proof.
  unfold Py.Qlt_bool. rewrite negb_false_iff. apply Qle_bool_iff.
Qed.

Lemma Qle_bool_false_iff (a b : Q) : Qle_bool a b = false <-> b < a.
Proof.
  rewrite <- Qlt_bool_iff. unfold Py.Qlt_bool.
  destruct (Qle_bool a b); simpl; split; congruence.
Qed.

(** The builtin [sum] adds up to the sum of the list. *)
Lemma fold_left_Qplus (l : list Q) (acc : Q) :
  fold_left Qplus l acc == acc + Py.Qsum l.
Proof.
  revert acc. induction l as [|x l IH]; intros acc; simpl.
  - ring.
  - rewrite IH. unfold Py.Qsum. simpl. ring.
Qed.

Lemma sum_Qsum (l : list Q) : Py.sum l == Py.Qsum l.
Proof. unfold Py.sum. rewrite fold_left_Qplus. ring. Qed.

Example round3_tie_even : Py.round3 0.8125 = Qmake 812 1000.
Proof. reflexivity. Qed.

Example format_2f_ex : Py.format_2f 0.875 = "0.88"%string.
Proof. vm_compute. reflexivity. Qed.

Example split_ex : Py.split "_" "data_nascita" = ["data"; "nascita"]%string.
Proof. reflexivity. Qed.

Example split_empty_piece : Py.split "_" "_id" = [""; "id"]%string.
Proof. reflexivity. Qed.

Example lower_ex : Py.lower "firstName" = "firstname"%string.
Proof. reflexivity. Qed.

End PyFacts.

(** ** cross_border_implementation.py *)

Module CrossBorderSpec.

Import CrossBorder.

(** *** Enumerated values *)

Example gender_map_M : gender_map !! "M"%string = Some "MALE"%string.
Proof. reflexivity. Qed.

Example gender_map_X : gender_map !! "X"%string = None.
Proof. reflexivity. Qed.

(** Whether a value can be a key of a dictionary: lists and dictionaries
    cannot. *)
Definition hashable (value : pyvalue) : bool :=
  match value with
  | VDict _ | VList _ => false
  | _ => true
  end.

(** C9, as the code has it. Under the enum rule ([_transform_enum_value]
    for the pair sesso/geschlecht, the only one with a table) a raw string
    that is a key of the table is replaced by its entry, "M" by "MALE";
    a raw value that can be a key and is none (a string outside the table,
    a number, a truth value, [None]) is returned unchanged; a raw list or
    dictionary makes the lookup raise a [TypeError]. For any other pair of
    fields there is no table and every value is returned unchanged. *)
Theorem enum_map_conversion (value : pyvalue) (source_field target_field : string) :
  (forall s mapped,
     value = VStr s -> gender_map !! s = Some mapped ->
     _transform_enum_value value "sesso" "geschlecht" = Py.Ok (VStr mapped)) /\
  (hashable value = true ->
   (forall s, value = VStr s -> gender_map !! s = None) ->
   _transform_enum_value value source_field target_field = Py.Ok value) /\
  (hashable value = false ->
   _transform_enum_value value "sesso" "geschlecht"
   = Py.Raise (Py.TypeError ("unhashable type: '" ++ type_name value ++ "'"))) /\
  ((source_field, target_field) <> ("sesso", "geschlecht")%string ->
   _transform_enum_value value source_field target_field = Py.Ok value) /\
  _transform_enum_value (VStr "M") "sesso" "geschlecht" = Py.Ok (VStr "MALE").
Proof.
  split; [|split; [|split; [|split]]].
  - intros s mapped -> H. unfold _transform_enum_value. simpl. rewrite H. reflexivity.
  - intros Hh Hs. unfold _transform_enum_value.
    destruct (_ && _); [|reflexivity].
    destruct value as [| | |s| |]; try reflexivity; try discriminate Hh.
    simpl. rewrite (Hs s eq_refl). reflexivity.
  - intros Hh. destruct value; try discriminate Hh; reflexivity.
  - intros Hne. unfold _transform_enum_value.
    destruct (String.eqb source_field "sesso") eqn:E1; [|reflexivity].
    destruct (String.eqb target_field "geschlecht") eqn:E2; [|reflexivity].
    apply String.eqb_eq in E1, E2. subst. congruence.
  - reflexivity.
Qed.

Lemma enum_map_conversion_witness :
  _transform_enum_value (VStr "F") "sesso" "geschlecht" = Py.Ok (VStr "FEMALE") /\
  _transform_enum_value (VStr "X") "sesso" "geschlecht" = Py.Ok (VStr "X") /\
  _transform_enum_value (VInt 1) "sesso" "geschlecht" = Py.Ok (VInt 1) /\
  _transform_enum_value (VDict [("codice", VStr "M")]) "sesso" "geschlecht"
  = Py.Raise (Py.TypeError "unhashable type: 'dict'") /\
  _transform_enum_value (VList [VStr "M"]) "stato" "status" = Py.Ok (VList [VStr "M"]).
Proof.
  split; [|split; [|split; [|split]]].
  - apply (proj1 (enum_map_conversion (VStr "F") "sesso" "geschlecht") "F"%string);
      reflexivity.
  - apply (proj1 (proj2 (enum_map_conversion (VStr "X") "sesso" "geschlecht")));
      [reflexivity|].
    intros s H. inversion H. reflexivity.
  - apply (proj1 (proj2 (enum_map_conversion (VInt 1) "sesso" "geschlecht")));
      [reflexivity|].
    intros s H. discriminate H.
  - apply (proj1 (proj2 (proj2 (enum_map_conversion
             (VDict [("codice", VStr "M")]%string) "sesso" "geschlecht")))).
    reflexivity.
  - apply (proj1 (proj2 (proj2 (proj2 (enum_map_conversion
             (VList [VStr "M"]) "stato" "status"))))).
    discriminate.
Defined.

(** A list under sesso is not returned unchanged: the lookup in the table
    raises, and nothing on the way to the caller of
    [_apply_field_transformation] catches it. *)
Lemma enum_map_raises_on_list :
  _transform_enum_value (VList [VStr "M"]) "sesso" "geschlecht"
  = Py.Raise (Py.TypeError "unhashable type: 'list'") /\
  _apply_field_transformation false (VList [VStr "M"])
    (mkSemanticAlignment "sesso" "geschlecht" 0.89 "exact"
       "ENUM_TRANSFORM(sesso → geschlecht)") ITALY GERMANY
  = (Py.Raise (Py.TypeError "unhashable type: 'list'"), []).
Proof. split; reflexivity. Qed.

(** *** The decision *)

Lemma status_set_status request st :
  CrossBorderRequest.status (set_status request st) = st.
Proof. reflexivity. Qed.

Lemma confidence_set_status request st :
  CrossBorderRequest.confidence_score (set_status request st) =
  CrossBorderRequest.confidence_score request.
Proof. reflexivity. Qed.

(** A request between two countries that have a schema is processed to
    the end, whatever the aligner does. *)
Lemma process_cross_border_request_returns self rid co tc dt p outcome :
  has_country_schema co = true ->
  has_country_schema tc = true ->
  exists request, process_cross_border_request self rid co tc dt p outcome = Py.Ok request.
Proof.
  intros Hco Htc.
  unfold process_cross_border_request, _perform_semantic_negotiation. simpl.
  rewrite Hco, Htc. simpl.
  destruct outcome; simpl;
    match goal with |- context [Qle_bool ?a ?b] => destruct (Qle_bool a b) end;
    eauto.
Qed.

(** C2. The request [process_cross_border_request] returns is approved
    exactly when its confidence score is at least the agent's threshold,
    and is sent to manual review exactly when the score is below it; a
    score equal to the threshold is approved. *)
Theorem decision_policy self rid co tc dt p outcome request :
  process_cross_border_request self rid co tc dt p outcome = Py.Ok request ->
  (CrossBorderRequest.status request = "approved"%string <->
   confidence_threshold self <= CrossBorderRequest.confidence_score request) /\
  (CrossBorderRequest.status request = "requires_manual_review"%string <->
   CrossBorderRequest.confidence_score request < confidence_threshold self) /\
  (CrossBorderRequest.confidence_score request == confidence_threshold self ->
   CrossBorderRequest.status request = "approved"%string).
Proof.
  unfold process_cross_border_request.
  destruct (_perform_semantic_negotiation _ _ _) as [r|e]; simpl; [|discriminate].
  destruct (Qle_bool (confidence_threshold self) (CrossBorderRequest.confidence_score r))
    eqn:E; intros H; inversion H; subst; clear H;
    rewrite status_set_status, confidence_set_status.
  - apply Qle_bool_iff in E. repeat split; intros; try discriminate; try assumption.
    exfalso. exact (Qlt_not_le _ _ H E).
  - apply PyFacts.Qle_bool_false_iff in E. repeat split; intros; try discriminate;
      try assumption.
    + exfalso. exact (Qlt_not_le _ _ E H).
    + exfalso. rewrite H in E. exact (Qlt_irrefl _ E).
Qed.

(** The fallback score 0.85 against the threshold 0.85: approved at the
    boundary. *)
Lemma decision_policy_witness :
  exists request,
    process_cross_border_request
      (mkAgent "test-model" "test-retriever" 0.85) "CBR_1_abcdef01"
      ITALY GERMANY BIRTH_CERTIFICATE "employment_verification" PipelineRaised
    = Py.Ok request /\
    CrossBorderRequest.confidence_score request == 0.85 /\
    CrossBorderRequest.status request = "approved"%string.
Proof.
  eexists. split; [reflexivity|]. split; [reflexivity|].
  eapply (proj2 (proj2 (decision_policy
    (mkAgent "test-model" "test-retriever" 0.85) "CBR_1_abcdef01"
    ITALY GERMANY BIRTH_CERTIFICATE "employment_verification" PipelineRaised _ eq_refl))).
  reflexivity.
Defined.

Example decision_default_threshold :
  Py.bind (process_cross_border_request default_agent "CBR_1_abcdef01"
             ITALY GERMANY BIRTH_CERTIFICATE "employment_verification" PipelineRaised)
    (fun r => Py.Ok (CrossBorderRequest.status r)) = Py.Ok "approved"%string.
Proof. reflexivity. Qed.

Example decision_below_threshold :
  Py.bind (process_cross_border_request (mkAgent "m" "r" 0.9) "CBR_1_abcdef01"
             ITALY GERMANY BIRTH_CERTIFICATE "employment_verification" PipelineRaised)
    (fun r => Py.Ok (CrossBorderRequest.status r)) = Py.Ok "requires_manual_review"%string.
Proof. reflexivity. Qed.

Example no_schema_for_france :
  process_cross_border_request default_agent "CBR_1_abcdef01"
    FRANCE GERMANY BIRTH_CERTIFICATE "education" PipelineRaised
  = Py.Raise (Py.KeyError "FR").
Proof. reflexivity. Qed.

(** *** The transformation map *)

(** The alignment [a] passes the agent's threshold. *)
Definition accepted (self : EuropeanDigitalServiceAgent) (a : SemanticAlignment.t) : Prop :=
  confidence_threshold self <= SemanticAlignment.confidence_score a.

Definition build_step (self : EuropeanDigitalServiceAgent)
    (transformation_map : gmap string string) (alignment : SemanticAlignment.t)
  : gmap string string :=
  if Qle_bool (confidence_threshold self) (SemanticAlignment.confidence_score alignment)
  then <[SemanticAlignment.source_field alignment :=
           SemanticAlignment.target_field alignment]> transformation_map
  else transformation_map.

Lemma build_map_fold self alignments :
  _build_transformation_map self alignments = fold_left (build_step self) alignments ∅.
Proof. reflexivity. Qed.








(** *** Dates *)

Lemma in_range_bounds c lo hi :
  in_range c lo hi = true ->
  (nat_of_ascii lo <= nat_of_ascii c <= nat_of_ascii hi)%nat.
Proof.
  unfold in_range. rewrite andb_true_iff, !Nat.leb_le. tauto.
Qed.

(** Turns the range tests in the context into bounds on the digits. *)
Ltac range_facts :=
  repeat match goal with
         | E : is_digit _ = true |- _ => unfold is_digit in E
         | E : in_range ?c ?lo ?hi = true |- _ =>
             apply in_range_bounds in E;
             let l := eval vm_compute in (nat_of_ascii lo) in
             let h := eval vm_compute in (nat_of_ascii hi) in
             change (nat_of_ascii lo) with l in E;
             change (nat_of_ascii hi) with h in E
         end;
  unfold digit.

Ltac split_tests :=
  repeat match goal with
         | |- (if ?b && ?c then _ else _) = _ -> _ =>
             let E1 := fresh "E" in
             let E2 := fresh "E" in
             destruct b eqn:E1; simpl; [destruct c eqn:E2; simpl|]
         | |- (if ?b then _ else _) = _ -> _ =>
             let E1 := fresh "E" in
             destruct b eqn:E1; simpl
         end.

Lemma directive_d_range s d : directive_d s = Some d -> (1 <= d <= 31)%Z.
Proof.
  unfold directive_d.
  destruct s as [|c1 [|c2 [|c3 r]]]; try discriminate;
    split_tests; try discriminate;
    intros H; inversion H; subst; clear H; range_facts; lia.
Qed.

Lemma directive_m_range s m : directive_m s = Some m -> (1 <= m <= 12)%Z.
Proof.
  unfold directive_m.
  destruct s as [|c1 [|c2 [|c3 r]]]; try discriminate;
    split_tests; try discriminate;
    intros H; inversion H; subst; clear H; range_facts; lia.
Qed.

Lemma directive_Y_range s y : directive_Y s = Some y -> (0 <= y <= 9999)%Z.
Proof.
  unfold directive_Y.
  destruct s as [|a [|b [|c [|d [|e r]]]]]; try discriminate.
  destruct (is_digit a) eqn:Ea; simpl; [|discriminate].
  destruct (is_digit b) eqn:Eb; simpl; [|discriminate].
  destruct (is_digit c) eqn:Ec; simpl; [|discriminate].
  destruct (is_digit d) eqn:Ed; simpl; [|discriminate].
  intros H; inversion H; subst. range_facts. lia.
Qed.

(** What [strptime] accepts is a date of the calendar. *)
Lemma strptime_calendar s dt :
  strptime s = Some dt ->
  (1 <= year dt <= 9999 /\ 1 <= month dt <= 12 /\
   1 <= day dt <= days_in_month (year dt) (month dt))%Z.
Proof.
  unfold strptime.
  destruct (Py.split "/" s) as [|ds [|ms [|ys [|x r]]]]; try discriminate.
  destruct (directive_d ds) as [d|] eqn:Ed; [|discriminate].
  destruct (directive_m ms) as [m|] eqn:Em; [|discriminate].
  destruct (directive_Y ys) as [y|] eqn:Ey; [|discriminate].
  destruct ((1 <=? y)%Z && (d <=? days_in_month y m)%Z) eqn:E; [|discriminate].
  intros H; inversion H; subst; simpl.
  apply andb_true_iff in E. destruct E as [E1 E2].
  apply Z.leb_le in E1, E2.
  apply directive_d_range in Ed. apply directive_m_range in Em.
  apply directive_Y_range in Ey. lia.
Qed.

Example strptime_ok : strptime "15/03/1985" = Some (mkDatetime 1985 3 15).
Proof. reflexivity. Qed.

Example strptime_short : strptime "1/3/1985" = Some (mkDatetime 1985 3 1).
Proof. reflexivity. Qed.

Example strptime_leap : strptime "29/02/2000" = Some (mkDatetime 2000 2 29).
Proof. reflexivity. Qed.

Example strptime_not_leap : strptime "29/02/1900" = None.
Proof. reflexivity. Qed.

Example strptime_april_31 : strptime "31/04/2020" = None.
Proof. reflexivity. Qed.

Example strptime_invalid : strptime "invalid-date" = None.
Proof. reflexivity. Qed.

Example strptime_trailing : strptime "15/03/19855" = None.
Proof. reflexivity. Qed.

Example strptime_iso : strptime "1985-03-15" = None.
Proof. reflexivity. Qed.






(** Between any other two countries the value is handed back as it is. *)
Lemma date_format_other_countries pad_year value source_country target_country :
  (source_country, target_country) <> (ITALY, GERMANY) ->
  _transform_date_format pad_year value source_country target_country = (Py.Ok value, []).
Proof.
  intros H. unfold _transform_date_format.
  destruct source_country, target_country; simpl; try reflexivity. congruence.
Qed.

(** A value that is no string makes [strptime] raise a [TypeError], which
    the handler of [ValueError] lets through. *)
Example date_format_not_a_string pad_year :
  _transform_date_format pad_year VNone ITALY GERMANY
  = (Py.Raise (Py.TypeError "strptime() argument 1 must be str, not None"), []).
Proof. reflexivity. Qed.

Example strftime_year_985 :
  strftime true (mkDatetime 985 3 15) = "0985-03-15T00:00:00Z"%string /\
  strftime false (mkDatetime 985 3 15) = "985-03-15T00:00:00Z"%string.
Proof. split; reflexivity. Qed.

Example strftime_year_85 :
  strftime true (mkDatetime 85 3 5) = "0085-03-05T00:00:00Z"%string /\
  strftime false (mkDatetime 85 3 5) = "85-03-05T00:00:00Z"%string.
Proof. split; reflexivity. Qed.

(** *** Transforming a record *)

Section Transform.

Variable pad_year : bool.
Variable source_dict : gmap string pyvalue.
Variables source_country target_country : CountryCode.

Abbreviation step := (transform_step pad_year source_dict source_country target_country).

(** The alignment writes an entry: its source field is in the record. *)
Definition applies (a : SemanticAlignment.t) : Prop :=
  is_Some (source_dict !! SemanticAlignment.source_field a).

(** Once a conversion has raised, the loop is over. *)
Lemma transform_fold_raise l e out :
  fold_left step l (Py.Raise e, out) = (Py.Raise e, out).
Proof. induction l as [|a l IH]; simpl; [reflexivity|exact IH]. Qed.

(** The keys of the record the loop builds: the keys it started from and
    the target fields of the alignments whose source field is in the
    source record. *)
Lemma transform_fold_keys l m0 out0 m out k :
  fold_left step l (Py.Ok m0, out0) = (Py.Ok m, out) ->
  is_Some (m !! k) <->
  is_Some (m0 !! k) \/
  exists a, In a l /\ SemanticAlignment.target_field a = k /\ applies a.
Proof.
  revert m0 out0. induction l as [|a l IH]; intros m0 out0 H; simpl in H.
  - inversion H; subst. split; [auto|]. intros [?|(a & [] & _)]. assumption.
  - remember (step (Py.Ok m0, out0) a) as st eqn:Est.
    unfold transform_step in Est. unfold applies.
    destruct (source_dict !! SemanticAlignment.source_field a) as [v|] eqn:Ev.
    + destruct (_apply_field_transformation pad_year v a source_country target_country)
        as [[tv|e] w]; subst st.
      * apply IH in H. rewrite H. clear H. split.
        -- intros [Hk | (a' & Hin & Ht & Ha)].
           ++ destruct (decide (SemanticAlignment.target_field a = k)) as [Heq|Hne].
              ** right. exists a. split; [left; reflexivity|]. split; [exact Heq|].
                 rewrite Ev. eauto.
              ** rewrite lookup_insert_ne in Hk by exact Hne. left. exact Hk.
           ++ right. exists a'. split; [right; exact Hin|]. split; assumption.
        -- intros [Hk | (a' & [Heq|Hin] & Ht & Ha)].
           ++ left. destruct (decide (SemanticAlignment.target_field a = k)) as [Heq|Hne].
              ** subst k. rewrite lookup_insert_eq. eauto.
              ** rewrite lookup_insert_ne by exact Hne. exact Hk.
           ++ subst a'. left. subst k. rewrite lookup_insert_eq. eauto.
           ++ right. exists a'. split; [exact Hin|]. split; assumption.
      * rewrite transform_fold_raise in H. discriminate.
    + subst st. apply IH in H. rewrite H. clear H. split.
      * intros [Hk | (a' & Hin & Ht & Ha)]; [left; exact Hk|].
        right. exists a'. split; [right; exact Hin|]. split; assumption.
      * intros [Hk | (a' & [Heq|Hin] & Ht & Ha)]; [left; exact Hk| |].
        -- subst a'. unfold applies in Ha. rewrite Ev in Ha. destruct Ha. discriminate.
        -- right. exists a'. split; [exact Hin|]. split; assumption.
Qed.

End Transform.

(** C4, as the code has it. When [transform_citizen_data] returns, the
    keys of the output are the target fields of the alignments whose
    source field is in the record, and one more: for Germany as the target
    country a record that holds codice_fiscale gets the key
    staatsangehoerigkeit, whether or not an alignment maps to it. An
    alignment whose source field is absent from the record contributes
    nothing, and no other target field is in the output. *)
Theorem transform_output_keys pad_year request source_dict transformed_data out k :
  transform_citizen_data pad_year request source_dict = (Py.Ok transformed_data, out) ->
  is_Some (transformed_data !! k) <->
  (exists a, In a (CrossBorderRequest.alignments request) /\
             SemanticAlignment.target_field a = k /\
             is_Some (source_dict !! SemanticAlignment.source_field a)) \/
  (k = "staatsangehoerigkeit"%string /\
   is_Some (source_dict !! "codice_fiscale"%string) /\
   CrossBorderRequest.target_country request = GERMANY).
Proof.
  unfold transform_citizen_data.
  destruct (fold_left _ _ _) as [[m|e] o] eqn:Ef; [|discriminate].
  pose proof (transform_fold_keys _ _ _ _ _ _ _ m o k Ef) as Hkeys.
  unfold applies in Hkeys. rewrite lookup_empty in Hkeys.
  assert (Hm : is_Some (m !! k) <->
               exists a, In a (CrossBorderRequest.alignments request) /\
                         SemanticAlignment.target_field a = k /\
                         is_Some (source_dict !! SemanticAlignment.source_field a)).
  { rewrite Hkeys. split; [intros [[x Hx]|H]; [discriminate|exact H]|auto]. }
  clear Hkeys Ef.
  destruct (source_dict !! "codice_fiscale"%string) as [tax|] eqn:Etax.
  - destruct (CountryCode_eqb (CrossBorderRequest.target_country request) GERMANY) eqn:Etc.
    + intros H; inversion H; subst; clear H.
      assert (Hde : CrossBorderRequest.target_country request = GERMANY)
        by (destruct (CrossBorderRequest.target_country request); try discriminate;
            reflexivity).
      destruct (decide ("staatsangehoerigkeit"%string = k)) as [Heq|Hne].
      * subst k. rewrite lookup_insert_eq. split; [|eauto].
        intros _. right. split; [reflexivity|]. split; [eauto|exact Hde].
      * rewrite lookup_insert_ne by exact Hne. rewrite Hm. split; [auto|].
        intros [H|[Hk _]]; [exact H|congruence].
    + intros H; inversion H; subst; clear H. rewrite Hm. split; [auto|].
      intros [H|(_ & _ & Hde)]; [exact H|]. rewrite Hde in Etc. discriminate.
  - intros H; inversion H; subst; clear H. rewrite Hm. split; [auto|].
    intros [H|(_ & [x Hx] & _)]; [exact H|discriminate].
Qed.

(** The record and the alignments of the test of the complete
    transformation. *)
Definition italian_anpr_data : gmap string pyvalue :=
  list_to_map
    [ ("cognome", VStr "Rossi"); ("nome", VStr "Marco");
      ("data_nascita", VStr "15/03/1985"); ("luogo_nascita", VStr "Roma");
      ("codice_fiscale", VStr "RSSMRC85C15H501Z");
      ("genitori", VDict [("padre", VStr "Giuseppe Rossi"); ("madre", VStr "Maria Bianchi")]);
      ("sesso", VStr "M"); ("cittadinanza", VStr "Italiana");
      ("codice_comune_nascita", VNone); ("provincia_nascita", VNone);
      ("stato_civile", VNone) ]%string.

Definition test_request (alignments : list SemanticAlignment.t) : CrossBorderRequest.t :=
  CrossBorderRequest.mk "test_req_001" ITALY GERMANY BIRTH_CERTIFICATE "test" "pending"
    alignments ∅ 0.

Definition test_alignments : list SemanticAlignment.t :=
  [ mkSemanticAlignment "cognome" "familienname" 0.95 "exact" "DIRECT_MAP";
    mkSemanticAlignment "nome" "vorname" 0.93 "exact" "DIRECT_MAP";
    mkSemanticAlignment "data_nascita" "geburtsdatum" 0.87 "exact" "DATE_FORMAT_TRANSFORM";
    mkSemanticAlignment "sesso" "geschlecht" 0.89 "exact" "ENUM_TRANSFORM" ].

Example transform_complete :
  fst (transform_citizen_data false (test_request test_alignments) italian_anpr_data)
  = Py.Ok (list_to_map
             [ ("familienname", VStr "Rossi"); ("vorname", VStr "Marco");
               ("geburtsdatum", VStr "1985-03-15T00:00:00Z");
               ("geschlecht", VStr "MALE");
               ("staatsangehoerigkeit", VStr "Italian") ]%string).
Proof. vm_compute. reflexivity. Qed.

(** The alignment of a field the record lacks writes nothing, and the
    alignment of a field it holds writes its target. *)
Definition witness_request : CrossBorderRequest.t :=
  test_request [mkSemanticAlignment "nome" "vorname" 0.93 "exact" "DIRECT_MAP";
                mkSemanticAlignment "titolo" "titel" 0.9 "exact" "DIRECT_MAP"].

Definition witness_record : gmap string pyvalue := <["nome"%string := VStr "Marco"]> ∅.

Definition witness_output : gmap string pyvalue := <["vorname"%string := VStr "Marco"]> ∅.

Lemma transform_output_keys_witness :
  transform_citizen_data false witness_request witness_record
  = (Py.Ok witness_output, []) /\
  is_Some (witness_output !! "vorname"%string) /\
  ~ is_Some (witness_output !! "titel"%string).
Proof.
  assert (H : transform_citizen_data false witness_request witness_record
              = (Py.Ok witness_output, [])) by reflexivity.
  split; [exact H|]. split.
  - apply (proj2 (transform_output_keys false _ _ _ _ "vorname" H)).
    left. exists (mkSemanticAlignment "nome" "vorname" 0.93 "exact" "DIRECT_MAP").
    split; [left; reflexivity|]. split; [reflexivity|].
    simpl. unfold witness_record. rewrite lookup_insert_eq. eauto.
  - intros Hs.
    apply (proj1 (transform_output_keys false _ _ _ _ "titel" H)) in Hs.
    destruct Hs as [(a & Hin & Ht & [v Hv])|(Hk & _)]; [|discriminate Hk].
    destruct Hin as [<-|[<-|[]]]; [discriminate Ht|].
    simpl in Hv. unfold witness_record in Hv.
    rewrite lookup_insert_ne in Hv by discriminate.
    rewrite lookup_empty in Hv. discriminate Hv.
Defined.

(** A record with a tax code, for Germany, and no alignment at all: the
    output holds staatsangehoerigkeit although no alignment maps to it. *)
Lemma transform_adds_unaligned_target :
  exists transformed_data out,
    transform_citizen_data false (test_request [])
      (<["codice_fiscale"%string := VStr "RSSMRC85C15H501Z"]> ∅)
    = (Py.Ok transformed_data, out) /\
    is_Some (transformed_data !! "staatsangehoerigkeit"%string) /\
    ~ (exists a, In a (CrossBorderRequest.alignments (test_request [])) /\
                 SemanticAlignment.target_field a = "staatsangehoerigkeit"%string).
Proof.
  eexists _, _. split; [reflexivity|]. split.
  - rewrite lookup_insert_eq. eauto.
  - intros (a & [] & _).
Qed.

End CrossBorderSpec.

(** ** server.py *)

Module ServerSpec.

Import Server.

(** The confidences of the alignments of a result. *)
Definition confidences (l : list alignment_entry) : list Q :=
  map (fun a => confidence (alignment a)) l.

(** [_calculate_overall_confidence] is the arithmetic mean. *)
Lemma calculate_overall_confidence_mean (l : list alignment_entry) :
  _calculate_overall_confidence l == Py.mean (confidences l).
Proof.
  destruct l as [|a l]; [reflexivity|].
  unfold _calculate_overall_confidence, Py.mean, confidences.
  cbn [map]. rewrite PyFacts.sum_Qsum. cbn [length]. rewrite length_map. reflexivity.
Qed.

Lemma negotiate_schemas_overall (italian_schema german_schema : schema) :
  overall_confidence (negotiate_schemas italian_schema german_schema)
  == Py.mean (confidences (alignments (negotiate_schemas italian_schema german_schema))).
Proof. apply calculate_overall_confidence_mean. Qed.

(** Every Italian concept gets an alignment, in order. *)
Lemma negotiate_schemas_sources (italian_schema german_schema : schema) :
  map (fun a => name (entry_source a))
    (alignments (negotiate_schemas italian_schema german_schema))
  = map fst (properties italian_schema).
Proof.
  unfold negotiate_schemas, _extract_concepts. cbn [alignments].
  rewrite !map_map. apply map_ext. intros [field_name field_info]. reflexivity.
Qed.

Definition demo_italian : schema :=
  mkSchema
    [ ("family_name", mkFieldInfo (Some "string") (Some "Cognome"));
      ("birth_date", mkFieldInfo (Some "string") (Some "Data di nascita"));
      ("codice_fiscale", mkFieldInfo (Some "string") (Some "Italian tax code")) ]%string
    ["family_name"; "birth_date"]%string.

Definition demo_german : schema :=
  mkSchema
    [ ("familienname", mkFieldInfo (Some "string") (Some "Family name"));
      ("geburtsdatum", mkFieldInfo (Some "string") (Some "Date of birth")) ]%string
    ["familienname"]%string.

Example negotiate_demo :
  map (fun a => (name (entry_source a), best_match (alignment a),
                 Qred (confidence (alignment a))))
    (alignments (negotiate_schemas demo_italian demo_german))
  = [ ("family_name", "familienname", 1); ("birth_date", "geburtsdatum", 1);
      ("codice_fiscale", "familienname", Qmake 3 4) ]%string.
Proof. vm_compute. reflexivity. Qed.

Example negotiate_demo_overall :
  overall_confidence (negotiate_schemas demo_italian demo_german) == Qmake 11 12.
Proof. vm_compute. reflexivity. Qed.

Example negotiate_nothing :
  overall_confidence (negotiate_schemas (mkSchema [] []) demo_german) == 0.
Proof. reflexivity. Qed.

End ServerSpec.

(** ** enhanced_server.py *)

Module EnhancedServerSpec.

Import EnhancedServer.

(** *** Scoring one pair *)

(** The branch of the scoring chain a pair of fields takes. *)
Inductive basis : Type :=
| exact_name | semantic_synonym | partial_token | type_only | no_basis.

Definition pair_basis (source_schema target_schema : schema)
    (source_field target_field : string) : basis :=
  if String.eqb (Py.lower source_field) (Py.lower target_field) then exact_name
  else
    match mapping_of semantic_mappings source_field with
    | Some targets =>
        if bool_decide (target_field ∈ targets) then semantic_synonym else no_basis
    | None =>
        if existsb (fun part => Py.contains part (Py.lower target_field))
             (Py.split "_" (Py.lower source_field)) then partial_token
        else
          match get source_schema source_field with
          | Some ty =>
              if bool_decide (get target_schema target_field = Some ty)
              then type_only else no_basis
          | None => no_basis
          end
    end.

(** The explanation of each branch. *)
Definition explain (source_schema : schema) (source_field target_field : string)
    (b : basis) (previous : string) : string :=
  match b with
  | exact_name =>
      "Exact field name match between '" ++ source_field ++ "' and '" ++
      target_field ++ "'"
  | semantic_synonym =>
      "Semantic match: '" ++ source_field ++ "' commonly maps to '" ++
      target_field ++ "' in cross-border contexts"
  | partial_token =>
      "Partial string similarity detected between '" ++ source_field ++
      "' and '" ++ target_field ++ "'"
  | type_only =>
      "Same data type (" ++ default "" (get source_schema source_field) ++
      ") suggests potential compatibility"
  | no_basis => previous
  end%string.

(** The confidence of each branch, at draw [n]. *)
Definition basis_confidence (rnd : rng) (n : nat) (b : basis) : Q :=
  match b with
  | exact_name => 0.95
  | semantic_synonym => 0.85 + uniform rnd n 0.05 0.1
  | partial_token => 0.6 + uniform rnd n 0.1 0.2
  | type_only => 0.3 + uniform rnd n 0.1 0.2
  | no_basis => 0.0
  end.

(** Whether the branch reads the random source. *)
Definition basis_draws (b : basis) : nat :=
  match b with
  | exact_name | no_basis => 0
  | _ => 1
  end.

Lemma score_pair_basis rnd src tgt s t e n :
  score_pair rnd src tgt s t e n =
  (basis_confidence rnd n (pair_basis src tgt s t),
   explain src s t (pair_basis src tgt s t) e,
   (basis_draws (pair_basis src tgt s t) + n)%nat).
Proof.
  unfold score_pair, pair_basis.
  destruct (String.eqb (Py.lower s) (Py.lower t)); [reflexivity|].
  destruct (mapping_of semantic_mappings s) as [targets|].
  - destruct (bool_decide (t ∈ targets)); reflexivity.
  - destruct (existsb _ _); [reflexivity|].
    destruct (get src s) as [ty|] eqn:Ety; [|reflexivity].
    destruct (bool_decide (get tgt t = Some ty)); [|reflexivity].
    simpl. rewrite Ety. reflexivity.
Qed.

(** The range of [random.uniform(a, b)]. *)
Lemma uniform_range rnd n a b :
  valid_rng rnd -> a <= b -> a <= uniform rnd n a b /\ uniform rnd n a b <= b.
Proof.
  intros Hv Hab. destruct (Hv n) as [H0 H1]. unfold uniform.
  split; nra.
Qed.

(** The confidence of a pair: nothing, or at least 0.4 and at most 0.95. *)
Lemma basis_confidence_range rnd n b :
  valid_rng rnd ->
  match b with
  | no_basis => basis_confidence rnd n b == 0
  | _ => 0.4 <= basis_confidence rnd n b /\ basis_confidence rnd n b <= 0.95
  end.
Proof.
  intros Hv. destruct b; simpl.
  - lra.
  - pose proof (uniform_range rnd n 0.05 0.1 Hv ltac:(lra)). lra.
  - pose proof (uniform_range rnd n 0.1 0.2 Hv ltac:(lra)). lra.
  - pose proof (uniform_range rnd n 0.1 0.2 Hv ltac:(lra)). lra.
  - reflexivity.
Qed.

(** *** The selection *)

(** The confidence of a candidate. *)
Definition conf (x : candidate) : Q := snd (fst x).

(** The target field of a candidate. *)
Definition target (x : candidate) : string := fst (fst x).

Lemma choose_best_cons b0 x cands :
  choose_best b0 (x :: cands)
  = choose_best (update_best b0 (target x) (conf x) (snd x)) cands.
Proof. destruct x as [[t c] e]. reflexivity. Qed.

(** What the loop keeps: the best it started with, when no candidate is
    above it, and otherwise the first of the candidates of the largest
    confidence. *)
Lemma choose_best_spec (cands : list candidate) (b0 : best) :
  (choose_best b0 cands = b0 /\
   forall x, In x cands -> conf x <= best_confidence b0) \/
  (exists pre t c e post,
     cands = pre ++ (t, c, e) :: post /\
     choose_best b0 cands = mkBest (Some t) c (Some e) /\
     best_confidence b0 < c /\
     (forall x, In x pre -> conf x < c) /\
     (forall x, In x post -> conf x <= c)).
Proof.
  revert b0. induction cands as [|x cands IH]; intros b0.
  - left. split; [reflexivity|]. intros x [].
  - rewrite choose_best_cons. unfold update_best.
    destruct (Py.Qlt_bool (best_confidence b0) (conf x)) eqn:E.
    + apply PyFacts.Qlt_bool_iff in E. right.
      destruct (IH (mkBest (Some (target x)) (conf x) (Some (snd x))))
        as [[Hb Hle] | (pre & t & c & e & post & Hc & Hb & Hlt & Hpre & Hpost)].
      * exists [], (target x), (conf x), (snd x), cands.
        destruct x as [[t c] e]. simpl in *.
        split; [reflexivity|]. split; [exact Hb|]. split; [exact E|].
        split; [intros y []|exact Hle].
      * exists (x :: pre), t, c, e, post. simpl in Hlt.
        split; [rewrite Hc; reflexivity|]. split; [exact Hb|].
        split; [lra|]. split; [|exact Hpost].
        intros y [<-|Hy]; [exact Hlt|apply Hpre; exact Hy].
    + apply PyFacts.Qlt_bool_false_iff in E.
      destruct (IH b0)
        as [[Hb Hle] | (pre & t & c & e & post & Hc & Hb & Hlt & Hpre & Hpost)].
      * left. split; [exact Hb|]. intros y [<-|Hy]; [exact E|apply Hle; exact Hy].
      * right. exists (x :: pre), t, c, e, post.
        split; [rewrite Hc; reflexivity|]. split; [exact Hb|].
        split; [exact Hlt|]. split; [|exact Hpost].
        intros y [<-|Hy]; [lra|apply Hpre; exact Hy].
Qed.

(** [max_confidence] is the least bound of the confidences that is not
    negative. *)
Lemma max_confidence_le (cands : list candidate) (q : Q) :
  max_confidence cands <= q <-> 0 <= q /\ forall x, In x cands -> conf x <= q.
Proof.
  induction cands as [|[[t c] e] cands IH]; simpl.
  - split; [intros H; split; [exact H|intros x []]|tauto].
  - fold (max_confidence cands).
    destruct (Py.Qlt_bool (max_confidence cands) c) eqn:E.
    + apply PyFacts.Qlt_bool_iff in E. split.
      * intros H. assert (Hm : max_confidence cands <= q) by lra.
        apply IH in Hm. destruct Hm as [H0 Hall]. split; [exact H0|].
        intros x [<-|Hx]; [exact H|apply Hall; exact Hx].
      * intros [H0 Hall]. apply (Hall (t, c, e)). left. reflexivity.
    + apply PyFacts.Qlt_bool_false_iff in E. rewrite IH. split.
      * intros [H0 Hall]. split; [exact H0|].
        intros x [<-|Hx]; [|apply Hall; exact Hx].
        unfold conf. simpl.
        assert (max_confidence cands <= q) by (apply IH; tauto). lra.
      * intros [H0 Hall]. split; [exact H0|].
        intros x Hx. apply Hall. right. exact Hx.
Qed.

Lemma max_confidence_ge (cands : list candidate) (x : candidate) :
  In x cands -> conf x <= max_confidence cands.
Proof.
  intros Hx.
  apply (proj2 (proj1 (max_confidence_le cands (max_confidence cands))
                  (Qle_refl _))).
  exact Hx.
Qed.

(** A candidate that bounds all the others is the maximum. *)
Lemma max_confidence_attained (cands : list candidate) (x : candidate) :
  In x cands -> 0 <= conf x ->
  (forall y, In y cands -> conf y <= conf x) ->
  conf x == max_confidence cands.
Proof.
  intros Hx H0 Hall. apply Qle_antisym.
  - apply max_confidence_ge. exact Hx.
  - apply max_confidence_le. split; assumption.
Qed.

(** No target field has the empty name (which [if best_match] would
    take for no match). *)
Definition named (cands : list candidate) : Prop :=
  forall x, In x cands -> target x <> ""%string.

Lemma truthy_str_named (s : string) : s <> ""%string -> Py.truthy_str s = true.
Proof. destruct s; [congruence|reflexivity]. Qed.

(** The selection on any list of candidates with named targets: it keeps
    the first of those of the largest confidence, and it keeps nothing
    exactly when that largest confidence is at most 0.3, the test after
    the loop being [best_confidence > 0.3]. *)
Lemma select_maximum (cands : list candidate) :
  named cands ->
  (select cands = None <-> max_confidence cands <= 0.3) /\
  (forall t c,
     select cands = Some (t, c) ->
     0.3 < c /\ c == max_confidence cands /\
     exists pre e post,
       cands = pre ++ (t, c, e) :: post /\
       (forall x, In x pre -> conf x < c) /\
       (forall x, In x post -> conf x <= c)).
Proof.
  intros Hnamed. unfold select.
  destruct (choose_best_spec cands (mkBest None 0.0 None))
    as [[Hb Hle] | (pre & t & c & e & post & Hc & Hb & Hlt & Hpre & Hpost)];
    rewrite Hb; cbn [best_confidence best_match accept] in *.
  - split; [|intros t c H; discriminate].
    split; [intros _|reflexivity].
    apply max_confidence_le. split; [lra|].
    intros x Hx. specialize (Hle x Hx). lra.
  - assert (Hin : In (t, c, e) cands) by (rewrite Hc; apply in_elt).
    assert (Hall : forall y, In y cands -> conf y <= c).
    { intros y Hy. rewrite Hc in Hy. apply in_app_or in Hy.
      destruct Hy as [Hy|[<-|Hy]].
      - apply Qlt_le_weak, Hpre, Hy.
      - apply Qle_refl.
      - apply Hpost, Hy. }
    assert (Hmax : c == max_confidence cands).
    { apply (max_confidence_attained cands (t, c, e)); [exact Hin| |exact Hall].
      unfold conf. cbn [fst snd]. lra. }
    unfold accept. cbn [best_confidence best_match].
    rewrite (truthy_str_named t (Hnamed _ Hin)). cbn [andb].
    destruct (Py.Qlt_bool 0.3 c) eqn:E.
    + apply PyFacts.Qlt_bool_iff in E. split.
      * split; [discriminate|]. intros H. rewrite <- Hmax in H. lra.
      * intros t' c' H. inversion H; subst t' c'.
        split; [exact E|]. split; [exact Hmax|].
        exists pre, e, post. split; [exact Hc|]. split; assumption.
    + apply PyFacts.Qlt_bool_false_iff in E. split.
      * split; [intros _; rewrite <- Hmax; exact E|reflexivity].
      * intros t' c' H. discriminate.
Qed.

(** Three candidates: the first of the two at 0.85 is kept. *)
Lemma select_maximum_witness :
  select [ ("geburtsort", 0.4, "type"); ("vorname", 0.85, "first");
           ("rufname", 0.85, "second") ]%string
  = Some ("vorname"%string, 0.85) /\ 0.3 < 0.85.
Proof.
  split; [reflexivity|].
  refine (proj1 (proj2 (select_maximum
    [ ("geburtsort", 0.4, "type"); ("vorname", 0.85, "first");
      ("rufname", 0.85, "second") ]%string _) "vorname"%string 0.85 eq_refl)).
  intros x [<-|[<-|[<-|[]]]]; discriminate.
Defined.

(** The test taken alone, at a confidence that the scoring never gives: a
    best candidate at exactly 0.3 would not be selected. *)
Lemma select_rejects_at_floor :
  select [("geburtsort"%string, 0.3, "Same data type"%string)] = None /\
  ~ max_confidence [("geburtsort"%string, 0.3, "Same data type"%string)] < 0.3.
Proof.
  split; [reflexivity|].
  intros H. vm_compute in H. discriminate H.
Qed.

(** *** The loop over the target fields *)

Section Scan.

Variable rnd : rng.
Variables source_schema target_schema : schema.

(** The candidates of a source field when its turn starts at draw [n]. *)
Definition field_candidates (source_field : string) (n : nat) : list candidate :=
  fst (score_targets rnd source_schema target_schema source_field
         (keys target_schema) "" n).

(** The number of draws after the turn of a source field. *)
Definition field_draws (source_field : string) (n : nat) : nat :=
  snd (score_targets rnd source_schema target_schema source_field
         (keys target_schema) "" n).

(** The loop scores the targets in order and keeps the best as
    [choose_best] does. *)
Lemma scan_fold source_field targets st :
  let r := fold_left (scan_step rnd source_schema target_schema source_field) targets st in
  let sc := score_targets rnd source_schema target_schema source_field targets
              (scan_explanation st) (scan_draws st) in
  scan_best r = choose_best (scan_best st) (fst sc) /\ scan_draws r = snd sc.
Proof.
  revert st. induction targets as [|t targets IH]; intros st; simpl.
  - split; reflexivity.
  - unfold scan_step at 2 4.
    destruct (score_pair rnd source_schema target_schema source_field t
                (scan_explanation st) (scan_draws st)) as [[c e] n'] eqn:Ep.
    specialize (IH (mkScan (update_best (scan_best st) t c e) e n')).
    simpl in IH.
    destruct (score_targets rnd source_schema target_schema source_field targets e n')
      as [cs n''] eqn:Es.
    simpl in *. exact IH.
Qed.

Lemma scan_targets_best source_field bound n :
  scan_best (scan_targets rnd source_schema target_schema source_field bound n)
  = choose_best (mkBest None 0.0 bound) (field_candidates source_field n) /\
  scan_draws (scan_targets rnd source_schema target_schema source_field bound n)
  = field_draws source_field n.
Proof. apply (scan_fold source_field (keys target_schema) (mkScan _ _ _)). Qed.

(** The candidates are the target fields in order, each with the
    confidence of its branch. *)
Lemma score_targets_candidates source_field targets e n :
  let cands := fst (score_targets rnd source_schema target_schema source_field targets e n) in
  map target cands = targets /\
  forall x, In x cands ->
    exists k, conf x = basis_confidence rnd k
                         (pair_basis source_schema target_schema source_field (target x)).
Proof.
  revert e n. induction targets as [|t targets IH]; intros e n; simpl.
  - split; [reflexivity|]. intros x [].
  - rewrite score_pair_basis.
    specialize (IH (explain source_schema source_field t
                      (pair_basis source_schema target_schema source_field t) e)
                   (basis_draws (pair_basis source_schema target_schema source_field t) + n)%nat).
    destruct (score_targets _ _ _ _ targets _ _) as [cs n''].
    simpl in *. destruct IH as [Hmap Hall]. split; [rewrite Hmap; reflexivity|].
    intros x [<-|Hx]; [exists n; reflexivity|apply Hall; exact Hx].
Qed.

(** What the loop keeps does not depend on what [best_explanation] held
    before, unless it keeps nothing. *)
Lemma choose_best_bound cands m c be be' :
  (choose_best (mkBest m c be) cands = mkBest m c be /\
   choose_best (mkBest m c be') cands = mkBest m c be') \/
  (choose_best (mkBest m c be) cands = choose_best (mkBest m c be') cands /\
   exists t c' e, choose_best (mkBest m c be) cands = mkBest (Some t) c' (Some e)).
Proof.
  revert m c be be'. induction cands as [|x cands IH]; intros m c be be'.
  - left. split; reflexivity.
  - rewrite !choose_best_cons. unfold update_best. simpl.
    destruct (Py.Qlt_bool c (conf x)).
    + right. split; [reflexivity|].
      destruct (choose_best_spec cands (mkBest (Some (target x)) (conf x) (Some (snd x))))
        as [[Hb _] | (pre & t & c' & e & post & _ & Hb & _)]; rewrite Hb; eauto.
    + apply IH.
Qed.

(** A source field has a candidate: some target field gives it a branch
    of the scoring chain. *)
Definition has_basis (source_field target_field : string) : bool :=
  match pair_basis source_schema target_schema source_field target_field with
  | no_basis => false
  | _ => true
  end.

Definition matchable (source_field : string) : bool :=
  existsb (has_basis source_field) (keys target_schema).

(** A source field without a candidate keeps nothing. *)
Lemma unmatchable_keeps_nothing source_field bound n :
  matchable source_field = false ->
  choose_best (mkBest None 0.0 bound) (field_candidates source_field n)
  = mkBest None 0.0 bound.
Proof.
  intros Hm.
  destruct (choose_best_spec (field_candidates source_field n) (mkBest None 0.0 bound))
    as [[Hb _] | (pre & t & c & e & post & Hc & _ & Hlt & _)]; [exact Hb|].
  exfalso.
  destruct (score_targets_candidates source_field (keys target_schema) "" n)
    as [Hmap Hall].
  fold (field_candidates source_field n) in Hmap, Hall.
  assert (Hin : In (t, c, e) (field_candidates source_field n))
    by (rewrite Hc; apply in_elt).
  destruct (Hall _ Hin) as [k Hk]. unfold conf, target in Hk. simpl in Hk.
  assert (Ht : In t (keys target_schema)).
  { rewrite <- Hmap. apply (in_map target) in Hin. exact Hin. }
  unfold matchable in Hm.
  assert (Hb : has_basis source_field t = false).
  { destruct (has_basis source_field t) eqn:E; [|reflexivity].
    assert (existsb (has_basis source_field) (keys target_schema) = true)
      by (apply existsb_exists; eauto).
    congruence. }
  unfold has_basis in Hb.
  destruct (pair_basis source_schema target_schema source_field t);
    try discriminate.
  simpl in Hk, Hlt. subst c. lra.
Qed.

(** With a valid random source, a source field with a candidate keeps a
    target field with a confidence of 0.4 at least. *)
Lemma matchable_keeps_candidate source_field bound n :
  valid_rng rnd ->
  matchable source_field = true ->
  exists t c e,
    choose_best (mkBest None 0.0 bound) (field_candidates source_field n)
    = mkBest (Some t) c (Some e) /\
    In t (keys target_schema) /\ 0.4 <= c /\ c <= 0.95.
Proof.
  intros Hv Hm.
  destruct (score_targets_candidates source_field (keys target_schema) "" n)
    as [Hmap Hall].
  fold (field_candidates source_field n) in Hmap, Hall.
  assert (Hrange : forall x, In x (field_candidates source_field n) ->
                     has_basis source_field (target x) = true ->
                     0.4 <= conf x).
  { intros x Hx Hb. destruct (Hall x Hx) as [k Hk]. rewrite Hk.
    pose proof (basis_confidence_range rnd k
                  (pair_basis source_schema target_schema source_field (target x)) Hv) as R.
    unfold has_basis in Hb.
    destruct (pair_basis source_schema target_schema source_field (target x));
      try discriminate; apply R. }
  assert (Hupper : forall x, In x (field_candidates source_field n) -> conf x <= 0.95).
  { intros x Hx. destruct (Hall x Hx) as [k Hk]. rewrite Hk.
    pose proof (basis_confidence_range rnd k
                  (pair_basis source_schema target_schema source_field (target x)) Hv) as R.
    destruct (pair_basis source_schema target_schema source_field (target x));
      try apply R. rewrite R. lra. }
  unfold matchable in Hm. apply existsb_exists in Hm. destruct Hm as (t0 & Ht0 & Hb0).
  rewrite <- Hmap in Ht0. apply in_map_iff in Ht0. destruct Ht0 as (x0 & Hx0 & Hin0).
  subst t0. specialize (Hrange x0 Hin0 Hb0).
  destruct (choose_best_spec (field_candidates source_field n) (mkBest None 0.0 bound))
    as [[_ Hle] | (pre & t & c & e & post & Hc & Hb & Hlt & Hpre & Hpost)].
  - exfalso. specialize (Hle x0 Hin0). simpl in Hle. lra.
  - assert (Hin : In (t, c, e) (field_candidates source_field n))
      by (rewrite Hc; apply in_elt).
    exists t, c, e. split; [exact Hb|]. split.
    + rewrite <- Hmap. apply (in_map target) in Hin. exact Hin.
    + split; [|apply (Hupper _ Hin)].
      rewrite Hc in Hin0. apply in_app_or in Hin0.
      destruct Hin0 as [Hy|[<-|Hy]].
      * apply Hpre in Hy. lra.
      * exact Hrange.
      * apply Hpost in Hy. lra.
Qed.

End Scan.

(** *** The loop over the source fields *)

Section Analyze.

Variable rnd : rng.
Variables source_schema target_schema : schema.

Abbreviation astep := (analyze_step rnd source_schema target_schema).
Abbreviation cands_of := (field_candidates rnd source_schema target_schema).
Abbreviation draws_of := (field_draws rnd source_schema target_schema).

(** The entry of a source field: its selected candidate with the
    confidence rounded, or none. *)
Definition field_entry (source_field : string) (cands : list candidate)
  : list similarity :=
  let b := choose_best (mkBest None 0.0 None) cands in
  if accept b then
    match best_match b, best_explanation b with
    | Some t, Some e => [mkSimilarity source_field t (Py.round3 (best_confidence b)) e]
    | _, _ => []
    end
  else [].

(** The entry goes with the selection. *)
Lemma field_entry_select source_field cands :
  match select cands with
  | Some (t, c) =>
      exists e, field_entry source_field cands
                = [mkSimilarity source_field t (Py.round3 c) e]
  | None => field_entry source_field cands = []
  end.
Proof.
  unfold select, field_entry.
  destruct (choose_best_spec cands (mkBest None 0.0 None))
    as [[Hb _] | (pre & t & c & e & post & _ & Hb & _)]; rewrite Hb.
  - reflexivity.
  - destruct (accept (mkBest (Some t) c (Some e))); simpl; eauto.
Qed.

(** One turn of the loop raises nothing, appends the entry of the source
    field and moves on by the draws of its candidates. *)
Lemma analyze_step_entry (a : analysis) (source_field : string) :
  exists bound,
    astep (Py.Ok a) source_field
    = Py.Ok (mkAnalysis
               (similarities a ++
                field_entry source_field (cands_of source_field (draws a)))
               bound (draws_of source_field (draws a))).
Proof.
  unfold analyze_step. simpl.
  destruct (scan_targets_best rnd source_schema target_schema source_field
              (bound_explanation a) (draws a)) as [Hb Hd].
  rewrite Hb, Hd. unfold field_entry.
  destruct (choose_best_bound (cands_of source_field (draws a)) None 0.0
              (bound_explanation a) None)
    as [[H1 H2] | [Heq (t & c & e & H1)]].
  - rewrite H1, H2. simpl. rewrite app_nil_r. eauto.
  - rewrite <- Heq, H1.
    destruct (accept (mkBest (Some t) c (Some e))); simpl; [eauto|].
    rewrite app_nil_r. eauto.
Qed.

(** The entries of a list of source fields, from draw [n] on. *)
Fixpoint field_entries (fields : list string) (n : nat) : list similarity * nat :=
  match fields with
  | [] => ([], n)
  | s :: r =>
      let '(rest, n') := field_entries r (draws_of s n) in
      (field_entry s (cands_of s n) ++ rest, n')
  end.

Lemma analyze_fold (fields : list string) (a : analysis) :
  exists bound,
    fold_left astep fields (Py.Ok a)
    = Py.Ok (mkAnalysis (similarities a ++ fst (field_entries fields (draws a)))
               bound (snd (field_entries fields (draws a)))).
Proof.
  revert a. induction fields as [|s r IH]; intros a; cbn [fold_left field_entries].
  - exists (bound_explanation a). simpl. rewrite app_nil_r. destruct a; reflexivity.
  - destruct (analyze_step_entry a s) as [bound Hs]. rewrite Hs.
    destruct (IH (mkAnalysis
                    (similarities a ++ field_entry s (cands_of s (draws a)))
                    bound (draws_of s (draws a)))) as [bound' Hf].
    rewrite Hf. simpl.
    destruct (field_entries r (draws_of s (draws a))) as [rest n'].
    simpl. rewrite <- app_assoc. eauto.
Qed.

(** The analysis returns, with the entries of the source fields in
    order. *)
Lemma analyze_returns (n : nat) :
  analyze_semantic_similarity rnd n source_schema target_schema
  = Py.Ok (mkClaudeResults (fst (field_entries (keys source_schema) n))
             "Claude Semantic Analysis" 2.1,
           snd (field_entries (keys source_schema) n)).
Proof.
  unfold analyze_semantic_similarity.
  destruct (analyze_fold (keys source_schema) (mkAnalysis [] None n)) as [bound Hf].
  rewrite Hf. reflexivity.
Qed.

(** The source fields of the entries of one field: itself or none. *)
Lemma field_entry_source source_field cands :
  map EnhancedServer.source_field (field_entry source_field cands)
  = if accept (choose_best (mkBest None 0.0 None) cands) then [source_field] else [].
Proof.
  unfold field_entry.
  destruct (choose_best_spec cands (mkBest None 0.0 None))
    as [[Hb _] | (pre & t & c & e & post & _ & Hb & _)]; rewrite Hb.
  - reflexivity.
  - destruct (accept _); reflexivity.
Qed.

(** A source field without a candidate has no entry, whatever is drawn. *)
Lemma unmatchable_no_entry source_field n :
  matchable source_schema target_schema source_field = false ->
  field_entry source_field (cands_of source_field n) = [].
Proof.
  intros Hm. unfold field_entry.
  rewrite (unmatchable_keeps_nothing rnd source_schema target_schema
             source_field None n Hm).
  reflexivity.
Qed.

(** With a valid random source and no target field of the empty name, a
    source field with a candidate has an entry. *)
Lemma matchable_entry source_field n :
  valid_rng rnd ->
  (forall t, In t (keys target_schema) -> t <> ""%string) ->
  matchable source_schema target_schema source_field = true ->
  map EnhancedServer.source_field (field_entry source_field (cands_of source_field n))
  = [source_field].
Proof.
  intros Hv Hnamed Hm. rewrite field_entry_source.
  destruct (matchable_keeps_candidate rnd source_schema target_schema
              source_field None n Hv Hm) as (t & c & e & Hb & Ht & Hc & _).
  rewrite Hb. unfold accept. simpl.
  rewrite (truthy_str_named t (Hnamed t Ht)). simpl.
  assert (H : Py.Qlt_bool 0.3 c = true) by (apply PyFacts.Qlt_bool_iff; lra).
  rewrite H. reflexivity.
Qed.

(** The source fields of the entries never include one without a
    candidate. *)
Lemma field_entries_sources_sound fields n s :
  In s (map EnhancedServer.source_field (fst (field_entries fields n))) ->
  In s fields /\ matchable source_schema target_schema s = true.
Proof.
  revert n. induction fields as [|f r IH]; intros n; simpl; [intros []|].
  destruct (field_entries r (draws_of f n)) as [rest n'] eqn:Er.
  simpl. rewrite map_app, in_app_iff. intros [H|H].
  - rewrite field_entry_source in H.
    destruct (accept _) eqn:Ea; [|destruct H].
    destruct H as [<-|[]]. split; [left; reflexivity|].
    destruct (matchable source_schema target_schema f) eqn:Em; [reflexivity|].
    rewrite (unmatchable_keeps_nothing rnd source_schema target_schema f None n Em) in Ea.
    discriminate Ea.
  - specialize (IH (draws_of f n)). rewrite Er in IH. simpl in IH.
    destruct (IH H) as [Hin Hm]. split; [right; exact Hin|exact Hm].
Qed.

(** With a valid random source and no target field of the empty name,
    the source fields of the entries are the source fields with a
    candidate, in order. *)
Lemma field_entries_sources fields n :
  valid_rng rnd ->
  (forall t, In t (keys target_schema) -> t <> ""%string) ->
  map EnhancedServer.source_field (fst (field_entries fields n))
  = List.filter (matchable source_schema target_schema) fields.
Proof.
  intros Hv Hnamed. revert n. induction fields as [|f r IH]; intros n; simpl.
  - reflexivity.
  - specialize (IH (draws_of f n)).
    destruct (field_entries r (draws_of f n)) as [rest n'].
    simpl in *. rewrite map_app, IH.
    destruct (matchable source_schema target_schema f) eqn:Em.
    + rewrite (matchable_entry f n Hv Hnamed Em). reflexivity.
    + rewrite (unmatchable_no_entry f n Em). reflexivity.
Qed.

End Analyze.

(** *** Exact names *)



(** *** Fields without a candidate *)

Definition sources (res : claude_results) : list string :=
  map EnhancedServer.source_field (cr_similarities res).

(** C3, as the code has it. The analysis raises nothing and returns for
    every pair of schemas and every random source. In each turn of the
    loop, a source field whose best candidate is not selected (its
    confidence is not above 0.3) adds no entry to the result; a source
    field that no target field gives a candidate is the source field of no
    entry. The result holds the entries only: such a field is left out
    and recorded nowhere. *)
Theorem unmatched_fields_are_dropped (rnd : rng) (n : nat)
    (source_schema target_schema : schema) :
  (exists res n',
     analyze_semantic_similarity rnd n source_schema target_schema = Py.Ok (res, n') /\
     forall s, matchable source_schema target_schema s = false -> ~ In s (sources res)) /\
  (forall a s,
     exists a',
       analyze_step rnd source_schema target_schema (Py.Ok a) s = Py.Ok a' /\
       (select (field_candidates rnd source_schema target_schema s (draws a)) = None ->
        similarities a' = similarities a)).
Proof.
  split.
  - eexists _, _. split; [apply analyze_returns|].
    intros s Hm Hin. unfold sources in Hin. simpl in Hin.
    apply field_entries_sources_sound in Hin. destruct Hin as [_ Hm'].
    congruence.
  - intros a s.
    destruct (analyze_step_entry rnd source_schema target_schema a s) as [bound Hs].
    eexists. split; [exact Hs|].
    intros Hsel. simpl.
    pose proof (field_entry_select s
                  (field_candidates rnd source_schema target_schema s (draws a))) as He.
    rewrite Hsel in He. rewrite He. apply app_nil_r.
Qed.

Definition two_fields : schema := [("nome", "string"); ("zzz", "int")]%string.
Definition one_target : schema := [("firstName", "string")]%string.

Lemma unmatched_fields_are_dropped_witness :
  exists res n',
    analyze_semantic_similarity (fun _ => 0) 0 two_fields one_target = Py.Ok (res, n') /\
    ~ In "zzz"%string (sources res).
Proof.
  destruct (proj1 (unmatched_fields_are_dropped (fun _ => 0) 0%nat two_fields one_target))
    as (res & n' & Heq & H).
  exists res, n'. split; [exact Heq|]. apply H. reflexivity.
Defined.

Example analyze_two_fields :
  analyze_semantic_similarity (fun _ => 0) 0 two_fields one_target
  = Py.Ok (mkClaudeResults
             [mkSimilarity "nome" "firstName" (Qmake 900 1000)
                "Semantic match: 'nome' commonly maps to 'firstName' in cross-border contexts"]
             "Claude Semantic Analysis" 2.1, 1%nat).
Proof. vm_compute. reflexivity. Qed.

(** A source field with no candidate: the result does not cover it. The
    result is the list of entries with two constants, so the field is
    recorded nowhere. *)
Lemma unmatched_field_not_recorded :
  exists res n',
    analyze_semantic_similarity (fun _ => 0) 0 two_fields one_target = Py.Ok (res, n') /\
    ~ (forall s, In s (keys two_fields) -> In s (sources res)).
Proof.
  eexists _, _. split; [vm_compute; reflexivity|].
  intros H. specialize (H "zzz"%string). simpl in H.
  destruct H as [H|[]]; [right; left; reflexivity|discriminate H].
Qed.

(** *** Randomness *)

(** Two random sources with the same draws give the same candidates. *)
Lemma score_pair_ext rnd1 rnd2 src tgt s t e n :
  (forall k, rnd1 k = rnd2 k) ->
  score_pair rnd1 src tgt s t e n = score_pair rnd2 src tgt s t e n.
Proof.
  intros H. rewrite !score_pair_basis.
  destruct (pair_basis src tgt s t); simpl; unfold uniform; rewrite ?H; reflexivity.
Qed.

Lemma score_targets_ext rnd1 rnd2 src tgt s targets e n :
  (forall k, rnd1 k = rnd2 k) ->
  score_targets rnd1 src tgt s targets e n = score_targets rnd2 src tgt s targets e n.
Proof.
  intros H. revert e n. induction targets as [|t r IH]; intros e n; simpl.
  - reflexivity.
  - rewrite (score_pair_ext rnd1 rnd2 src tgt s t e n H).
    destruct (score_pair rnd2 src tgt s t e n) as [[c e'] n'].
    rewrite IH. reflexivity.
Qed.

Lemma field_entries_ext rnd1 rnd2 src tgt fields n :
  (forall k, rnd1 k = rnd2 k) ->
  field_entries rnd1 src tgt fields n = field_entries rnd2 src tgt fields n.
Proof.
  intros H. revert n. induction fields as [|s r IH]; intros n; simpl.
  - reflexivity.
  - unfold field_draws, field_candidates.
    rewrite (score_targets_ext rnd1 rnd2 src tgt s (keys tgt) "" n H).
    rewrite IH. reflexivity.
Qed.

(** C5, as the code has it. The scores are drawn: the analysis is a
    function of the two schemas and of the draws of [random.uniform], so
    two runs on the same schemas give the same result when their draws are
    the same; when the draws differ, the runs still give entries to the
    same source fields in the same order (provided no target field has
    the empty name), but the confidences and the matched target fields
    may differ. *)
Theorem scoring_deterministic_up_to_draws (rnd1 rnd2 : rng) (n : nat)
    (source_schema target_schema : schema) :
  ((forall k, rnd1 k = rnd2 k) ->
   analyze_semantic_similarity rnd1 n source_schema target_schema
   = analyze_semantic_similarity rnd2 n source_schema target_schema) /\
  (valid_rng rnd1 -> valid_rng rnd2 ->
   (forall t, In t (keys target_schema) -> t <> ""%string) ->
   forall n1 n2,
   exists res1 m1 res2 m2,
     analyze_semantic_similarity rnd1 n1 source_schema target_schema = Py.Ok (res1, m1) /\
     analyze_semantic_similarity rnd2 n2 source_schema target_schema = Py.Ok (res2, m2) /\
     sources res1 = sources res2 /\
     sources res1 = List.filter (matchable source_schema target_schema) (keys source_schema)).
Proof.
  split.
  - intros H. rewrite !analyze_returns.
    rewrite (field_entries_ext rnd1 rnd2 source_schema target_schema _ n H).
    reflexivity.
  - intros Hv1 Hv2 Hnamed n1 n2.
    eexists _, _, _, _.
    split; [apply analyze_returns|]. split; [apply analyze_returns|].
    unfold sources. simpl.
    rewrite !field_entries_sources by assumption. split; reflexivity.
Qed.

(** The draws 0, 0, ... and the draws 0, 1/2, 1/2, ... *)
Definition draws_zero : rng := fun _ => 0.
Definition draws_half : rng := fun k => match k with O => 0 | S _ => 1 # 2 end.

Lemma draws_zero_valid : valid_rng draws_zero.
Proof. intros k. unfold draws_zero. split; [apply Qle_refl|reflexivity]. Qed.

Lemma draws_half_valid : valid_rng draws_half.
Proof.
  intros [|k]; unfold draws_half; split;
    solve [ apply Qle_refl | reflexivity | discriminate ].
Qed.

Definition one_source : schema := [("nome", "string")]%string.
Definition two_targets : schema := [("firstName", "string"); ("givenName", "string")]%string.

Lemma scoring_deterministic_up_to_draws_witness :
  exists res1 m1 res2 m2,
    analyze_semantic_similarity draws_zero 0 one_source two_targets = Py.Ok (res1, m1) /\
    analyze_semantic_similarity draws_half 0 one_source two_targets = Py.Ok (res2, m2) /\
    sources res1 = sources res2 /\
    sources res1 = ["nome"%string].
Proof.
  apply (proj2 (scoring_deterministic_up_to_draws draws_zero draws_half 0%nat
                  one_source two_targets)
           draws_zero_valid draws_half_valid).
  intros t [<-|[<-|[]]]; discriminate.
Defined.

(** Two runs on the same schemas with different valid draws: the one
    matches nome to firstName at 0.9, the other to givenName at 0.925. *)
Lemma scoring_depends_on_draws :
  valid_rng draws_zero /\ valid_rng draws_half /\
  analyze_semantic_similarity draws_zero 0 one_source two_targets
  = Py.Ok (mkClaudeResults
             [mkSimilarity "nome" "firstName" (Qmake 900 1000)
                "Semantic match: 'nome' commonly maps to 'firstName' in cross-border contexts"]
             "Claude Semantic Analysis" 2.1, 2%nat) /\
  analyze_semantic_similarity draws_half 0 one_source two_targets
  = Py.Ok (mkClaudeResults
             [mkSimilarity "nome" "givenName" (Qmake 925 1000)
                "Semantic match: 'nome' commonly maps to 'givenName' in cross-border contexts"]
             "Claude Semantic Analysis" 2.1, 2%nat) /\
  analyze_semantic_similarity draws_zero 0 one_source two_targets
  <> analyze_semantic_similarity draws_half 0 one_source two_targets.
Proof.
  split; [exact draws_zero_valid|]. split; [exact draws_half_valid|].
  split; [vm_compute; reflexivity|]. split; [vm_compute; reflexivity|].
  intros H. vm_compute in H. discriminate H.
Qed.

(** *** The selection among the scored candidates *)








End EnhancedServerSpec.

(** ** The overall confidence of the three negotiators *)

Module NegotiationSpec.

(** Rounding does not see the representation of a rational. *)
Lemma round_half_even_comp (p q : Q) :
  p == q -> Py.round_half_even p = Py.round_half_even q.
Proof.
  intros H. unfold Py.round_half_even.
  rewrite (Qfloor_comp p q H).
  assert (Hc : Qcompare (p - inject_Z (Qfloor q)) (1 # 2)
               = Qcompare (q - inject_Z (Qfloor q)) (1 # 2)).
  { apply Qcompare_comp; [rewrite H; reflexivity|reflexivity]. }
  rewrite Hc. reflexivity.
Qed.

Lemma round3_comp (p q : Q) : p == q -> Py.round3 p = Py.round3 q.
Proof.
  intros H. unfold Py.round3. f_equal. apply round_half_even_comp.
  rewrite H. reflexivity.
Qed.

(** *** enhanced_server.py: the alignment decisions *)

Section Decisions.

Import EnhancedServer.

Variable rnd : rng.

(** The state of the loop after the similarities [sims]. *)
Lemma decide_fold (sims : list similarity) (st : decisions) :
  let r := fold_left (decide_step rnd) sims st in
  map al_confidence (d_alignments r)
  = map al_confidence (d_alignments st)
    ++ map Py.round3 (refined_confidences rnd (d_draws st) sims) /\
  total_confidence r
  == total_confidence st + Py.Qsum (refined_confidences rnd (d_draws st) sims) /\
  map al_source_field (d_alignments r)
  = map al_source_field (d_alignments st) ++ map source_field sims.
Proof.
  revert st. induction sims as [|s sims IH]; intros st; simpl.
  - rewrite !app_nil_r. split; [reflexivity|]. split; [|reflexivity].
    unfold Py.Qsum. simpl. ring.
  - unfold decide_step at 2 4 6.
    destruct (refine rnd (d_draws st) (confidence s)) as [refined m] eqn:Er.
    specialize (IH (mkDecisions
                      (d_alignments st ++
                       [mkAlignment (source_field s) (target_field s)
                          (Py.round3 refined) m (explanation s)])
                      (total_confidence st + refined) (S (d_draws st)))).
    simpl in IH. destruct IH as (Hc & Ht & Hs).
    rewrite Hc, Ht, Hs. rewrite !map_app. simpl. rewrite <- !app_assoc. simpl.
    split; [reflexivity|]. split; [|reflexivity].
    unfold Py.Qsum. simpl. ring.
Qed.

(** The reported confidences are the refined ones rounded, and the
    overall confidence is the mean of the refined ones, rounded. *)
Lemma make_alignment_decisions_overall (n : nat) (claude : claude_results) :
  let refined := refined_confidences rnd n (cr_similarities claude) in
  let r := make_alignment_decisions rnd n claude in
  map al_confidence (mr_alignments r) = map Py.round3 refined /\
  mr_overall_confidence r = Py.round3 (Py.mean refined).
Proof.
  simpl. unfold make_alignment_decisions.
  destruct (decide_fold (cr_similarities claude) (mkDecisions [] 0.0 n))
    as (Hc & Ht & _).
  simpl in Hc, Ht. simpl. split; [exact Hc|].
  assert (Hlen : length (d_alignments
                   (fold_left (decide_step rnd) (cr_similarities claude)
                      (mkDecisions [] 0.0 n)))
                 = length (refined_confidences rnd n (cr_similarities claude))).
  { rewrite <- (length_map al_confidence), Hc, length_map. reflexivity. }
  destruct (d_alignments _) as [|a l] eqn:Ea.
  - destruct (refined_confidences rnd n (cr_similarities claude)); [|discriminate Hlen].
    apply round3_comp. reflexivity.
  - destruct (refined_confidences rnd n (cr_similarities claude)) as [|x xs] eqn:Ex;
      [discriminate Hlen|].
    apply round3_comp. unfold Py.mean. rewrite Ht, Hlen.
    assert (H0 : 0.0 == 0) by reflexivity. rewrite H0. field.
    simpl length. intros Hz.
    assert (Hpos : 0 < inject_Z (Z.of_nat (S (length xs)))).
    { rewrite <- (Zlt_Qlt 0). lia. }
    rewrite Hz in Hpos. exact (Qlt_irrefl _ Hpos).
Qed.

End Decisions.

(** *** cross_border_implementation.py: the confidence score *)

Import CrossBorder.

(** The confidence score of a negotiated request is the f-score of the
    aligner's evaluation over 100, or 0.85 when the aligner raised. *)
Lemma perform_negotiation_confidence self request outcome request' :
  _perform_semantic_negotiation self request outcome = Py.Ok request' ->
  CrossBorderRequest.confidence_score request'
  = match outcome with
    | PipelineReturned _ f_score => default 0 f_score / 100
    | PipelineRaised => 0.85
    end.
Proof.
  unfold _perform_semantic_negotiation.
  destruct (negb (has_country_schema (CrossBorderRequest.source_country request)));
    [discriminate|].
  destruct (negb (has_country_schema (CrossBorderRequest.target_country request)));
    [discriminate|].
  destruct outcome; intros H; inversion H; reflexivity.
Qed.

(** The confidences of the alignments of a request. *)
Definition request_confidences (request : CrossBorderRequest.t) : list Q :=
  map SemanticAlignment.confidence_score (CrossBorderRequest.alignments request).

(** C1, as the code has it. The negotiator of server.py reports the
    arithmetic mean of the confidences of its alignments, 0 when there is
    none. The alignment step of enhanced_server.py reports each confidence
    rounded to three decimals and, as the overall confidence, the mean of
    the confidences before rounding, itself rounded (0 when there is no
    alignment). The agent of cross_border_implementation.py does not
    average: its confidence score is the f-score of the aligner's
    evaluation over 100, or the constant 0.85 on the fallback path. *)
Theorem overall_confidence_by_negotiator :
  (forall italian_schema german_schema,
     let r := Server.negotiate_schemas italian_schema german_schema in
     Server.overall_confidence r
     == Py.mean (ServerSpec.confidences (Server.alignments r)) /\
     (Server.alignments r = [] -> Server.overall_confidence r == 0)) /\
  (forall rnd n claude,
     let refined :=
       EnhancedServer.refined_confidences rnd n (EnhancedServer.cr_similarities claude) in
     let r := EnhancedServer.make_alignment_decisions rnd n claude in
     map EnhancedServer.al_confidence (EnhancedServer.mr_alignments r)
     = map Py.round3 refined /\
     EnhancedServer.mr_overall_confidence r = Py.round3 (Py.mean refined)) /\
  (forall self request outcome request',
     _perform_semantic_negotiation self request outcome = Py.Ok request' ->
     CrossBorderRequest.confidence_score request'
     = match outcome with
       | PipelineReturned _ f_score => default 0 f_score / 100
       | PipelineRaised => 0.85
       end).
Proof.
  split; [|split].
  - intros italian_schema german_schema r. split.
    + apply ServerSpec.negotiate_schemas_overall.
    + intros H. subst r.
      rewrite (ServerSpec.negotiate_schemas_overall italian_schema german_schema), H.
      reflexivity.
  - intros rnd n claude. apply make_alignment_decisions_overall.
  - apply perform_negotiation_confidence.
Qed.

Definition pending_request : CrossBorderRequest.t :=
  CrossBorderRequest.mk "CBR_1_abcdef01" ITALY GERMANY BIRTH_CERTIFICATE
    "employment_verification" "pending" [] ∅ 0.

Lemma overall_confidence_by_negotiator_witness :
  exists request',
    _perform_semantic_negotiation default_agent pending_request PipelineRaised
    = Py.Ok request' /\
    CrossBorderRequest.confidence_score request' = 0.85.
Proof.
  eexists. split; [reflexivity|].
  apply (proj2 (proj2 overall_confidence_by_negotiator)
           default_agent pending_request PipelineRaised _ eq_refl).
Defined.

(** On the fallback path the reported confidence is 0.85, and the mean
    of the seven alignment confidences is 598/700. *)
Lemma fallback_confidence_not_mean :
  exists request,
    process_cross_border_request default_agent "CBR_1_abcdef01" ITALY GERMANY
      BIRTH_CERTIFICATE "employment_verification" PipelineRaised = Py.Ok request /\
    Py.mean (request_confidences request) == Qmake 598 700 /\
    ~ CrossBorderRequest.confidence_score request == Py.mean (request_confidences request).
Proof.
  eexists. split; [reflexivity|]. split; [vm_compute; reflexivity|].
  intros H. vm_compute in H. discriminate H.
Qed.

(** The rounded mean of the refined confidences is not the mean of the
    rounded ones: two similarities at 0.95, refined to 0.9704 and 0.9714,
    are reported as 0.97 and 0.971 with the overall confidence 0.971. *)
Example rounded_mean_differs :
  let rnd : EnhancedServer.rng :=
    fun k => match k with O => 1 # 150 | _ => 7 # 300 end in
  let claude :=
    EnhancedServer.mkClaudeResults
      [EnhancedServer.mkSimilarity "a" "A" 0.95 ""; EnhancedServer.mkSimilarity "b" "B" 0.95 ""]
      "Claude Semantic Analysis" 2.1 in
  let r := EnhancedServer.make_alignment_decisions rnd 0 claude in
  map EnhancedServer.al_confidence (EnhancedServer.mr_alignments r)
  = [Qmake 970 1000; Qmake 971 1000] /\
  EnhancedServer.mr_overall_confidence r = Qmake 971 1000.
Proof. vm_compute. split; reflexivity. Qed.

End NegotiationSpec.

(** ** enhanced_demo.py *)

Module EnhancedDemoSpec.

Import EnhancedDemo.

Definition demo_source : EnhancedServer.schema := [("nome", "string"); ("eta", "int")]%string.
Definition demo_target : EnhancedServer.schema := [("firstName", "string")]%string.

(** The mock analysis aligns the fields of its table whatever is drawn,
    with a confidence that is drawn. *)
Example mock_analysis_depends_on_draws :
  map (fun a => (source_field a, target_field a, Qred (confidence a)))
    (fst (_mock_semantic_analysis (fun _ => 0) 0 demo_source demo_target))
  = [("nome", "firstName", Qmake 17 20)]%string /\
  map (fun a => (source_field a, target_field a, Qred (confidence a)))
    (fst (_mock_semantic_analysis (fun _ => 1 # 2) 0 demo_source demo_target))
  = [("nome", "firstName", Qmake 9 10)]%string.
Proof. vm_compute. split; reflexivity. Qed.

End EnhancedDemoSpec.

(** * Further properties of the negotiation code *)

(** ** cross_border_implementation.py: the conversions *)

Module ConversionFacts.

Import CrossBorder.

(** Every character of the string passes the test. *)
Fixpoint all_chars (P : ascii -> bool) (s : string) : bool :=
  match s with
  | EmptyString => true
  | String c r => P c && all_chars P r
  end.

Lemma all_chars_app P s1 s2 :
  all_chars P (s1 ++ s2)%string = all_chars P s1 && all_chars P s2.
Proof.
  induction s1 as [|c r IH]; simpl; [reflexivity|].
  rewrite IH. apply andb_assoc.
Qed.

Lemma pretty_N_char_all P :
  (forall d, all_chars P (String (pretty_N_char d) "") = true) ->
  forall x s, all_chars P s = true -> all_chars P (pretty_N_go x s) = true.
Proof.
  intros Hd x. induction (N.lt_wf_0 x) as [x _ IH]. intros s Hs.
  destruct (decide (x = 0)%N) as [->|Hx].
  - rewrite pretty_N_go_0. exact Hs.
  - rewrite pretty_N_go_step by lia. apply IH.
    + apply N.div_lt; lia.
    + specialize (Hd (x `mod` 10)%N). simpl in *.
      rewrite andb_true_r in Hd. rewrite Hd, Hs. reflexivity.
Qed.

(** The characters of a date which is not to be parsed again: anything
    but the slash. *)
Definition not_slash (c : ascii) : bool := negb (Ascii.eqb c "/").

Lemma pretty_Z_no_slash (z : Z) : all_chars not_slash (pretty z) = true.
Proof.
  assert (Hd : forall d, all_chars not_slash (String (pretty_N_char d) "") = true).
  { intros d. unfold pretty_N_char.
    repeat (match goal with |- context [match ?x with _ => _ end] => destruct x end;
            try reflexivity). }
  assert (HN : forall n : N, all_chars not_slash (pretty n) = true).
  { intros n. unfold pretty, pretty_N. destruct (decide (n = 0%N)); [reflexivity|].
    apply pretty_N_char_all; [exact Hd|reflexivity]. }
  destruct z as [|p|p]; [reflexivity|apply (HN (Npos p))|].
  change (pretty (Zneg p)) with ("-" +:+ pretty (Npos p)).
  simpl. apply (HN (Npos p)).
Qed.

Lemma zero_pad_no_slash w s :
  all_chars not_slash s = true -> all_chars not_slash (Py.zero_pad w s) = true.
Proof.
  revert s. induction w as [|w IH]; intros s Hs; simpl; [exact Hs|].
  destruct (String.length s <? S w)%nat; [|exact Hs].
  simpl. apply IH. exact Hs.
Qed.

Lemma strftime_no_slash pad_year dt :
  all_chars not_slash (strftime pad_year dt) = true.
Proof.
  unfold strftime, strftime_Y.
  rewrite !all_chars_app.
  rewrite (zero_pad_no_slash 2 (pretty (month dt)) (pretty_Z_no_slash _)).
  rewrite (zero_pad_no_slash 2 (pretty (day dt)) (pretty_Z_no_slash _)).
  destruct pad_year.
  - rewrite (zero_pad_no_slash 4 (pretty (year dt)) (pretty_Z_no_slash _)). reflexivity.
  - rewrite pretty_Z_no_slash. reflexivity.
Qed.

(** A string without the separator is one piece. *)
Lemma split_aux_no_sep sep cur s :
  all_chars (fun c => negb (Ascii.eqb c sep)) s = true ->
  exists piece, Py.split_aux sep cur s = [piece].
Proof.
  revert cur. induction s as [|c r IH]; intros cur H; simpl in *.
  - eauto.
  - apply andb_true_iff in H. destruct H as [Hc Hr].
    apply negb_true_iff in Hc. rewrite Hc. apply IH. exact Hr.
Qed.

(** A string without a slash is no date in the Italian form. *)
Lemma strptime_needs_slashes s :
  all_chars not_slash s = true -> strptime s = None.
Proof.
  intros H. unfold strptime, Py.split.
  destruct (split_aux_no_sep "/" "" s H) as [piece ->]. reflexivity.
Qed.

(** Converting a date a second time changes nothing: the converted value
    is not in the Italian form, so the second conversion hands it back
    (with a warning). *)
Theorem date_conversion_idempotent pad_year (date_value : string)
    source_country target_country value out :
  _transform_date_format pad_year (VStr date_value) source_country target_country
  = (Py.Ok value, out) ->
  fst (_transform_date_format pad_year value source_country target_country)
  = Py.Ok value.
Proof.
  unfold _transform_date_format.
  destruct (CountryCode_eqb source_country ITALY && CountryCode_eqb target_country GERMANY).
  - destruct (strptime date_value) as [dt|] eqn:Ep; intros H; inversion H; subst; clear H.
    + rewrite (strptime_needs_slashes _ (strftime_no_slash pad_year dt)). reflexivity.
    + rewrite Ep. reflexivity.
  - intros H; inversion H; subst. reflexivity.
Qed.

Lemma date_conversion_idempotent_witness :
  fst (_transform_date_format false (VStr "1985-03-15T00:00:00Z") ITALY GERMANY)
  = Py.Ok (VStr "1985-03-15T00:00:00Z").
Proof.
  apply (date_conversion_idempotent false "15/03/1985" ITALY GERMANY
           (VStr "1985-03-15T00:00:00Z") []).
  reflexivity.
Defined.

(** A conversion from Italy to Germany that prints no warning has parsed
    a date of the calendar: day and month in range for the year, which is
    between 1 and 9999. *)
Theorem converted_dates_are_calendar_dates pad_year (date_value : string) value :
  _transform_date_format pad_year (VStr date_value) ITALY GERMANY = (Py.Ok value, []) ->
  exists date_obj,
    strptime date_value = Some date_obj /\
    value = VStr (strftime pad_year date_obj) /\
    (1 <= year date_obj <= 9999)%Z /\ (1 <= month date_obj <= 12)%Z /\
    (1 <= day date_obj <= days_in_month (year date_obj) (month date_obj))%Z.
Proof.
  unfold _transform_date_format. simpl.
  destruct (strptime date_value) as [dt|] eqn:Ep; intros H; inversion H; subst.
  exists dt. split; [reflexivity|]. split; [reflexivity|].
  exact (CrossBorderSpec.strptime_calendar _ _ Ep).
Qed.

Lemma converted_dates_are_calendar_dates_witness :
  exists date_obj,
    strptime "29/02/2000" = Some date_obj /\
    VStr "2000-02-29T00:00:00Z" = VStr (strftime false date_obj) /\
    (1 <= year date_obj <= 9999)%Z /\ (1 <= month date_obj <= 12)%Z /\
    (1 <= day date_obj <= days_in_month (year date_obj) (month date_obj))%Z.
Proof.
  apply (converted_dates_are_calendar_dates false "29/02/2000"
           (VStr "2000-02-29T00:00:00Z")).
  reflexivity.
Defined.

End ConversionFacts.

(** ** cross_border_implementation.py: transforming a record *)

Module TransformFacts.

Import CrossBorder.




Section Loop.

Variable pad_year : bool.
Variable source_dict : gmap string pyvalue.
Variables source_country target_country : CountryCode.

Abbreviation step := (transform_step pad_year source_dict source_country target_country).
Abbreviation convert :=
  (fun v a => _apply_field_transformation pad_year v a source_country target_country).



(** The alignments that write no entry for the key leave it alone. *)
Lemma fold_untouched l m0 out0 m out k :
  fold_left step l (Py.Ok m0, out0) = (Py.Ok m, out) ->
  (forall a, In a l -> SemanticAlignment.target_field a = k ->
     source_dict !! SemanticAlignment.source_field a = None) ->
  m !! k = m0 !! k.
Proof.
  revert m0 out0. induction l as [|a l IH]; intros m0 out0 H Hno.
  - simpl in H. inversion H. reflexivity.
  - cbn [fold_left] in H. unfold transform_step at 2 in H.
    destruct (source_dict !! SemanticAlignment.source_field a) as [v|] eqn:Ev.
    + destruct (convert v a) as [[tv|e'] w] eqn:Ec.
      * apply IH in H; [|intros a' Hin; apply Hno; right; exact Hin].
        rewrite H. apply lookup_insert_ne. intros Heq.
        specialize (Hno a (or_introl eq_refl) Heq). congruence.
      * rewrite CrossBorderSpec.transform_fold_raise in H. discriminate H.
    + apply IH in H; [exact H|]. intros a' Hin. apply Hno. right. exact Hin.
Qed.

(** The last alignment that writes a target field decides its value. *)
Lemma fold_last_writer l1 a l2 m0 out0 m out v v' w :
  fold_left step (l1 ++ a :: l2) (Py.Ok m0, out0) = (Py.Ok m, out) ->
  source_dict !! SemanticAlignment.source_field a = Some v ->
  convert v a = (Py.Ok v', w) ->
  (forall a', In a' l2 ->
     SemanticAlignment.target_field a' = SemanticAlignment.target_field a ->
     source_dict !! SemanticAlignment.source_field a' = None) ->
  m !! SemanticAlignment.target_field a = Some v'.
Proof.
  intros H Hv Hc Hno. rewrite fold_left_app in H.
  destruct (fold_left step l1 (Py.Ok m0, out0)) as [[m1|e1] o1].
  - cbn [fold_left] in H. unfold transform_step at 2 in H.
    rewrite Hv, Hc in H.
    rewrite (fold_untouched _ _ _ _ _ _ H Hno). apply lookup_insert_eq.
  - rewrite CrossBorderSpec.transform_fold_raise in H. discriminate H.
Qed.

End Loop.






(** The value of a target field is the converted value of the last
    alignment that writes it, unless the field is the nationality that the
    last step sets for Germany. *)
Theorem transform_last_writer pad_year request source_dict transformed_data out
    l1 a l2 v v' w :
  transform_citizen_data pad_year request source_dict = (Py.Ok transformed_data, out) ->
  CrossBorderRequest.alignments request = l1 ++ a :: l2 ->
  source_dict !! SemanticAlignment.source_field a = Some v ->
  _apply_field_transformation pad_year v a
    (CrossBorderRequest.source_country request)
    (CrossBorderRequest.target_country request) = (Py.Ok v', w) ->
  (forall a', In a' l2 ->
     SemanticAlignment.target_field a' = SemanticAlignment.target_field a ->
     source_dict !! SemanticAlignment.source_field a' = None) ->
  SemanticAlignment.target_field a <> "staatsangehoerigkeit"%string ->
  transformed_data !! SemanticAlignment.target_field a = Some v'.
Proof.
  unfold transform_citizen_data. intros H Hal Hv Hc Hno Hne.
  rewrite Hal in H.
  destruct (fold_left _ _ _) as [[m|e'] o] eqn:Ef; [|discriminate].
  pose proof (fold_last_writer _ _ _ _ _ _ _ _ _ _ _ _ _ _ Ef Hv Hc Hno) as Hm.
  destruct (source_dict !! "codice_fiscale"%string).
  - destruct (CountryCode_eqb _ _); inversion H; subst; [|exact Hm].
    rewrite lookup_insert_ne by congruence. exact Hm.
  - inversion H; subst. exact Hm.
Qed.

Definition twice_written_request : CrossBorderRequest.t :=
  CrossBorderSpec.test_request
    [mkSemanticAlignment "nome" "vorname" 0.93 "exact" "DIRECT_MAP";
     mkSemanticAlignment "sesso" "vorname" 0.5 "related" "ENUM_TRANSFORM"].

Definition twice_written_record : gmap string pyvalue :=
  <["nome"%string := VStr "Marco"]> (<["sesso"%string := VStr "M"]> ∅).

Definition twice_written_output : gmap string pyvalue :=
  <["vorname"%string := VStr "M"]> ∅.

Lemma transform_last_writer_witness :
  transform_citizen_data false twice_written_request twice_written_record
  = (Py.Ok twice_written_output, []) /\
  twice_written_output !! "vorname"%string = Some (VStr "M").
Proof.
  assert (H : transform_citizen_data false twice_written_request twice_written_record
              = (Py.Ok twice_written_output, [])) by reflexivity.
  split; [exact H|].
  refine (transform_last_writer false twice_written_request twice_written_record
            twice_written_output []
            [mkSemanticAlignment "nome" "vorname" 0.93 "exact" "DIRECT_MAP"]
            (mkSemanticAlignment "sesso" "vorname" 0.5 "related" "ENUM_TRANSFORM")
            [] (VStr "M") (VStr "M") [] H eq_refl eq_refl eq_refl _ _).
  - intros a' [].
  - discriminate.
Defined.

(** For Germany, a record with a tax code gets the nationality of the
    source country under staatsangehoerigkeit, whatever an alignment
    wrote there. *)
Theorem nationality_overrides_alignment pad_year request source_dict
    transformed_data out tax_code :
  transform_citizen_data pad_year request source_dict = (Py.Ok transformed_data, out) ->
  source_dict !! "codice_fiscale"%string = Some tax_code ->
  CrossBorderRequest.target_country request = GERMANY ->
  transformed_data !! "staatsangehoerigkeit"%string
  = Some (VStr match CrossBorderRequest.source_country request with
               | ITALY => "Italian"
               | GERMANY => "German"
               | FRANCE => "FR"
               | SPAIN => "ES"
               end).
Proof.
  unfold transform_citizen_data. intros H Htax Hde.
  destruct (fold_left _ _ _) as [[m|e'] o]; [|discriminate].
  rewrite Htax, Hde in H. simpl in H. inversion H; subst.
  rewrite lookup_insert_eq. f_equal. f_equal.
  destruct (CrossBorderRequest.source_country request); reflexivity.
Qed.

Definition tax_code_request : CrossBorderRequest.t :=
  CrossBorderSpec.test_request
    [mkSemanticAlignment "codice_fiscale" "staatsangehoerigkeit" 0.95 "exact" "DIRECT_MAP"].

Definition tax_code_record : gmap string pyvalue :=
  <["codice_fiscale"%string := VStr "RSSMRC85C15H501Z"]> ∅.

Definition tax_code_output : gmap string pyvalue :=
  <["staatsangehoerigkeit"%string := VStr "Italian"]> ∅.

Lemma nationality_overrides_alignment_witness :
  transform_citizen_data false tax_code_request tax_code_record
  = (Py.Ok tax_code_output, []) /\
  tax_code_output !! "staatsangehoerigkeit"%string = Some (VStr "Italian").
Proof.
  assert (H : transform_citizen_data false tax_code_request tax_code_record
              = (Py.Ok tax_code_output, [])) by reflexivity.
  split; [exact H|].
  exact (nationality_overrides_alignment false tax_code_request tax_code_record
           tax_code_output [] (VStr "RSSMRC85C15H501Z") H eq_refl eq_refl).
Defined.

(** The alignments made from the aligner's matchings carry the rules
    DIRECT_MAP, TRANSFORM and MANUAL_REVIEW, none of which
    [_apply_field_transformation] knows as a conversion: their values are
    copied as they are. *)
Theorem aligner_alignments_copy pad_year (matchings : list matching) a value
    source_country target_country :
  In a (_process_alignments matchings) ->
  _apply_field_transformation pad_year value a source_country target_country
  = (Py.Ok value, []).
Proof.
  unfold _process_alignments. intros H. apply in_map_iff in H.
  destruct H as (m & <- & _).
  unfold _apply_field_transformation, _generate_transformation_rule.
  cbn [SemanticAlignment.transformation_rule mkSemanticAlignment].
  destruct (Qle_bool 0.9 (default 0 (confidence m))); [reflexivity|].
  destruct (Qle_bool 0.7 (default 0 (confidence m))); reflexivity.
Qed.

Lemma aligner_alignments_copy_witness :
  _apply_field_transformation false (VStr "15/03/1985")
    (mkSemanticAlignment "data_nascita" "geburtsdatum" 0.75 "related"
       "TRANSFORM(data_nascita → geburtsdatum, confidence=0.75)")
    ITALY GERMANY
  = (Py.Ok (VStr "15/03/1985"), []).
Proof.
  apply (aligner_alignments_copy false
           [mkMatching (Some "data_nascita"%string) (Some "geburtsdatum"%string)
              (Some 0.75) (Some "related"%string)]).
  left. reflexivity.
Defined.

End TransformFacts.

(** ** cross_border_implementation.py: requests and reports *)

Module RequestFacts.

Import CrossBorder.

(** What leaves [process_cross_border_request]: the [IndexError] of
    [citizen.given_names[0]], or an exception of the negotiation. *)
Inductive request_exn : Type :=
| IndexError (msg : string)
| Negotiation (e : Py.exn).

(** [process_cross_border_request] with the given names of the citizen:
    the second line it prints reads [citizen.given_names[0]], after the
    request is made and registered and before the negotiation. *)
Definition process_request_of_citizen (given_names : list string)
    (self : EuropeanDigitalServiceAgent)
    (request_id : string) (country_of_origin target_country : CountryCode)
    (document_type : DocumentType) (purpose : string) (outcome : pipeline_outcome)
  : CrossBorderRequest.t + request_exn :=
  match given_names with
  | [] => inr (IndexError "list index out of range")
  | _ :: _ =>
      match process_cross_border_request self request_id country_of_origin
              target_country document_type purpose outcome with
      | Py.Ok request => inl request
      | Py.Raise e => inr (Negotiation e)
      end
  end.

(** How a request ends. For a citizen without a given name it raises an
    [IndexError] before the negotiation, whatever the countries. Otherwise,
    for two countries with a schema it is returned with the fields it was
    made with and is approved or sent to manual review, never left
    pending; for a country without a schema (France, Spain) the lookup of
    the schema raises a [KeyError], the source country first. *)
Theorem request_outcome given_names self rid co tc dt p outcome :
  match process_request_of_citizen given_names self rid co tc dt p outcome with
  | inl request =>
      given_names <> [] /\
      has_country_schema co = true /\ has_country_schema tc = true /\
      CrossBorderRequest.request_id request = rid /\
      CrossBorderRequest.source_country request = co /\
      CrossBorderRequest.target_country request = tc /\
      CrossBorderRequest.document_type request = dt /\
      CrossBorderRequest.purpose request = p /\
      (CrossBorderRequest.status request = "approved"%string \/
       CrossBorderRequest.status request = "requires_manual_review"%string)
  | inr (IndexError msg) =>
      given_names = [] /\ msg = "list index out of range"%string
  | inr (Negotiation e) =>
      given_names <> [] /\
      ((has_country_schema co = false /\ e = Py.KeyError (CountryCode_value co)) \/
       (has_country_schema co = true /\ has_country_schema tc = false /\
        e = Py.KeyError (CountryCode_value tc)))
  end.
Proof.
  unfold process_request_of_citizen.
  destruct given_names as [|g given_names]; [split; reflexivity|].
  unfold process_cross_border_request, _perform_semantic_negotiation.
  cbn [CrossBorderRequest.source_country CrossBorderRequest.target_country].
  destruct (has_country_schema co) eqn:Hco; simpl;
    [|split; [discriminate|left; split; reflexivity]].
  destruct (has_country_schema tc) eqn:Htc; simpl;
    [|split; [discriminate|right; repeat split; reflexivity]].
  destruct outcome; simpl;
    match goal with |- context [Qle_bool ?a ?b] => destruct (Qle_bool a b) end;
    simpl; (split; [discriminate|]); repeat split; auto.
Qed.

(** *** The threshold and the transformation map *)

(** The keys of the folded map: the keys it started from and the source
    fields of the accepted alignments. *)
Lemma build_fold_keys self alignments (m0 : gmap string string) s :
  is_Some (fold_left (CrossBorderSpec.build_step self) alignments m0 !! s) <->
  is_Some (m0 !! s) \/
  exists a, In a alignments /\ SemanticAlignment.source_field a = s /\
            CrossBorderSpec.accepted self a.
Proof.
  revert m0. induction alignments as [|a l IH]; intros m0; simpl.
  - split; [auto|]. intros [H|(a & [] & _)]. exact H.
  - rewrite IH. unfold CrossBorderSpec.build_step, CrossBorderSpec.accepted.
    destruct (Qle_bool _ _) eqn:E.
    + apply Qle_bool_iff in E. split.
      * intros [Hk|(a' & Hin & Hs & Ha)].
        -- destruct (decide (SemanticAlignment.source_field a = s)) as [Heq|Hne].
           ++ right. exists a. split; [left; reflexivity|]. split; assumption.
           ++ rewrite lookup_insert_ne in Hk by exact Hne. left. exact Hk.
        -- right. exists a'. split; [right; exact Hin|]. split; assumption.
      * intros [Hk|(a' & [<-|Hin] & Hs & Ha)].
        -- left. destruct (decide (SemanticAlignment.source_field a = s)) as [<-|Hne].
           ++ rewrite lookup_insert_eq. eauto.
           ++ rewrite lookup_insert_ne by exact Hne. exact Hk.
        -- left. subst s. rewrite lookup_insert_eq. eauto.
        -- right. exists a'. split; [exact Hin|]. split; assumption.
    + apply PyFacts.Qle_bool_false_iff in E. split.
      * intros [Hk|(a' & Hin & Hs & Ha)]; [left; exact Hk|].
        right. exists a'. split; [right; exact Hin|]. split; assumption.
      * intros [Hk|(a' & [<-|Hin] & Hs & Ha)]; [left; exact Hk| |].
        -- exfalso. exact (Qlt_not_le _ _ E Ha).
        -- right. exists a'. split; [exact Hin|]. split; assumption.
Qed.

(** A source field is a key of the transformation map exactly when one
    of its alignments is at or above the threshold; so an agent with a
    higher threshold maps no source field that an agent with a lower one
    does not map. *)
Theorem transformation_map_keys self (alignments : list SemanticAlignment.t) :
  (forall s,
     is_Some (_build_transformation_map self alignments !! s) <->
     exists a, In a alignments /\ SemanticAlignment.source_field a = s /\
               confidence_threshold self <= SemanticAlignment.confidence_score a) /\
  (forall stricter,
     confidence_threshold self <= confidence_threshold stricter ->
     forall s,
       is_Some (_build_transformation_map stricter alignments !! s) ->
       is_Some (_build_transformation_map self alignments !! s)).
Proof.
  assert (Hkeys : forall agent s,
     is_Some (_build_transformation_map agent alignments !! s) <->
     exists a, In a alignments /\ SemanticAlignment.source_field a = s /\
               confidence_threshold agent <= SemanticAlignment.confidence_score a).
  { intros agent s. rewrite CrossBorderSpec.build_map_fold, build_fold_keys.
    rewrite lookup_empty. split; [intros [[x Hx]|H]; [discriminate|exact H]|auto]. }
  split; [apply Hkeys|].
  intros stricter Hle s Hs. apply Hkeys in Hs. apply Hkeys.
  destruct Hs as (a & Hin & Hsrc & Ha).
  exists a. split; [exact Hin|]. split; [exact Hsrc|].
  eapply Qle_trans; eassumption.
Qed.

Lemma transformation_map_keys_witness :
  is_Some (_build_transformation_map default_agent _fallback_rule_based_alignment
             !! "cognome"%string).
Proof.
  apply (proj2 (transformation_map_keys default_agent _fallback_rule_based_alignment)
           (mkAgent "m" "r" 0.9)).
  - apply Qle_bool_iff. reflexivity.
  - exists "familienname"%string. reflexivity.
Defined.

(** The map has at most one entry for each alignment. *)
Lemma build_fold_size self alignments (m0 : gmap string string) :
  (size (fold_left (CrossBorderSpec.build_step self) alignments m0)
   <= size m0 + length alignments)%nat.
Proof.
  revert m0. induction alignments as [|a l IH]; intros m0; simpl; [lia|].
  etransitivity; [apply IH|].
  unfold CrossBorderSpec.build_step. destruct (Qle_bool _ _); [|lia].
  rewrite map_size_insert.
  destruct (m0 !! SemanticAlignment.source_field a); simpl; lia.
Qed.

(** *** The registry of requests and the report *)

(** [DocumentType.value]. *)
Definition DocumentType_value (d : DocumentType) : string :=
  match d with
  | BIRTH_CERTIFICATE => "birth_certificate"
  | MARRIAGE_CERTIFICATE => "marriage_certificate"
  | DEATH_CERTIFICATE => "death_certificate"
  | ACADEMIC_DIPLOMA => "academic_diploma"
  | CRIMINAL_RECORD => "criminal_record"
  end.

(** [process_cross_border_request] with [self.active_requests]: the
    request is registered under its identifier before the negotiation and
    is the object the negotiation and the decision update, so the
    registry holds the request as it is when the call returns or raises. *)
Definition process_and_register (self : EuropeanDigitalServiceAgent)
    (active_requests : gmap string CrossBorderRequest.t)
    (request_id : string) (country_of_origin target_country : CountryCode)
    (document_type : DocumentType) (purpose : string) (outcome : pipeline_outcome)
  : Py.result CrossBorderRequest.t * gmap string CrossBorderRequest.t :=
  match process_cross_border_request self request_id country_of_origin target_country
          document_type purpose outcome with
  | Py.Ok request => (Py.Ok request, <[request_id := request]> active_requests)
  | Py.Raise e =>
      (Py.Raise e,
       <[request_id :=
           CrossBorderRequest.mk request_id country_of_origin target_country
             document_type purpose "pending" [] ∅ 0]> active_requests)
  end.

(** The report of [get_negotiation_report], without the citizen's name
    and the timestamp. *)
Record negotiation_report : Type := mkReport {
  rep_request_id : string;
  route : string;
  rep_document_type : string;
  rep_status : string;
  overall_confidence : Q;
  total_alignments : nat;
  high_confidence_count : nat;
  medium_confidence_count : nat;
  low_confidence_count : nat;
  transformation_coverage : nat;
  detailed_alignments : list (string * string * Q * string * string);
  cross_border_interoperability : bool
}.

Inductive report_result : Type :=
| Report (r : negotiation_report)
| ValueError (msg : string).

Definition score (a : SemanticAlignment.t) : Q := SemanticAlignment.confidence_score a.

(** [get_negotiation_report]. *)
Definition get_negotiation_report (active_requests : gmap string CrossBorderRequest.t)
    (request_id : string) : report_result :=
  match active_requests !! request_id with
  | None => ValueError ("Request " ++ request_id ++ " not found")
  | Some request =>
      let alignments := CrossBorderRequest.alignments request in
      let high_confidence :=
        List.filter (fun a => Qle_bool 0.8 (score a)) alignments in
      let medium_confidence :=
        List.filter (fun a => Qle_bool 0.6 (score a) && Py.Qlt_bool (score a) 0.8)
          alignments in
      let low_confidence :=
        List.filter (fun a => Py.Qlt_bool (score a) 0.6) alignments in
      Report (mkReport request_id
        (CountryCode_value (CrossBorderRequest.source_country request) ++ " → " ++
         CountryCode_value (CrossBorderRequest.target_country request))
        (DocumentType_value (CrossBorderRequest.document_type request))
        (CrossBorderRequest.status request)
        (CrossBorderRequest.confidence_score request)
        (length alignments)
        (length high_confidence) (length medium_confidence) (length low_confidence)
        (size (CrossBorderRequest.transformation_map request))
        (map (fun a => (SemanticAlignment.source_field a, SemanticAlignment.target_field a,
                        score a, SemanticAlignment.alignment_type a,
                        SemanticAlignment.transformation_rule a)) alignments)
        (Qle_bool 0.8 (CrossBorderRequest.confidence_score request)))
  end.

(** The three bands of the report split the alignments. *)
Lemma bands_partition (alignments : list SemanticAlignment.t) :
  (length (List.filter (fun a => Qle_bool 0.8 (score a)) alignments) +
   length (List.filter (fun a => Qle_bool 0.6 (score a) && Py.Qlt_bool (score a) 0.8)
             alignments) +
   length (List.filter (fun a => Py.Qlt_bool (score a) 0.6) alignments)
   = length alignments)%nat.
Proof.
  induction alignments as [|a l IH]; simpl; [reflexivity|].
  destruct (Qle_bool 0.8 (score a)) eqn:E8;
    destruct (Qle_bool 0.6 (score a)) eqn:E6;
    destruct (Py.Qlt_bool (score a) 0.8) eqn:L8;
    destruct (Py.Qlt_bool (score a) 0.6) eqn:L6;
    simpl; try lia; exfalso;
    repeat match goal with
           | H : Qle_bool _ _ = true |- _ => apply Qle_bool_iff in H
           | H : Qle_bool _ _ = false |- _ => apply PyFacts.Qle_bool_false_iff in H
           | H : Py.Qlt_bool _ _ = true |- _ => apply PyFacts.Qlt_bool_iff in H
           | H : Py.Qlt_bool _ _ = false |- _ => apply PyFacts.Qlt_bool_false_iff in H
           end; lra.
Qed.

(** The report of a request that was processed: its bands of high
    (at least 0.8), medium (from 0.6) and low confidence count every
    alignment once, and the transformation map covers at most as many
    fields as there are alignments. *)
Theorem report_counts self active_requests rid co tc dt p outcome request :
  process_cross_border_request self rid co tc dt p outcome = Py.Ok request ->
  exists r,
    get_negotiation_report
      (snd (process_and_register self active_requests rid co tc dt p outcome)) rid
    = Report r /\
    rep_status r = CrossBorderRequest.status request /\
    total_alignments r = length (CrossBorderRequest.alignments request) /\
    (high_confidence_count r + medium_confidence_count r + low_confidence_count r
     = total_alignments r)%nat /\
    (transformation_coverage r <= total_alignments r)%nat.
Proof.
  intros H. unfold process_and_register. rewrite H. simpl.
  unfold get_negotiation_report. rewrite lookup_insert_eq.
  eexists. split; [reflexivity|]. simpl.
  split; [reflexivity|]. split; [reflexivity|]. split; [apply bands_partition|].
  revert H. unfold process_cross_border_request, _perform_semantic_negotiation.
  destruct (negb _); [discriminate|]. destruct (negb _); [discriminate|].
  destruct outcome; simpl;
    match goal with |- context [Qle_bool ?a ?b] => destruct (Qle_bool a b) end;
    intros H; inversion H; subst; simpl;
    rewrite CrossBorderSpec.build_map_fold;
    (etransitivity; [apply build_fold_size|]); rewrite map_size_empty; simpl; lia.
Qed.

Lemma report_counts_witness :
  exists r,
    get_negotiation_report
      (snd (process_and_register default_agent ∅ "CBR_1_abcdef01" ITALY GERMANY
              BIRTH_CERTIFICATE "employment_verification" PipelineRaised))
      "CBR_1_abcdef01"
    = Report r /\
    rep_status r = "approved"%string /\
    total_alignments r = 7%nat /\
    (high_confidence_count r + medium_confidence_count r + low_confidence_count r
     = total_alignments r)%nat /\
    (transformation_coverage r <= total_alignments r)%nat.
Proof.
  exact (report_counts default_agent ∅ "CBR_1_abcdef01" ITALY GERMANY
           BIRTH_CERTIFICATE "employment_verification" PipelineRaised _ eq_refl).
Defined.

(** An identifier that was never registered has no report; a request
    that failed for want of a schema stays registered, pending and
    without alignments. *)
Theorem report_of_failed_request self active_requests rid co tc dt p outcome e :
  process_cross_border_request self rid co tc dt p outcome = Py.Raise e ->
  (active_requests !! rid = None ->
   get_negotiation_report active_requests rid
   = ValueError ("Request " ++ rid ++ " not found")) /\
  exists r,
    get_negotiation_report
      (snd (process_and_register self active_requests rid co tc dt p outcome)) rid
    = Report r /\
    rep_status r = "pending"%string /\ total_alignments r = 0%nat /\
    transformation_coverage r = 0%nat.
Proof.
  intros H. split.
  - intros Hn. unfold get_negotiation_report. rewrite Hn. reflexivity.
  - unfold process_and_register. rewrite H. simpl.
    unfold get_negotiation_report. rewrite lookup_insert_eq.
    eexists. split; [reflexivity|]. simpl. rewrite map_size_empty.
    repeat split; reflexivity.
Qed.

Lemma report_of_failed_request_witness :
  exists r,
    get_negotiation_report
      (snd (process_and_register default_agent ∅ "CBR_2_abcdef02" FRANCE GERMANY
              BIRTH_CERTIFICATE "education" PipelineRaised))
      "CBR_2_abcdef02"
    = Report r /\
    rep_status r = "pending"%string /\ total_alignments r = 0%nat /\
    transformation_coverage r = 0%nat.
Proof.
  exact (proj2 (report_of_failed_request default_agent ∅ "CBR_2_abcdef02" FRANCE GERMANY
                  BIRTH_CERTIFICATE "education" PipelineRaised _ eq_refl)).
Defined.

Lemma approved_iff self rid co tc dt p outcome request :
  process_cross_border_request self rid co tc dt p outcome = Py.Ok request ->
  CrossBorderRequest.status request = "approved"%string <->
  confidence_threshold self <= CrossBorderRequest.confidence_score request.
Proof.
  unfold process_cross_border_request.
  destruct (_perform_semantic_negotiation _ _ _) as [r|e]; simpl; [|discriminate].
  destruct (Qle_bool (confidence_threshold self) (CrossBorderRequest.confidence_score r))
    eqn:E; intros H; inversion H; subst; clear H;
    rewrite CrossBorderSpec.status_set_status, CrossBorderSpec.confidence_set_status.
  - apply Qle_bool_iff in E. split; [intros _; exact E|reflexivity].
  - apply PyFacts.Qle_bool_false_iff in E. split; [discriminate|].
    intros Hle. exfalso. exact (Qlt_not_le _ _ E Hle).
Qed.

(** The report's flag of interoperability compares the score with 0.8,
    not with the agent's threshold: it agrees with the approval when the
    threshold is 0.8, and an agent with another threshold can approve a
    request that the report flags as not interoperable. *)
Theorem interoperability_flag self active_requests rid co tc dt p outcome request :
  process_cross_border_request self rid co tc dt p outcome = Py.Ok request ->
  exists r,
    get_negotiation_report
      (snd (process_and_register self active_requests rid co tc dt p outcome)) rid
    = Report r /\
    (cross_border_interoperability r = true <->
     0.8 <= CrossBorderRequest.confidence_score request) /\
    (confidence_threshold self == 0.8 ->
     (cross_border_interoperability r = true <->
      CrossBorderRequest.status request = "approved"%string)).
Proof.
  intros H. unfold process_and_register. rewrite H. simpl.
  unfold get_negotiation_report. rewrite lookup_insert_eq.
  eexists. split; [reflexivity|]. simpl.
  split; [apply Qle_bool_iff|].
  intros Ht. rewrite Qle_bool_iff.
  rewrite (approved_iff _ _ _ _ _ _ _ _ H), Ht. reflexivity.
Qed.

Lemma interoperability_flag_witness :
  exists request r,
    process_cross_border_request (mkAgent "m" "r" 0.7) "CBR_3_abcdef03" ITALY GERMANY
      BIRTH_CERTIFICATE "employment_verification"
      (PipelineReturned [] (Some 75)) = Py.Ok request /\
    get_negotiation_report
      (snd (process_and_register (mkAgent "m" "r" 0.7) ∅ "CBR_3_abcdef03" ITALY GERMANY
              BIRTH_CERTIFICATE "employment_verification"
              (PipelineReturned [] (Some 75))))
      "CBR_3_abcdef03"
    = Report r /\
    CrossBorderRequest.status request = "approved"%string /\
    cross_border_interoperability r = false.
Proof.
  destruct (interoperability_flag (mkAgent "m" "r" 0.7) ∅ "CBR_3_abcdef03" ITALY GERMANY
              BIRTH_CERTIFICATE "employment_verification"
              (PipelineReturned [] (Some 75)) _ eq_refl) as (r & Hr & Hflag & _).
  eexists _, r. split; [reflexivity|]. split; [exact Hr|]. split; [reflexivity|].
  destruct (cross_border_interoperability r) eqn:E; [|reflexivity].
  exfalso. pose proof (proj1 Hflag eq_refl) as Hc. vm_compute in Hc.
  apply Hc. reflexivity.
Defined.

End RequestFacts.

(** ** server.py: candidates, decisions and the summary *)

Module ServerFacts.

Import Server.

(** *** The sorted candidates *)

(** Descending in the similarity. *)
Definition desc (x y : string * Q) : Prop := snd y <= snd x.

Lemma insert_desc_perm x l : Permutation (insert_desc x l) (x :: l).
Proof.
  induction l as [|y r IH]; simpl; [reflexivity|].
  destruct (Qle_bool (snd y) (snd x)); [reflexivity|].
  rewrite IH. apply perm_swap.
Qed.

Lemma sort_desc_perm l : Permutation (sort_desc l) l.
Proof.
  induction l as [|x l IH]; simpl; [reflexivity|].
  rewrite insert_desc_perm. apply perm_skip. exact IH.
Qed.

Lemma insert_desc_sorted x l :
  StronglySorted desc l -> StronglySorted desc (insert_desc x l).
Proof.
  induction 1 as [|y r Hr IH Hy]; simpl.
  - repeat constructor.
  - destruct (Qle_bool (snd y) (snd x)) eqn:E.
    + apply Qle_bool_iff in E. constructor; [constructor; assumption|].
      constructor; [exact E|].
      eapply Forall_impl; [exact Hy|]. intros z Hz. unfold desc in *. lra.
    + apply PyFacts.Qle_bool_false_iff in E. constructor; [exact IH|].
      rewrite (insert_desc_perm x r).
      constructor; [unfold desc; lra|exact Hy].
Qed.

Lemma sort_desc_sorted l : StronglySorted desc (sort_desc l).
Proof.
  induction l as [|x l IH]; simpl; [constructor|].
  apply insert_desc_sorted. exact IH.
Qed.

(** The candidates of one similarity. *)
Definition at_similarity (q : Q) (l : list (string * Q)) : list (string * Q) :=
  List.filter (fun x => Qeq_bool (snd x) q) l.

Lemma insert_desc_stable q x l :
  at_similarity q (insert_desc x l) = at_similarity q (x :: l).
Proof.
  unfold at_similarity. induction l as [|y r IH]; simpl; [reflexivity|].
  destruct (Qle_bool (snd y) (snd x)) eqn:E; [reflexivity|].
  apply PyFacts.Qle_bool_false_iff in E.
  simpl. rewrite IH. simpl.
  destruct (Qeq_bool (snd x) q) eqn:Ex; [|reflexivity].
  destruct (Qeq_bool (snd y) q) eqn:Ey; [|reflexivity].
  apply Qeq_bool_iff in Ex, Ey. exfalso. lra.
Qed.

Lemma sort_desc_stable q l : at_similarity q (sort_desc l) = at_similarity q l.
Proof.
  induction l as [|x l IH]; simpl; [reflexivity|].
  rewrite insert_desc_stable. unfold at_similarity in *. simpl.
  rewrite IH. reflexivity.
Qed.

(** [find_similar_concepts] returns every target once with its
    similarity, the larger similarity first, and targets of one
    similarity in the order they were given. *)
Theorem find_similar_concepts_sorted (source_concept : string)
    (target_concepts : list string) :
  let scored := map (fun t => (t, similarity_of source_concept t)) target_concepts in
  let found := find_similar_concepts source_concept target_concepts in
  Permutation found scored /\
  StronglySorted desc found /\
  forall q, at_similarity q found = at_similarity q scored.
Proof.
  simpl. unfold find_similar_concepts. split; [apply sort_desc_perm|].
  split; [apply sort_desc_sorted|]. intros q. apply sort_desc_stable.
Qed.

(** *** The confidence of a decision *)

Lemma similarity_of_range source_concept target :
  0.4 <= similarity_of source_concept target /\
  similarity_of source_concept target <= 0.9.
Proof.
  unfold similarity_of.
  repeat match goal with
         | |- context [if ?b then _ else _] => destruct b
         end; split; lra.
Qed.

Lemma min_range a b lo hi :
  lo <= a -> lo <= b -> (a <= hi \/ b <= hi) ->
  lo <= Py.min a b /\ Py.min a b <= hi.
Proof.
  intros Ha Hb Hhi. unfold Py.min.
  destruct (Py.Qlt_bool b a) eqn:E.
  - apply PyFacts.Qlt_bool_iff in E. split; [exact Hb|]. destruct Hhi; lra.
  - apply PyFacts.Qlt_bool_false_iff in E. split; [exact Ha|]. destruct Hhi; lra.
Qed.

(** A decision taken on candidates of similarities from 0.4 on has a
    confidence between 0.5 and 1. *)
Lemma decision_confidence_range source_concept candidate_targets :
  (forall x, In x candidate_targets -> 0.4 <= snd x) ->
  0.5 <= confidence (generate_alignment_decision source_concept candidate_targets) /\
  confidence (generate_alignment_decision source_concept candidate_targets) <= 1.
Proof.
  intros H. unfold generate_alignment_decision.
  destruct candidate_targets as [|[best_target similarity] r]; [simpl; split; lra|].
  assert (Hs : 0.4 <= similarity) by (apply (H (best_target, similarity)); left; reflexivity).
  cbn [confidence].
  destruct (min_range (similarity + 0.1) 1.0 0.5 1 ltac:(lra) ltac:(lra) ltac:(right; lra))
    as [Hlo Hhi].
  apply min_range; [| lra | right; lra].
  destruct (rule_type_for (name source_concept));
    destruct (required source_concept && _); lra.
Qed.

(** The bounds of a mean. *)
Lemma Qsum_bounds (l : list Q) (lo hi : Q) :
  (forall x, In x l -> lo <= x /\ x <= hi) ->
  inject_Z (Z.of_nat (length l)) * lo <= Py.Qsum l /\
  Py.Qsum l <= inject_Z (Z.of_nat (length l)) * hi.
Proof.
  induction l as [|x l IH]; intros H.
  - unfold Py.Qsum. cbn [length fold_right].
    change (inject_Z (Z.of_nat 0)) with 0. split; lra.
  - destruct IH as [IHlo IHhi]; [intros y Hy; apply H; right; exact Hy|].
    destruct (H x (or_introl eq_refl)) as [Hlo Hhi].
    change (Py.Qsum (x :: l)) with (x + Py.Qsum l).
    cbn [length]. rewrite Nat2Z.inj_succ, <- Z.add_1_r, inject_Z_plus.
    change (inject_Z 1) with 1. split; lra.
Qed.

Lemma mean_bounds (l : list Q) (lo hi : Q) :
  l <> [] ->
  (forall x, In x l -> lo <= x /\ x <= hi) ->
  lo <= Py.mean l /\ Py.mean l <= hi.
Proof.
  intros Hne H. destruct (Qsum_bounds l lo hi H) as [Hlo Hhi].
  destruct l as [|x l]; [congruence|]. unfold Py.mean.
  assert (Hpos : 0 < inject_Z (Z.of_nat (length (x :: l)))).
  { rewrite <- (Zlt_Qlt 0). cbn [length]. lia. }
  split.
  - apply Qle_shift_div_l; [exact Hpos|]. lra.
  - apply Qle_shift_div_r; [exact Hpos|]. lra.
Qed.

Lemma found_similarities source_concept target_concepts x :
  In x (take 5 (find_similar_concepts source_concept target_concepts)) ->
  0.4 <= snd x.
Proof.
  intros H. apply list_elem_of_In in H. apply (subseteq_take 5) in H.
  apply list_elem_of_In in H.
  apply (Permutation_in _ (sort_desc_perm _)) in H.
  apply in_map_iff in H. destruct H as (t & <- & _). simpl.
  apply similarity_of_range.
Qed.

(** Every alignment of a negotiation has a confidence between 0.5 and 1,
    and so has the overall confidence when the Italian schema has a
    property; without any it is 0. *)
Theorem negotiation_confidence_range (italian_schema german_schema : schema) :
  let r := negotiate_schemas italian_schema german_schema in
  (forall a, In a (alignments r) ->
     0.5 <= confidence (alignment a) /\ confidence (alignment a) <= 1) /\
  (properties italian_schema <> [] ->
   0.5 <= overall_confidence r /\ overall_confidence r <= 1) /\
  (properties italian_schema = [] -> overall_confidence r == 0).
Proof.
  simpl.
  assert (Hall : forall a,
    In a (alignments (negotiate_schemas italian_schema german_schema)) ->
    0.5 <= confidence (alignment a) /\ confidence (alignment a) <= 1).
  { intros a Ha. unfold negotiate_schemas in Ha. cbn [alignments] in Ha.
    apply in_map_iff in Ha. destruct Ha as (c & <- & _). cbn [alignment].
    apply decision_confidence_range. apply found_similarities. }
  split; [exact Hall|]. split.
  - intros Hne.
    rewrite (ServerSpec.negotiate_schemas_overall italian_schema german_schema).
    apply mean_bounds.
    + unfold ServerSpec.confidences, negotiate_schemas, _extract_concepts.
      cbn [alignments]. destruct (properties italian_schema); [congruence|discriminate].
    + intros x Hx. unfold ServerSpec.confidences in Hx. apply in_map_iff in Hx.
      destruct Hx as (a & <- & Ha). apply Hall. exact Ha.
  - intros He. unfold negotiate_schemas, _extract_concepts. rewrite He. reflexivity.
Qed.

Lemma negotiation_confidence_range_witness :
  0.5 <= overall_confidence
           (negotiate_schemas ServerSpec.demo_italian ServerSpec.demo_german) /\
  overall_confidence (negotiate_schemas ServerSpec.demo_italian ServerSpec.demo_german)
  <= 1.
Proof.
  apply (proj1 (proj2 (negotiation_confidence_range ServerSpec.demo_italian
                         ServerSpec.demo_german))).
  discriminate.
Defined.

(** *** No German concept *)

Lemma mean_constant (l : list Q) (c : Q) :
  l <> [] -> (forall x, In x l -> x = c) -> Py.mean l == c.
Proof.
  intros Hne H.
  destruct (mean_bounds l c c Hne) as [Hlo Hhi].
  - intros x Hx. rewrite (H x Hx). split; apply Qle_refl.
  - apply Qle_antisym; assumption.
Qed.

Lemma unknown_decisions (italian_schema german_schema : schema) :
  properties german_schema = [] ->
  forall a, In a (alignments (negotiate_schemas italian_schema german_schema)) ->
    alignment a = mkDecision "unknown" 0.5 None.
Proof.
  intros Hg a Ha. unfold negotiate_schemas in Ha. cbn [alignments] in Ha.
  apply in_map_iff in Ha. destruct Ha as (c & <- & _).
  unfold _extract_concepts. rewrite Hg. reflexivity.
Qed.

(** Against a German schema without properties every Italian property
    is aligned to "unknown" with the confidence 0.5 and no rule, and the
    overall confidence is 0.5. *)
Theorem negotiation_without_targets (italian_schema german_schema : schema) :
  properties german_schema = [] ->
  let r := negotiate_schemas italian_schema german_schema in
  map (fun a => name (entry_source a)) (alignments r)
  = map fst (properties italian_schema) /\
  (forall a, In a (alignments r) -> alignment a = mkDecision "unknown" 0.5 None) /\
  (properties italian_schema <> [] -> overall_confidence r == 0.5).
Proof.
  intros Hg. simpl. split; [apply ServerSpec.negotiate_schemas_sources|].
  pose proof (unknown_decisions italian_schema german_schema Hg) as Hall.
  split; [exact Hall|].
  intros Hne.
  rewrite (ServerSpec.negotiate_schemas_overall italian_schema german_schema).
  apply mean_constant.
  - unfold ServerSpec.confidences, negotiate_schemas, _extract_concepts.
    cbn [alignments]. destruct (properties italian_schema); [congruence|discriminate].
  - intros x Hx. unfold ServerSpec.confidences in Hx. apply in_map_iff in Hx.
    destruct Hx as (a & <- & Ha). rewrite (Hall a Ha). reflexivity.
Qed.

Lemma negotiation_without_targets_witness :
  overall_confidence (negotiate_schemas ServerSpec.demo_italian (mkSchema [] [])) == 0.5.
Proof.
  apply (proj2 (proj2 (negotiation_without_targets ServerSpec.demo_italian
                         (mkSchema [] []) eq_refl))).
  discriminate.
Defined.

(** *** The name of the best match *)

Definition not_colon (c : ascii) : bool := negb (Ascii.eqb c ":").

Lemma str_app_nil_r (s : string) : (s ++ "")%string = s.
Proof.
  induction s as [|c r IH]; [reflexivity|].
  change (String c (r ++ "") = String c r)%string. rewrite IH. reflexivity.
Qed.

Lemma str_app_assoc (a b c : string) :
  ((a ++ b) ++ c)%string = (a ++ (b ++ c))%string.
Proof.
  induction a as [|x r IH]; [reflexivity|].
  change (String x ((r ++ b) ++ c) = String x (r ++ (b ++ c)))%string.
  rewrite IH. reflexivity.
Qed.

Lemma rev_app_append (s acc r : string) :
  (String.rev_app s acc ++ r)%string = String.rev_app s (acc ++ r)%string.
Proof.
  revert acc. induction s as [|c s IH]; intros acc; [reflexivity|].
  change (String.rev_app (String c s) acc) with (String.rev_app s (String c acc)).
  rewrite IH. reflexivity.
Qed.

Lemma split_aux_first sep cur s1 rest :
  ConversionFacts.all_chars (fun c => negb (Ascii.eqb c sep)) s1 = true ->
  Py.split_aux sep cur (s1 ++ String sep rest)
  = (String.rev cur ++ s1)%string :: Py.split_aux sep "" rest.
Proof.
  revert cur. induction s1 as [|c r IH]; intros cur H.
  - change (Py.split_aux sep cur (String sep rest)
            = (String.rev cur ++ "")%string :: Py.split_aux sep "" rest).
    cbn [Py.split_aux]. rewrite Ascii.eqb_refl, str_app_nil_r. reflexivity.
  - change (Py.split_aux sep cur (String c (r ++ String sep rest))
            = (String.rev cur ++ String c r)%string :: Py.split_aux sep "" rest).
    cbn [Py.split_aux ConversionFacts.all_chars] in *.
    apply andb_true_iff in H. destruct H as [Hc Hr].
    apply negb_true_iff in Hc. rewrite Hc. rewrite (IH _ Hr).
    f_equal. unfold String.rev.
    change (String.rev_app (String c cur) "") with (String.rev_app cur (String c "")).
    rewrite !rev_app_append. reflexivity.
Qed.

(** The text of a concept starts with its name and a colon, so the name
    comes back when it holds no colon itself. *)
Lemma text_name (c : concept) (s : schema) (source : string) :
  In c (_extract_concepts s source) ->
  ConversionFacts.all_chars not_colon (name c) = true ->
  hd ""%string (Py.split ":" (text c)) = name c.
Proof.
  intros Hin Hn. unfold _extract_concepts in Hin. apply in_map_iff in Hin.
  destruct Hin as ([field_name field_info] & <- & _). simpl in *.
  unfold Py.split.
  change (field_name ++ ": " ++ ?r)%string with (field_name ++ String ":" (" " ++ r))%string.
  rewrite (split_aux_first ":" "" field_name _ Hn). reflexivity.
Qed.

(** When the German schema has a property and no German property name
    holds a colon, the best match of every alignment is the name of a
    German property. *)
Theorem best_match_is_a_target (italian_schema german_schema : schema) :
  properties german_schema <> [] ->
  (forall n, In n (map fst (properties german_schema)) ->
     ConversionFacts.all_chars not_colon n = true) ->
  forall a,
    In a (alignments (negotiate_schemas italian_schema german_schema)) ->
    In (best_match (alignment a)) (map fst (properties german_schema)).
Proof.
  intros Hne Hnames a Ha.
  unfold negotiate_schemas in Ha. cbn [alignments] in Ha.
  apply in_map_iff in Ha. destruct Ha as (c & <- & _). cbn [alignment].
  set (german := _extract_concepts german_schema "german").
  set (found := find_similar_concepts (text c) (map text german)).
  assert (Hperm : Permutation found
                    (map (fun t => (t, similarity_of (text c) t)) (map text german)))
    by apply sort_desc_perm.
  assert (Hlen : length found = length (properties german_schema)).
  { rewrite (Permutation_length Hperm). unfold german, _extract_concepts.
    rewrite !length_map. reflexivity. }
  destruct found as [|[best_target similarity] rest] eqn:Ef.
  { destruct (properties german_schema); [congruence|discriminate Hlen]. }
  cbn [take generate_alignment_decision best_match].
  assert (Hin : In (best_target, similarity)
                  (map (fun t => (t, similarity_of (text c) t)) (map text german))).
  { apply (Permutation_in _ Hperm). left. reflexivity. }
  apply in_map_iff in Hin. destruct Hin as (t & Ht & Hin). inversion Ht; subst t.
  apply in_map_iff in Hin. destruct Hin as (g & <- & Hg).
  assert (Hname : In (name g) (map fst (properties german_schema))).
  { unfold german, _extract_concepts in Hg. apply in_map_iff in Hg.
    destruct Hg as ([field_name field_info] & <- & Hp). simpl.
    apply in_map_iff. exists (field_name, field_info). split; [reflexivity|exact Hp]. }
  rewrite (text_name g german_schema "german" Hg (Hnames _ Hname)).
  exact Hname.
Qed.

Lemma best_match_is_a_target_witness :
  Forall (fun a => In (best_match (alignment a))
                     (map fst (properties ServerSpec.demo_german)))
    (alignments (negotiate_schemas ServerSpec.demo_italian ServerSpec.demo_german)).
Proof.
  apply Forall_forall. intros a Ha. apply list_elem_of_In in Ha.
  apply (best_match_is_a_target ServerSpec.demo_italian ServerSpec.demo_german).
  - discriminate.
  - intros n [<-|[<-|[]]]; reflexivity.
  - exact Ha.
Defined.

(** A German property name with a colon is cut at the colon. *)
Example best_match_cut_at_colon :
  map (fun a => best_match (alignment a))
    (alignments (negotiate_schemas
                   (mkSchema [("nome", mkFieldInfo None None)]%string [])
                   (mkSchema [("xs:name", mkFieldInfo None None)]%string [])))
  = ["xs"%string].
Proof. vm_compute. reflexivity. Qed.

(** *** The summary *)

(** The rules [_generate_transformation_rules] lists: one for each
    alignment whose decision carries a rule. *)
Definition _generate_transformation_rules (alignments : list alignment_entry)
  : list (string * string * string * Q) :=
  flat_map (fun a =>
              match transformation_rule (alignment a) with
              | Some type =>
                  [(type, name (entry_source a), best_match (alignment a),
                    confidence (alignment a))]
              | None => []
              end) alignments.

(** The [summary] of the result of a session. *)
Record summary : Type := mkSummary {
  total_concepts : nat;
  successful_alignments : nat;
  high_confidence_alignments : nat;
  transformation_rules_count : nat
}.

Definition summarize (italian_schema german_schema : schema) : summary :=
  let italian_concepts := _extract_concepts italian_schema "italian" in
  let r := negotiate_schemas italian_schema german_schema in
  mkSummary
    (length italian_concepts)
    (length (List.filter (fun a => Py.Qlt_bool 0.7 (confidence (alignment a)))
               (alignments r)))
    (length (List.filter (fun a => Py.Qlt_bool 0.8 (confidence (alignment a)))
               (alignments r)))
    (length (_generate_transformation_rules (alignments r))).

Lemma filter_length_le {A} (f g : A -> bool) (l : list A) :
  (forall x, f x = true -> g x = true) ->
  (length (List.filter f l) <= length (List.filter g l))%nat.
Proof.
  intros H. induction l as [|x l IH]; simpl; [lia|].
  destruct (f x) eqn:Ef.
  - rewrite (H x Ef). simpl. lia.
  - destruct (g x); simpl; lia.
Qed.

Lemma filter_length_bound {A} (f : A -> bool) (l : list A) :
  (length (List.filter f l) <= length l)%nat.
Proof.
  induction l as [|x l IH]; simpl; [lia|]. destruct (f x); simpl; lia.
Qed.

Lemma rules_length_le (l : list alignment_entry) :
  (length (_generate_transformation_rules l) <= length l)%nat.
Proof.
  induction l as [|a l IH]; simpl; [lia|].
  rewrite length_app. destruct (transformation_rule (alignment a)); simpl; lia.
Qed.

Lemma unknown_counts (l : list alignment_entry) :
  (forall a, In a l -> alignment a = mkDecision "unknown" 0.5 None) ->
  length (List.filter (fun a => Py.Qlt_bool 0.7 (confidence (alignment a))) l) = 0%nat /\
  length (_generate_transformation_rules l) = 0%nat.
Proof.
  induction l as [|a l IH]; intros Hall; [split; reflexivity|].
  destruct IH as [IH1 IH2]; [intros x Hx; apply Hall; right; exact Hx|].
  simpl. rewrite (Hall a (or_introl eq_refl)). simpl.
  split; [exact IH1|exact IH2].
Qed.

(** The counts of the summary are ordered: the alignments of high
    confidence are among the successful ones, which are among the concepts,
    and there is at most one rule for each concept. *)
Theorem summary_counts (italian_schema german_schema : schema) :
  let s := summarize italian_schema german_schema in
  total_concepts s = length (properties italian_schema) /\
  (high_confidence_alignments s <= successful_alignments s)%nat /\
  (successful_alignments s <= total_concepts s)%nat /\
  (transformation_rules_count s <= total_concepts s)%nat /\
  (properties german_schema = [] ->
   successful_alignments s = 0%nat /\ transformation_rules_count s = 0%nat).
Proof.
  simpl. unfold summarize.
  cbn [total_concepts high_confidence_alignments successful_alignments
       transformation_rules_count].
  assert (Hlen : length (alignments (negotiate_schemas italian_schema german_schema))
                 = length (_extract_concepts italian_schema "italian")).
  { unfold negotiate_schemas. cbn [alignments]. apply length_map. }
  split; [unfold _extract_concepts; apply length_map|].
  split.
  { apply filter_length_le. intros a Ha.
    apply PyFacts.Qlt_bool_iff in Ha. apply PyFacts.Qlt_bool_iff. lra. }
  split.
  { rewrite <- Hlen. apply filter_length_bound. }
  split.
  { rewrite <- Hlen. apply rules_length_le. }
  intros Hg.
  exact (unknown_counts _ (unknown_decisions italian_schema german_schema Hg)).
Qed.

Lemma summary_counts_witness :
  successful_alignments (summarize ServerSpec.demo_italian (mkSchema [] [])) = 0%nat /\
  transformation_rules_count (summarize ServerSpec.demo_italian (mkSchema [] [])) = 0%nat.
Proof.
  apply (proj2 (proj2 (proj2 (proj2 (summary_counts ServerSpec.demo_italian
                                       (mkSchema [] [])))))).
  reflexivity.
Defined.

End ServerFacts.

(** ** enhanced_server.py: the entries of the analysis *)

Module AnalysisFacts.

Import EnhancedServer.
Import EnhancedServerSpec.

(** *** Rounding keeps bounds *)

Lemma round_half_even_ge (k : Z) (q : Q) :
  inject_Z k <= q -> (k <= Py.round_half_even q)%Z.
Proof.
  intros H. unfold Py.round_half_even.
  assert (Hf : (k <= Qfloor q)%Z).
  { rewrite <- (Qfloor_Z k). apply Qfloor_resp_le. exact H. }
  destruct (Qcompare _ _); [destruct (Z.even _)| |]; lia.
Qed.

Lemma round_half_even_le (k : Z) (q : Q) :
  q <= inject_Z k -> (Py.round_half_even q <= k)%Z.
Proof.
  intros H. unfold Py.round_half_even.
  assert (Hf : (Qfloor q <= k)%Z).
  { rewrite <- (Qfloor_Z k). apply Qfloor_resp_le. exact H. }
  destruct (Z.eq_dec (Qfloor q) k) as [Heq|Hne].
  - assert (Hq : q - inject_Z (Qfloor q) < 1 # 2).
    { pose proof (Qfloor_le q) as Hl. rewrite Heq in *. lra. }
    assert (Hc : Qcompare (q - inject_Z (Qfloor q)) (1 # 2) = Lt)
      by (apply Qlt_alt; exact Hq).
    rewrite Hc. lia.
  - destruct (Qcompare _ _); [destruct (Z.even _)| |]; lia.
Qed.

Lemma thousandths (a : Z) : inject_Z a == (a # 1000) * 1000.
Proof. unfold Qeq. simpl. lia. Qed.

(** [round(q, 3)] stays within bounds that are thousandths. *)
Lemma round3_bounds (a b : Z) (q : Q) :
  a # 1000 <= q -> q <= b # 1000 ->
  a # 1000 <= Py.round3 q /\ Py.round3 q <= b # 1000.
Proof.
  intros Ha Hb. unfold Py.round3.
  assert (Ha' : (a <= Py.round_half_even (q * 1000))%Z).
  { apply round_half_even_ge. rewrite thousandths. lra. }
  assert (Hb' : (Py.round_half_even (q * 1000) <= b)%Z).
  { apply round_half_even_le. rewrite (thousandths b). lra. }
  unfold Qle. simpl. split; lia.
Qed.

Lemma round3_le (b : Z) (q : Q) : q <= b # 1000 -> Py.round3 q <= b # 1000.
Proof.
  intros Hb. unfold Py.round3.
  assert (Hb' : (Py.round_half_even (q * 1000) <= b)%Z).
  { apply round_half_even_le. rewrite (thousandths b). lra. }
  unfold Qle. simpl. lia.
Qed.

Lemma round3_range (q lo hi : Q) (a b : Z) :
  lo == a # 1000 -> hi == b # 1000 ->
  lo <= q -> q <= hi -> lo <= Py.round3 q /\ Py.round3 q <= hi.
Proof.
  intros Hlo Hhi H1 H2.
  destruct (round3_bounds a b q) as [R1 R2]; [lra|lra|]. split; lra.
Qed.

(** *** Where an entry comes from *)

Section Entries.

Variable rnd : rng.
Variables source_schema target_schema : schema.

Abbreviation entries := (field_entries rnd source_schema target_schema).
Abbreviation cands_of := (field_candidates rnd source_schema target_schema).

(** Every entry of the result is the entry of one of the source fields. *)
Lemma field_entries_in fields n e :
  In e (fst (entries fields n)) ->
  exists f n', In f fields /\ In e (field_entry f (cands_of f n')).
Proof.
  revert n. induction fields as [|f r IH]; intros n; simpl; [intros []|].
  destruct (field_entries rnd source_schema target_schema r
              (field_draws rnd source_schema target_schema f n)) as [rest n'] eqn:Er.
  simpl. rewrite in_app_iff. intros [H|H].
  - exists f, n. split; [left; reflexivity|exact H].
  - specialize (IH (field_draws rnd source_schema target_schema f n)).
    rewrite Er in IH. destruct (IH H) as (f' & n'' & Hin & He).
    exists f', n''. split; [right; exact Hin|exact He].
Qed.

(** The source fields of the entries are source fields of the schema, in
    its order, each at most as often as the schema has it. *)
Lemma field_entries_sublist fields n :
  sublist (map EnhancedServer.source_field (fst (entries fields n))) fields.
Proof.
  revert n. induction fields as [|f r IH]; intros n; simpl; [constructor|].
  specialize (IH (field_draws rnd source_schema target_schema f n)).
  destruct (field_entries rnd source_schema target_schema r
              (field_draws rnd source_schema target_schema f n)) as [rest n'].
  simpl in *. rewrite map_app, field_entry_source.
  destruct (accept _); simpl.
  - apply sublist_skip. exact IH.
  - apply sublist_cons. exact IH.
Qed.

(** The entry of a source field, with a valid random source: its best
    candidate. *)
Lemma field_entry_valid f n e :
  valid_rng rnd ->
  In e (field_entry f (cands_of f n)) ->
  EnhancedServer.source_field e = f /\
  In (target_field e) (keys target_schema) /\
  0.4 <= confidence e /\ confidence e <= 0.95.
Proof.
  intros Hv He.
  destruct (matchable source_schema target_schema f) eqn:Em.
  - destruct (matchable_keeps_candidate rnd source_schema target_schema f None n Hv Em)
      as (t & c & x & Hb & Ht & Hlo & Hhi).
    unfold field_entry in He. fold (cands_of f n) in He. rewrite Hb in He.
    destruct (accept _); [|destruct He].
    destruct He as [<-|[]]. simpl.
    split; [reflexivity|]. split; [exact Ht|].
    apply (round3_range c 0.4 0.95 400 950); try reflexivity; assumption.
  - rewrite (unmatchable_no_entry rnd source_schema target_schema f n Em) in He.
    destruct He.
Qed.

(** The candidates with their explanations. *)
Lemma score_targets_explained source_field targets e n :
  forall x,
    In x (fst (score_targets rnd source_schema target_schema source_field targets e n)) ->
    exists k previous,
      x = (target x,
           basis_confidence rnd k
             (pair_basis source_schema target_schema source_field (target x)),
           explain source_schema source_field (target x)
             (pair_basis source_schema target_schema source_field (target x)) previous).
Proof.
  revert e n. induction targets as [|t targets IH]; intros e n x; simpl; [intros []|].
  rewrite score_pair_basis.
  specialize (IH (explain source_schema source_field t
                    (pair_basis source_schema target_schema source_field t) e)
                 (basis_draws (pair_basis source_schema target_schema source_field t) + n)%nat).
  destruct (score_targets rnd source_schema target_schema source_field targets _ _)
    as [cs n''].
  simpl in *. intros [<-|Hx]; [exists n, e; reflexivity|apply IH; exact Hx].
Qed.

(** The confidences of the branches that are no match of names or of
    listed synonyms stay away from 0.95. *)
Lemma basis_confidence_low rnd' k b :
  valid_rng rnd' -> b <> exact_name -> b <> semantic_synonym ->
  basis_confidence rnd' k b <= 0.8.
Proof.
  intros Hv Hb Hs. destruct b; simpl; try congruence.
  - pose proof (uniform_range rnd' k 0.1 0.2 Hv ltac:(lra)). lra.
  - pose proof (uniform_range rnd' k 0.1 0.2 Hv ltac:(lra)). lra.
  - lra.
Qed.

Lemma pair_basis_exact s t :
  pair_basis source_schema target_schema s t = exact_name ->
  Py.lower s = Py.lower t.
Proof.
  unfold pair_basis.
  destruct (String.eqb (Py.lower s) (Py.lower t)) eqn:E.
  - intros _. apply String.eqb_eq. exact E.
  - destruct (mapping_of semantic_mappings s).
    + destruct (bool_decide _); discriminate.
    + destruct (existsb _ _); [discriminate|].
      destruct (get source_schema s); [|discriminate].
      destruct (bool_decide _); discriminate.
Qed.

(** A source field with a target field of the same name up to case has
    an entry, at a confidence equal to 0.95, the largest a pair can get;
    its target field matches by name or is a listed synonym that reached
    0.95 before. *)
Lemma field_entry_exact f n t0 :
  valid_rng rnd ->
  (forall t, In t (keys target_schema) -> t <> ""%string) ->
  In t0 (keys target_schema) ->
  Py.lower f = Py.lower t0 ->
  exists t c e,
    field_entry f (cands_of f n) = [mkSimilarity f t (Py.round3 c) e] /\
    c == 0.95 /\
    In t (keys target_schema) /\
    ((pair_basis source_schema target_schema f t = exact_name /\
      e = ("Exact field name match between '" ++ f ++ "' and '" ++ t ++ "'")%string) \/
     pair_basis source_schema target_schema f t = semantic_synonym).
Proof.
  intros Hv Hnamed Ht0 Hlow.
  destruct (score_targets_candidates rnd source_schema target_schema f
              (keys target_schema) "" n) as [Hmap _].
  pose proof (score_targets_explained f (keys target_schema) "" n) as Hexp.
  fold (cands_of f n) in Hmap, Hexp.
  assert (H0 : exists x0, In x0 (cands_of f n) /\ conf x0 = 0.95).
  { rewrite <- Hmap in Ht0. apply in_map_iff in Ht0.
    destruct Ht0 as (x0 & Hx0 & Hin0). exists x0. split; [exact Hin0|].
    destruct (Hexp x0 Hin0) as (k & prev & Hx). rewrite Hx. unfold conf. simpl.
    rewrite Hx0. unfold pair_basis. rewrite Hlow, String.eqb_refl. reflexivity. }
  destruct H0 as (x0 & Hin0 & Hc0).
  unfold field_entry.
  destruct (choose_best_spec (cands_of f n) (mkBest None 0.0 None))
    as [[_ Hle] | (pre & t & c & e & post & Hc & Hb & Hlt & Hpre & Hpost)].
  - exfalso. specialize (Hle x0 Hin0). rewrite Hc0 in Hle. simpl in Hle. lra.
  - rewrite Hb.
    assert (Hin : In (t, c, e) (cands_of f n)) by (rewrite Hc; apply in_elt).
    assert (Hge : 0.95 <= c).
    { rewrite <- Hc0. rewrite Hc in Hin0. apply in_app_or in Hin0.
      destruct Hin0 as [Hy|[<-|Hy]].
      - apply Qlt_le_weak, Hpre, Hy.
      - apply Qle_refl.
      - apply Hpost, Hy. }
    destruct (Hexp _ Hin) as (k & prev & Hx). unfold target in Hx. simpl in Hx.
    assert (Hcx : c = basis_confidence rnd k
                        (pair_basis source_schema target_schema f t)) by congruence.
    assert (Hex : e = explain source_schema f t
                        (pair_basis source_schema target_schema f t) prev) by congruence.
    clear Hx.
    assert (Ht : In t (keys target_schema)).
    { rewrite <- Hmap. apply (in_map target) in Hin. exact Hin. }
    assert (Hle : c <= 0.95).
    { rewrite Hcx.
      pose proof (basis_confidence_range rnd k
                    (pair_basis source_schema target_schema f t) Hv) as R.
      destruct (pair_basis source_schema target_schema f t); try apply R.
      rewrite R. lra. }
    exists t, c, e. split; [|split; [|split; [exact Ht|]]].
    + unfold accept. cbn [best_match best_confidence best_explanation].
      rewrite (truthy_str_named t (Hnamed t Ht)). cbn [andb].
      assert (E : Py.Qlt_bool 0.3 c = true) by (apply PyFacts.Qlt_bool_iff; lra).
      rewrite E. reflexivity.
    + apply Qle_antisym; assumption.
    + destruct (pair_basis source_schema target_schema f t) eqn:Eb.
      * left. split; [reflexivity|exact Hex].
      * right. reflexivity.
      * exfalso.
        pose proof (basis_confidence_low rnd k partial_token Hv
                      ltac:(discriminate) ltac:(discriminate)) as Hlow'.
        rewrite <- Hcx in Hlow'. lra.
      * exfalso.
        pose proof (basis_confidence_low rnd k type_only Hv
                      ltac:(discriminate) ltac:(discriminate)) as Hlow'.
        rewrite <- Hcx in Hlow'. lra.
      * exfalso.
        pose proof (basis_confidence_low rnd k no_basis Hv
                      ltac:(discriminate) ltac:(discriminate)) as Hlow'.
        rewrite <- Hcx in Hlow'. lra.
Qed.

End Entries.

(** With a valid random source, every entry of the analysis maps a
    source field of the source schema to a target field of the target
    schema, with a confidence between 0.4 and 0.95. *)
Theorem analysis_entries_valid rnd n source_schema target_schema res n' :
  valid_rng rnd ->
  analyze_semantic_similarity rnd n source_schema target_schema = Py.Ok (res, n') ->
  forall e, In e (cr_similarities res) ->
    In (EnhancedServer.source_field e) (keys source_schema) /\
    In (target_field e) (keys target_schema) /\
    0.4 <= confidence e /\ confidence e <= 0.95.
Proof.
  intros Hv H e He. rewrite analyze_returns in H. inversion H; subst. simpl in He.
  apply field_entries_in in He. destruct He as (f & k & Hf & He).
  destruct (field_entry_valid rnd source_schema target_schema f k e Hv He)
    as (Hs & Ht & Hc).
  rewrite Hs. split; [exact Hf|]. split; [exact Ht|exact Hc].
Qed.

Lemma analysis_entries_valid_witness :
  Forall (fun e =>
            In (EnhancedServer.source_field e) (keys two_fields) /\
            In (target_field e) (keys one_target) /\
            0.4 <= confidence e /\ confidence e <= 0.95)
    [mkSimilarity "nome" "firstName" (Qmake 900 1000)
       "Semantic match: 'nome' commonly maps to 'firstName' in cross-border contexts"].
Proof.
  apply Forall_forall. intros e He. apply list_elem_of_In in He.
  exact (analysis_entries_valid draws_zero 0 two_fields one_target _ 1%nat
           draws_zero_valid analyze_two_fields e He).
Defined.

(** Whatever is drawn, the entries follow the order of the source
    schema and a source field has at most one entry. *)
Theorem analysis_one_entry_per_field rnd n source_schema target_schema res n' :
  analyze_semantic_similarity rnd n source_schema target_schema = Py.Ok (res, n') ->
  sublist (sources res) (keys source_schema) /\
  (NoDup (keys source_schema) -> NoDup (sources res)).
Proof.
  intros H. rewrite analyze_returns in H. inversion H; subst.
  unfold sources. simpl.
  pose proof (field_entries_sublist rnd source_schema target_schema
                (keys source_schema) n) as Hs.
  split; [exact Hs|]. intros Hnd. eapply sublist_NoDup; eassumption.
Qed.

Lemma analysis_one_entry_per_field_witness :
  sublist ["nome"%string] (keys two_fields) /\
  (NoDup (keys two_fields) -> NoDup ["nome"%string]).
Proof.
  exact (analysis_one_entry_per_field draws_zero 0 two_fields one_target _ 1%nat
           analyze_two_fields).
Defined.

(** A source field with a target field of the same name up to case is
    never left out: with a valid random source and no target field of the
    empty name it gets an entry, and its entry has the confidence 0.95,
    the largest there is. When no target field is a listed synonym of the
    source field, which could reach 0.95 as well and come first, the entry
    has a target field of that name and the explanation of the exact
    match. *)
Theorem exact_name_wins rnd n source_schema target_schema res n' s t0 :
  valid_rng rnd ->
  (forall t, In t (keys target_schema) -> t <> ""%string) ->
  analyze_semantic_similarity rnd n source_schema target_schema = Py.Ok (res, n') ->
  In s (keys source_schema) ->
  In t0 (keys target_schema) ->
  Py.lower s = Py.lower t0 ->
  In s (sources res) /\
  forall e, In e (cr_similarities res) -> EnhancedServer.source_field e = s ->
    confidence e = Py.round3 0.95 /\
    ((forall t, In t (keys target_schema) ->
        pair_basis source_schema target_schema s t <> semantic_synonym) ->
     Py.lower (target_field e) = Py.lower s /\
     explanation e
     = ("Exact field name match between '" ++ s ++ "' and '" ++ target_field e ++ "'")%string).
Proof.
  intros Hv Hnamed H Hs Ht0 Hlow.
  rewrite analyze_returns in H. inversion H; subst. unfold sources. simpl. split.
  - rewrite (field_entries_sources rnd source_schema target_schema _ n Hv Hnamed).
    apply filter_In. split; [exact Hs|].
    unfold matchable. apply existsb_exists.
    exists t0. split; [exact Ht0|].
    unfold has_basis, pair_basis. rewrite Hlow, String.eqb_refl. reflexivity.
  - intros e He Hse.
    apply field_entries_in in He. destruct He as (f & k & Hf & He).
    destruct (field_entry_valid rnd source_schema target_schema f k e Hv He) as (Hsf & _).
    rewrite Hsf in Hse. subst s.
    destruct (field_entry_exact rnd source_schema target_schema f k t0
                Hv Hnamed Ht0 Hlow) as (t & c & ex & Hentry & Hc & Ht & Hbasis).
    rewrite Hentry in He. destruct He as [<-|[]]. simpl. split.
    + apply NegotiationSpec.round3_comp. exact Hc.
    + intros Hsyn. destruct Hbasis as [[Eb Hex]|Eb].
      * split; [|exact Hex].
        symmetry. exact (pair_basis_exact source_schema target_schema f t Eb).
      * exfalso. exact (Hsyn t Ht Eb).
Qed.

Definition capital_source : schema := [("Nome", "string")]%string.
Definition mixed_targets : schema := [("firstName", "string"); ("nome", "string")]%string.

Example analyze_capital_source :
  analyze_semantic_similarity draws_zero 0 capital_source mixed_targets
  = Py.Ok (mkClaudeResults
             [mkSimilarity "Nome" "nome" (Qmake 950 1000)
                "Exact field name match between 'Nome' and 'nome'"]
             "Claude Semantic Analysis" 2.1, 1%nat).
Proof. vm_compute. reflexivity. Qed.

Lemma exact_name_wins_witness :
  In "Nome"%string
    (sources (mkClaudeResults
                [mkSimilarity "Nome" "nome" (Qmake 950 1000)
                   "Exact field name match between 'Nome' and 'nome'"]
                "Claude Semantic Analysis" 2.1)).
Proof.
  refine (proj1 (exact_name_wins draws_zero 0 capital_source mixed_targets _ 1%nat
                   "Nome" "nome" draws_zero_valid _ analyze_capital_source _ _ _)).
  - intros t [<-|[<-|[]]]; discriminate.
  - left. reflexivity.
  - right. left. reflexivity.
  - reflexivity.
Defined.

(** With the source field nome and the targets givenName and Nome the name
    matches at 0.95 and the synonym comes first: the entry is at 0.95 for
    every draw, and names the synonym only if its score reaches 0.95,
    which no draw below 1 gives. *)
Example synonym_before_exact_name :
  analyze_semantic_similarity draws_half 0 one_source
    [("givenName", "string"); ("Nome", "string")]%string
  = Py.Ok (mkClaudeResults
             [mkSimilarity "nome" "Nome" (Qmake 950 1000)
                "Exact field name match between 'nome' and 'Nome'"]
             "Claude Semantic Analysis" 2.1, 1%nat).
Proof. vm_compute. reflexivity. Qed.

End AnalysisFacts.

(** ** enhanced_server.py: the alignment decisions *)

Module DecisionFacts.

Import EnhancedServer.
Import EnhancedServerSpec.

(** The fields a decision takes over from its similarity. *)
Definition taken_over (a : alignment) : string * string * string :=
  (al_source_field a, al_target_field a, al_explanation a).

Definition given (s : similarity) : string * string * string :=
  (EnhancedServer.source_field s, target_field s, explanation s).

Lemma decide_fold_fields rnd (sims : list similarity) (st : decisions) :
  let r := fold_left (decide_step rnd) sims st in
  map taken_over (d_alignments r) = map taken_over (d_alignments st) ++ map given sims /\
  d_draws r = (d_draws st + length sims)%nat.
Proof.
  revert st. induction sims as [|s sims IH]; intros st; simpl.
  - rewrite app_nil_r. split; [reflexivity|lia].
  - unfold decide_step at 2 4.
    destruct (refine rnd (d_draws st) (confidence s)) as [refined m].
    specialize (IH (mkDecisions
                      (d_alignments st ++
                       [mkAlignment (EnhancedServer.source_field s) (target_field s)
                          (Py.round3 refined) m (explanation s)])
                      (total_confidence st + refined) (S (d_draws st)))).
    simpl in IH. destruct IH as [Hf Hd]. rewrite Hf, Hd.
    rewrite map_app, <- app_assoc. simpl. split; [reflexivity|lia].
Qed.

Lemma min_le_r (a b : Q) : Py.min a b <= b.
Proof.
  unfold Py.min. destruct (Py.Qlt_bool b a) eqn:E.
  - apply Qle_refl.
  - apply PyFacts.Qlt_bool_false_iff in E. exact E.
Qed.

Lemma min_ge (a b lo : Q) : lo <= a -> lo <= b -> lo <= Py.min a b.
Proof. intros Ha Hb. unfold Py.min. destruct (Py.Qlt_bool b a); assumption. Qed.

(** A refined confidence is capped at 0.99. *)
Lemma refine_cap rnd k c : fst (refine rnd k c) <= 0.99.
Proof.
  unfold refine.
  destruct (Py.Qlt_bool 0.8 c); [|destruct (Py.Qlt_bool 0.6 c)]; simpl; apply min_le_r.
Qed.

(** With a valid random source, a confidence from 0.4 on is refined to
    0.3 at least. *)
Lemma refine_floor rnd k c :
  valid_rng rnd -> 0.4 <= c -> 0.3 <= fst (refine rnd k c).
Proof.
  intros Hv Hc. unfold refine.
  destruct (Py.Qlt_bool 0.8 c) eqn:E8; [|destruct (Py.Qlt_bool 0.6 c) eqn:E6];
    simpl; apply min_ge; try lra.
  - apply PyFacts.Qlt_bool_iff in E8.
    pose proof (uniform_range rnd k 0.02 0.08 Hv ltac:(lra)). lra.
  - apply PyFacts.Qlt_bool_iff in E6.
    pose proof (uniform_range rnd k (-0.05) 0.05 Hv ltac:(lra)). lra.
  - pose proof (uniform_range rnd k (-0.1) 0.02 Hv ltac:(lra)). lra.
Qed.

Lemma refined_in rnd n sims x :
  In x (refined_confidences rnd n sims) ->
  exists s k, In s sims /\ x = fst (refine rnd k (confidence s)).
Proof.
  revert n. induction sims as [|s sims IH]; intros n; simpl; [intros []|].
  intros [<-|H].
  - exists s, n. split; [left; reflexivity|reflexivity].
  - destruct (IH _ H) as (s' & k & Hin & Hx).
    exists s', k. split; [right; exact Hin|exact Hx].
Qed.

(** A mean is at most a bound of the values that is not negative. *)
Lemma mean_le (l : list Q) (hi : Q) :
  0 <= hi -> (forall x, In x l -> x <= hi) -> Py.mean l <= hi.
Proof.
  intros H0 H. destruct l as [|x l]; [exact H0|].
  assert (Hs : forall l', (forall y, In y l' -> y <= hi) ->
                 Py.Qsum l' <= inject_Z (Z.of_nat (length l')) * hi).
  { induction l' as [|y l' IH]; intros Hl.
    - unfold Py.Qsum. cbn [length fold_right].
      change (inject_Z (Z.of_nat 0)) with 0. lra.
    - change (Py.Qsum (y :: l')) with (y + Py.Qsum l').
      cbn [length]. rewrite Nat2Z.inj_succ, <- Z.add_1_r, inject_Z_plus.
      change (inject_Z 1) with 1.
      pose proof (Hl y (or_introl eq_refl)).
      pose proof (IH (fun z Hz => Hl z (or_intror Hz))). lra. }
  unfold Py.mean.
  apply Qle_shift_div_r.
  - rewrite <- (Zlt_Qlt 0). cbn [length]. lia.
  - rewrite Qmult_comm. apply Hs. exact H.
Qed.

Lemma round3_cap (q : Q) : q <= 0.99 -> Py.round3 q <= 0.99.
Proof.
  intros H.
  assert (Hr : Py.round3 q <= 990 # 1000) by (apply (AnalysisFacts.round3_le 990); lra).
  lra.
Qed.

(** [make_alignment_decisions] answers every similarity with one
    alignment of the same source field, target field and explanation, in
    order, reads one draw for each, and reports no confidence above
    0.99, the overall confidence included. *)
Theorem decisions_follow_similarities rnd n (claude : claude_results) :
  let r := make_alignment_decisions rnd n claude in
  map taken_over (mr_alignments r) = map given (cr_similarities claude) /\
  (forall a, In a (mr_alignments r) -> al_confidence a <= 0.99) /\
  mr_overall_confidence r <= 0.99.
Proof.
  cbv zeta.
  destruct (NegotiationSpec.make_alignment_decisions_overall rnd n claude)
    as [Hconf Hoverall].
  cbv zeta in Hconf, Hoverall.
  assert (Hcap : forall x, In x (refined_confidences rnd n (cr_similarities claude)) ->
                   x <= 0.99).
  { intros x Hx. apply refined_in in Hx. destruct Hx as (s & k & _ & ->).
    apply refine_cap. }
  split; [|split].
  - unfold make_alignment_decisions. cbn [mr_alignments].
    destruct (decide_fold_fields rnd (cr_similarities claude) (mkDecisions [] 0.0 n))
      as [Hf _].
    exact Hf.
  - intros a Ha.
    assert (Hin : In (al_confidence a)
                    (map Py.round3 (refined_confidences rnd n (cr_similarities claude)))).
    { rewrite <- Hconf. apply in_map. exact Ha. }
    apply in_map_iff in Hin. destruct Hin as (x & <- & Hx).
    apply round3_cap. apply Hcap. exact Hx.
  - rewrite Hoverall. apply round3_cap. apply mean_le; [lra|exact Hcap].
Qed.

(** The analysis followed by the decisions, as [negotiate] chains them:
    with a valid random source and no target field of the empty name,
    the alignments are those of the source fields that have a candidate,
    in the order of the source schema, each to a target field of the
    target schema with a confidence between 0.3 and 0.99. *)
Theorem analysis_then_decisions rnd n source_schema target_schema claude n' :
  valid_rng rnd ->
  (forall t, In t (keys target_schema) -> t <> ""%string) ->
  analyze_semantic_similarity rnd n source_schema target_schema = Py.Ok (claude, n') ->
  let r := make_alignment_decisions rnd n' claude in
  map al_source_field (mr_alignments r)
  = List.filter (matchable source_schema target_schema) (keys source_schema) /\
  forall a, In a (mr_alignments r) ->
    In (al_target_field a) (keys target_schema) /\
    0.3 <= al_confidence a /\ al_confidence a <= 0.99.
Proof.
  intros Hv Hnamed H. cbv zeta.
  rewrite analyze_returns in H. inversion H; subst. clear H.
  set (sims := fst (field_entries rnd source_schema target_schema (keys source_schema) n)).
  set (claude := mkClaudeResults sims "Claude Semantic Analysis" 2.1).
  set (m := snd (field_entries rnd source_schema target_schema (keys source_schema) n)).
  assert (Hsims : forall s, In s sims ->
            In (target_field s) (keys target_schema) /\ 0.4 <= confidence s).
  { intros s Hs. apply AnalysisFacts.field_entries_in in Hs.
    destruct Hs as (f & k & _ & He).
    destruct (AnalysisFacts.field_entry_valid rnd source_schema target_schema f k s Hv He)
      as (_ & Ht & Hlo & _).
    split; assumption. }
  destruct (NegotiationSpec.make_alignment_decisions_overall rnd m claude) as [Hconf _].
  cbv zeta in Hconf.
  assert (Hf : map taken_over (mr_alignments (make_alignment_decisions rnd m claude))
               = map given sims).
  { unfold make_alignment_decisions. cbn [mr_alignments].
    destruct (decide_fold_fields rnd (cr_similarities claude) (mkDecisions [] 0.0 m))
      as [Hf _].
    exact Hf. }
  split.
  - transitivity (map (fun x : string * string * string => fst (fst x))
                    (map taken_over (mr_alignments (make_alignment_decisions rnd m claude)))).
    { rewrite map_map. reflexivity. }
    rewrite Hf, map_map.
    apply (field_entries_sources rnd source_schema target_schema _ n Hv Hnamed).
  - intros a Ha. split.
    + assert (Hin : In (taken_over a) (map given sims))
        by (rewrite <- Hf; apply in_map; exact Ha).
      apply in_map_iff in Hin. destruct Hin as (s & Hg & Hs).
      assert (Ht : target_field s = al_target_field a)
        by (unfold given, taken_over in Hg; congruence).
      rewrite <- Ht. apply Hsims. exact Hs.
    + assert (Hin : In (al_confidence a)
                      (map Py.round3 (refined_confidences rnd m sims))).
      { change sims with (cr_similarities claude). rewrite <- Hconf.
        apply in_map. exact Ha. }
      apply in_map_iff in Hin. destruct Hin as (x & <- & Hx).
      apply refined_in in Hx. destruct Hx as (s & k & Hs & ->).
      apply (AnalysisFacts.round3_range _ 0.3 0.99 300 990); try reflexivity.
      * apply refine_floor; [exact Hv|]. apply Hsims. exact Hs.
      * apply refine_cap.
Qed.

Lemma analysis_then_decisions_witness :
  map al_source_field
    (mr_alignments
       (make_alignment_decisions draws_zero 1
          (mkClaudeResults
             [mkSimilarity "nome" "firstName" (Qmake 900 1000)
                "Semantic match: 'nome' commonly maps to 'firstName' in cross-border contexts"]
             "Claude Semantic Analysis" 2.1)))
  = List.filter (matchable two_fields one_target) (keys two_fields).
Proof.
  refine (proj1 (analysis_then_decisions draws_zero 0 two_fields one_target _ 1%nat
                   draws_zero_valid _ analyze_two_fields)).
  intros t [<-|[]]. discriminate.
Defined.

End DecisionFacts.

(** ** enhanced_demo.py: the mock analysis and its refinement *)

Module DemoFacts.

Import EnhancedDemo.

(** The source fields the table maps to a field of the target schema. *)
Definition mapped (target_schema : EnhancedServer.schema) (source_field : string) : bool :=
  match EnhancedServer.get mappings source_field with
  | Some target_field => bool_decide (target_field ∈ EnhancedServer.keys target_schema)
  | None => false
  end.

(** [round(q, 1)]. *)
Definition round1 (q : Q) : Q := Qmake (Py.round_half_even (q * 10)) 10.

(** One turn of the loop [for alignment in alignments] of [negotiate]:
    the confidence of the alignment is replaced, with one draw. *)
Definition refine_step (rnd : EnhancedServer.rng) (st : list alignment * nat)
    (a : alignment) : list alignment * nat :=
  let '(refined, n) := st in
  (refined ++
   [mkAlignment (source_field a) (target_field a)
      (Py.min (confidence a + EnhancedServer.uniform rnd n (-0.05) 0.1) 0.99)
      (method a) (explanation a)],
   S n).

(** The entries ['overall_confidence'] and ['alignments'] of the result
    of [negotiate]. *)
Record demo_result : Type := mkResult {
  overall_confidence : Q;
  alignments : list alignment
}.

(** [EnhancedNegotiator.negotiate], without its messages: the mock
    analysis, the refinement of every confidence, and the overall
    confidence in per cent with one decimal. *)
Definition negotiate (rnd : EnhancedServer.rng) (n : nat)
    (source_schema target_schema : EnhancedServer.schema) : demo_result * nat :=
  let '(found, n1) := _mock_semantic_analysis rnd n source_schema target_schema in
  let '(refined, n2) := fold_left (refine_step rnd) found ([], n1) in
  let overall_confidence :=
    match refined with
    | [] => 0
    | _ => Py.sum (map confidence refined) / inject_Z (Z.of_nat (length refined))
    end in
  (mkResult (round1 (overall_confidence * 100)) refined, n2).

(** The loop of the mock analysis. *)
Lemma mock_fold rnd target_schema fields (st : list alignment * nat) :
  EnhancedServer.valid_rng rnd ->
  let r := fold_left (mock_step rnd target_schema) fields st in
  map source_field (fst r)
  = map source_field (fst st) ++ List.filter (mapped target_schema) fields /\
  (forall a, In a (fst r) ->
     In a (fst st) \/
     (EnhancedServer.get mappings (source_field a) = Some (target_field a) /\
      In (target_field a) (EnhancedServer.keys target_schema) /\
      0.85 <= confidence a /\ confidence a <= 0.95)) /\
  (snd r + length (fst st) = snd st + length (fst r))%nat.
Proof.
  intros Hv. revert st. induction fields as [|f fields IH]; intros [done n].
  - simpl. rewrite app_nil_r. split; [reflexivity|]. split; [auto|reflexivity].
  - cbn [fold_left List.filter]. cbv zeta in IH |- *.
    destruct (EnhancedServer.get mappings f) as [t|] eqn:Eg.
    + destruct (bool_decide (t ∈ EnhancedServer.keys target_schema)) eqn:Et.
      * assert (Hstep : mock_step rnd target_schema (done, n) f
                        = (done ++
                           [mkAlignment f t (0.85 + EnhancedServer.uniform rnd n 0 0.1)
                              "Semantic mapping"
                              ("'" ++ f ++ "' semantically maps to '" ++ t ++ "'")%string],
                           S n))
          by (unfold mock_step; rewrite Eg, Et; reflexivity).
        assert (Hm : mapped target_schema f = true)
          by (unfold mapped; rewrite Eg; exact Et).
        rewrite Hstep, Hm.
        destruct (IH (done ++
            [mkAlignment f t (0.85 + EnhancedServer.uniform rnd n 0 0.1)
               "Semantic mapping"
               ("'" ++ f ++ "' semantically maps to '" ++ t ++ "'")%string], S n))
          as (H1 & H2 & H3).
        cbn [fst snd] in *. split; [|split].
        -- rewrite H1, map_app, <- app_assoc. reflexivity.
        -- intros a Ha. destruct (H2 a Ha) as [Hin|Hnew]; [|right; exact Hnew].
           apply in_app_iff in Hin. destruct Hin as [Hin|[<-|[]]]; [left; exact Hin|].
           right. cbn [source_field target_field confidence].
           split; [exact Eg|]. split.
           ++ apply bool_decide_eq_true in Et. apply list_elem_of_In. exact Et.
           ++ pose proof (EnhancedServerSpec.uniform_range rnd n 0 0.1 Hv ltac:(lra)).
              lra.
        -- rewrite length_app in H3. cbn [length] in H3. lia.
      * assert (Hstep : mock_step rnd target_schema (done, n) f = (done, n))
          by (unfold mock_step; rewrite Eg, Et; reflexivity).
        assert (Hm : mapped target_schema f = false)
          by (unfold mapped; rewrite Eg; exact Et).
        rewrite Hstep, Hm. apply IH.
    + assert (Hstep : mock_step rnd target_schema (done, n) f = (done, n))
        by (unfold mock_step; rewrite Eg; reflexivity).
      assert (Hm : mapped target_schema f = false)
        by (unfold mapped; rewrite Eg; reflexivity).
      rewrite Hstep, Hm. apply IH.
Qed.



(** The mock analysis aligns the source fields of its table whose
    counterpart is a field of the target schema, in the order of the
    source schema and whatever is drawn; with a valid random source each
    confidence is between 0.85 and 0.95, and one number is drawn for each
    alignment. *)
Theorem mock_analysis_alignments rnd n source_schema target_schema :
  EnhancedServer.valid_rng rnd ->
  let r := _mock_semantic_analysis rnd n source_schema target_schema in
  map source_field (fst r)
  = List.filter (mapped target_schema) (EnhancedServer.keys source_schema) /\
  (forall a, In a (fst r) ->
     EnhancedServer.get mappings (source_field a) = Some (target_field a) /\
     In (target_field a) (EnhancedServer.keys target_schema) /\
     0.85 <= confidence a /\ confidence a <= 0.95) /\
  snd r = (n + length (fst r))%nat.
Proof.
  intros Hv. cbv zeta. unfold _mock_semantic_analysis.
  destruct (mock_fold rnd target_schema (EnhancedServer.keys source_schema) ([], n) Hv)
    as (H1 & H2 & H3).
  cbn [fst snd map app length] in *. split; [exact H1|]. split.
  - intros a Ha. destruct (H2 a Ha) as [[]|H]. exact H.
  - lia.
Qed.

Lemma mock_analysis_alignments_witness :
  map source_field
    (fst (_mock_semantic_analysis EnhancedServerSpec.draws_half 0
            EnhancedDemoSpec.demo_source EnhancedDemoSpec.demo_target))
  = List.filter (mapped EnhancedDemoSpec.demo_target)
      (EnhancedServer.keys EnhancedDemoSpec.demo_source).
Proof.
  exact (proj1 (mock_analysis_alignments EnhancedServerSpec.draws_half 0
                  EnhancedDemoSpec.demo_source EnhancedDemoSpec.demo_target
                  EnhancedServerSpec.draws_half_valid)).
Defined.



(** At the lowest draws the refined confidence is 0.8: not above the 0.8
    that the generated code asks for its direct assignment. *)
Example demo_negotiate_lowest :
  map (fun a => Qred (confidence a))
    (alignments
       (fst (negotiate EnhancedServerSpec.draws_zero 0
               EnhancedDemoSpec.demo_source EnhancedDemoSpec.demo_target)))
  = [Qmake 4 5] /\
  overall_confidence
    (fst (negotiate EnhancedServerSpec.draws_zero 0
            EnhancedDemoSpec.demo_source EnhancedDemoSpec.demo_target))
  = Qmake 800 10.
Proof. vm_compute. split; reflexivity. Qed.

End DemoFacts.
